(** * StokCerdas ML forecasting services: a shallow embedding

    The three Python services under [src/ml-forecasting/python]
    ([arima_service.py], [prophet_service.py], [xgboost_service.py]) are
    embedded as Rocq functions.  The statistical libraries they call
    (statsmodels, pmdarima, Prophet, XGBoost) are black boxes of the
    program; they appear here as Section variables (oracles) that either
    return a value or raise.

    Numbers.  A finite Python/numpy float is modelled by a rational [Q]:
    comparisons, [max] and clamping are exact on floats, and rounding of
    products and quotients is not modelled, except where a statement
    turns on it (the overfitting check of the tree backend, whose product
    and quotient go through a rounding oracle).  Where the source reads a
    float from a library that may hand back NaN or an infinity (an AIC, a
    predicted mean, an interval bound), or can produce one itself (a
    quotient with a zero divisor), the extended numbers [xnum] below are
    used.  A missing value (JSON null, pandas NaN in an input column) is
    [None] in a [list (option Q)]. *)

From Stdlib Require Import ZArith QArith Qabs Qround List String DecimalString Bool Lia Lqa
  Sorted Permutation.
Import ListNotations.

Local Open Scope string_scope.

(** ** Python-level plumbing *)

(** An exception: the name of its class and [str(e)]. *)
Record exn : Type := Exn { exn_type : string; exn_msg : string }.

Inductive result (A : Type) : Type :=
| Ok (a : A)
| Raise (e : exn).
Arguments Ok {A} a.
Arguments Raise {A} e.

Definition bind {A B : Type} (r : result A) (k : A -> result B) : result B :=
  match r with
  | Ok a => k a
  | Raise e => Raise e
  end.

Notation "'let*' x ':=' r 'in' k" := (bind r (fun x => k))
  (at level 10, x name, r at level 100, k at level 200).

(** [str(n)] for a length. *)
Definition str_nat (n : nat) : string := NilZero.string_of_uint (Nat.to_uint n).

(** [a < b] on floats, as a boolean. *)
Definition Qlt_bool (a b : Q) : bool := negb (Qle_bool b a).

(** Python's builtin [max(0, x)]: the first argument is kept unless the
    second is strictly greater.  [np.maximum(x, 0)] agrees with it on
    finite values. *)
Definition max0 (x : Q) : Q := if Qlt_bool 0 x then x else 0%Q.

(** ** Extended numbers: what a float quotient can be

    IEEE arithmetic without rounding and without the sign of zero:
    [NaN] absorbs, [x / 0] is an infinity of the sign of [x] and [0 / 0]
    is [NaN]. *)

Inductive xnum : Type :=
| Fin (q : Q)
| PInf
| NInf
| NaN.

Definition Qsign_pos (q : Q) : bool := Qlt_bool 0 q.
Definition Qsign_neg (q : Q) : bool := Qlt_bool q 0.

Definition xneg (a : xnum) : xnum :=
  match a with
  | Fin q => Fin (- q)
  | PInf => NInf
  | NInf => PInf
  | NaN => NaN
  end.

Definition xadd (a b : xnum) : xnum :=
  match a, b with
  | NaN, _ | _, NaN => NaN
  | Fin x, Fin y => Fin (x + y)
  | PInf, NInf | NInf, PInf => NaN
  | PInf, _ | _, PInf => PInf
  | NInf, _ | _, NInf => NInf
  end.

Definition xsub (a b : xnum) : xnum := xadd a (xneg b).

Definition xabs (a : xnum) : xnum :=
  match a with
  | Fin q => Fin (Qabs q)
  | PInf | NInf => PInf
  | NaN => NaN
  end.

Definition xmul (a b : xnum) : xnum :=
  match a, b with
  | NaN, _ | _, NaN => NaN
  | Fin x, Fin y => Fin (x * y)
  | Fin x, PInf | PInf, Fin x =>
      if Qsign_pos x then PInf else if Qsign_neg x then NInf else NaN
  | Fin x, NInf | NInf, Fin x =>
      if Qsign_pos x then NInf else if Qsign_neg x then PInf else NaN
  | PInf, PInf | NInf, NInf => PInf
  | PInf, NInf | NInf, PInf => NInf
  end.

Definition xdiv (a b : xnum) : xnum :=
  match a, b with
  | NaN, _ | _, NaN => NaN
  | Fin x, Fin y =>
      if Qeq_bool y 0
      then if Qsign_pos x then PInf else if Qsign_neg x then NInf else NaN
      else Fin (x / y)
  | Fin _, _ => Fin 0
  | PInf, Fin y => if Qsign_neg y then NInf else PInf
  | NInf, Fin y => if Qsign_neg y then PInf else NInf
  | _, _ => NaN
  end.

(** [x != 0] on floats: true for NaN and the infinities. *)
Definition xnonzero (a : xnum) : bool :=
  match a with
  | Fin q => negb (Qeq_bool q 0)
  | _ => true
  end.

Definition xisnan (a : xnum) : bool :=
  match a with
  | NaN => true
  | _ => false
  end.

(** [a == 0] on floats. *)
Definition xeq0 (a : xnum) : bool :=
  match a with
  | Fin q => Qeq_bool q 0
  | _ => false
  end.

(** [b < a] on floats: false as soon as one side is NaN. *)
Definition xlt (b a : xnum) : bool :=
  match b, a with
  | NaN, _ | _, NaN => false
  | Fin x, Fin y => Qlt_bool x y
  | NInf, NInf | PInf, _ => false
  | NInf, _ | _, PInf => true
  | Fin _, NInf => false
  end.

(** [b <= a] on floats. *)
Definition xle (b a : xnum) : bool :=
  match b, a with
  | NaN, _ | _, NaN => false
  | Fin x, Fin y => Qle_bool x y
  | NInf, _ | _, PInf => true
  | PInf, _ | _, NInf => false
  end.

(** [a == float('inf')]. *)
Definition xis_pinf (a : xnum) : bool :=
  match a with
  | PInf => true
  | _ => false
  end.

(** [np.maximum(a, 0)]: NaN propagates. *)
Definition xmax0 (a : xnum) : xnum :=
  match a with
  | Fin q => Fin (max0 q)
  | PInf => PInf
  | NInf => Fin 0
  | NaN => NaN
  end.

(** *** Rounding to float64

    The float an operation returns is its exact result rounded to the
    nearest number with a 53-bit significand, ties to even; below
    [2^-1022] the spacing stays [2^-1074] (subnormals), and a result
    that rounds to [2^1024] or more is an infinity. *)

(** The integer nearest to a non-negative rational, ties to even. *)
Definition round_half_even (q : Q) : Z :=
  let f := Qfloor q in
  match Qcompare (q - inject_Z f) (1 # 2) with
  | Lt => f
  | Gt => (f + 1)%Z
  | Eq => if Z.even f then f else (f + 1)%Z
  end.

(** [floor (log2 a)] for a positive rational. *)
Definition ilog2 (a : Q) : Z :=
  let k := (Z.log2 (Qnum a) - Z.log2 (Zpos (Qden a)))%Z in
  if Qle_bool (Qpower 2 k) a then k else (k - 1)%Z.

Definition binary64 (q : Q) : xnum :=
  if Qeq_bool q 0 then Fin 0
  else
    let a := Qabs q in
    let e := Z.max (ilog2 a) (-1022) in
    let ulp := Qpower 2 (e - 52) in
    let r := Qred (inject_Z (round_half_even (a / ulp)) * ulp) in
    if Qle_bool (Qpower 2 1024) r then (if Qlt_bool 0 q then PInf else NInf)
    else Fin (if Qlt_bool q 0 then - r else r).

(** The float nearest to a decimal literal. *)
Definition float_literal (q : Q) : Q :=
  match binary64 q with
  | Fin r => r
  | _ => 0
  end.

Definition xsum (l : list xnum) : xnum := fold_left xadd l (Fin 0).

Definition Qofnat (n : nat) : Q := inject_Z (Z.of_nat n).

(** [np.mean] of an ndarray: NaN propagates; the mean of nothing is NaN. *)
Definition np_mean (l : list xnum) : xnum :=
  match l with
  | [] => NaN
  | _ => xdiv (xsum l) (Fin (Qofnat (List.length l)))
  end.

(** [np.mean] of a pandas Series dispatches to [Series.mean], which
    skips NaN entries. *)
Definition series_mean (l : list xnum) : xnum :=
  np_mean (filter (fun a => negb (xisnan a)) l).

(** A column read as floats: a missing entry is NaN. *)
Definition to_float (v : option Q) : xnum :=
  match v with
  | Some q => Fin q
  | None => NaN
  end.

(** ** Missing-value filling, shared by the three preparations *)

(** [fillna(method='ffill')]: a missing entry takes the last valid value
    before it; leading missing entries stay. *)
Fixpoint ffill_from (last : option Q) (l : list (option Q)) : list (option Q) :=
  match l with
  | [] => []
  | Some x :: t => Some x :: ffill_from (Some x) t
  | None :: t => last :: ffill_from last t
  end.

Definition ffill (l : list (option Q)) : list (option Q) := ffill_from None l.

(** [fillna(method='bfill')]: a missing entry takes the next valid value. *)
Fixpoint bfill (l : list (option Q)) : list (option Q) :=
  match l with
  | [] => []
  | Some x :: t => Some x :: bfill t
  | None :: t => let t' := bfill t in hd None t' :: t'
  end.

(** Python truthiness of an optional list argument ([if dates:]). *)
Definition truthy {A : Type} (o : option (list A)) : bool :=
  match o with
  | Some (_ :: _) => true
  | _ => false
  end.

(** ** Time: pandas timestamps as nanoseconds since the epoch *)

Definition day_ns : Z := 86400000000000%Z.

(** [pd.Timedelta(days=k)]. *)
Definition Timedelta_days (k : Z) : Z := (k * day_ns)%Z.

(** [pd.date_range(start=..., periods=n, freq='D')]. *)
Definition date_range (start : Z) (periods : nat) : list Z :=
  map (fun k => (start + Timedelta_days (Z.of_nat k))%Z) (seq 0 periods).

(** The synthetic index of the decomposable and tree preparations:
    [start_date = now - Timedelta(days=len(data_points)-1)], then a daily
    range of [len(data_points)] stamps. *)
Definition synthetic_dates (now : Z) (n : nat) : list Z :=
  date_range (now - Timedelta_days (Z.of_nat n - 1))%Z n.

(** Calendar fields of a timestamp (proleptic Gregorian calendar, as
    pandas computes them). *)
Definition days_of (t : Z) : Z := (t / day_ns)%Z.

Definition civil_from_days (z0 : Z) : Z * Z * Z :=
  (let z := z0 + 719468 in
   let era := z / 146097 in
   let doe := z - era * 146097 in
   let yoe := (doe - doe / 1460 + doe / 36524 - doe / 146096) / 365 in
   let doy := doe - (365 * yoe + yoe / 4 - yoe / 100) in
   let mp := (5 * doy + 2) / 153 in
   let d := doy - (153 * mp + 2) / 5 + 1 in
   let m := if mp <? 10 then mp + 3 else mp - 9 in
   let y := yoe + era * 400 + (if m <=? 2 then 1 else 0) in
   (y, m, d))%Z.

Definition ts_month (t : Z) : Z := snd (fst (civil_from_days (days_of t))).
Definition ts_dayofweek (t : Z) : Z := ((days_of t + 3) mod 7)%Z.
Definition ts_quarter (t : Z) : Z := ((ts_month t - 1) / 3 + 1)%Z.

(** ** The autoregressive backend ([arima_service.py]) *)

Module Arima.

Definition order : Type := (nat * nat * nat)%type.
Definition seasonal_order : Type := (nat * nat * nat * nat)%type.

(** A grid candidate: [(p, d, q)] and the seasonal order ([None] is
    Python's [None]). *)
Definition candidate : Type := (order * option seasonal_order)%type.

(** The index of a prepared series: the default sequential index of
    [pd.Series(data_points)], or the given dates. *)
Inductive index : Type :=
| RangeIndex (n : nat)
| DatetimeIndex (stamps : list Z).

Record series : Type := {
  s_index : index;
  s_values : list (option Q)
}.

(** What [forecast] reads from the statsmodels forecast object.
    [predicted_mean] may be a pandas Series (read with [.iloc[i]]), a
    list or ndarray (read with [[i]]) or a scalar.  The containers are
    given by their indexing operation, which may raise. *)
Inductive forecast_values : Type :=
| FV_Series (iloc : nat -> result xnum)
| FV_Array (getitem : nat -> result xnum)
| FV_Scalar (x : xnum).

(** A cell of the interval table: a float, or an object on which
    [float()] raises the given exception. *)
Inductive cell : Type :=
| CNum (x : xnum)
| CBad (e : exn).

(** [conf_int]: a DataFrame (read with [.iloc[i, j]]), an ndarray
    (read with [[i, j]]) or anything else. *)
Inductive conf_table : Type :=
| CI_Frame (iloc : nat -> nat -> result cell)
| CI_Array (getitem : nat -> nat -> result cell)
| CI_Other.

Record forecast_result : Type := {
  predicted_mean : forecast_values;
  conf_int : Q -> result conf_table   (* argument: alpha *)
}.

(** The statsmodels results object, as far as the service reads it.
    Its criteria are floats: statsmodels hands back NaN or an infinity
    on a degenerate likelihood. *)
Record fitted : Type := {
  f_aic : xnum;
  f_bic : xnum;
  f_llf : xnum;
  f_fittedvalues : list xnum;
  f_get_forecast : nat -> result forecast_result
}.

(** The pmdarima model returned by [auto_arima]. *)
Record auto_model : Type := {
  am_order : order;
  am_seasonal_order : seasonal_order;
  am_aic : xnum;
  am_bic : xnum
}.

(** The dict returned by [auto_arima_selection] and
    [simple_arima_grid_search].  A key that a return statement does not
    write is [None] in [sel_method], [sel_fallback], [sel_error]; the
    keys ['aic'], ['bic'], ['model'] are always present and hold
    Python's [None] when the field is [None]. *)
Record selection : Type := {
  sel_order : order;
  sel_seasonal_order : option seasonal_order;
  sel_aic : option xnum;
  sel_bic : option xnum;
  sel_model : option auto_model;
  sel_method : option string;
  sel_fallback : option bool;
  sel_error : option string
}.

(** Loop state of the grid search. *)
Record search_state : Type := {
  best_aic : xnum;
  best_order : order;
  best_seasonal_order : option seasonal_order
}.

Definition p_values : list nat := [0; 1; 2]%nat.
Definition d_values : list nat := [0; 1]%nat.
Definition q_values : list nat := [0; 1; 2]%nat.

Definition seasonal_orders (seasonal : bool) (m : nat) : list (option seasonal_order) :=
  if seasonal then [Some (0, 1, 0, m); Some (1, 1, 1, m)]%nat else [None].

(** The four nested [for] loops, in iteration order. *)
Definition grid (seasonal : bool) (m : nat) : list candidate :=
  flat_map (fun p =>
    flat_map (fun d =>
      flat_map (fun q =>
        map (fun so => ((p, d, q), so)) (seasonal_orders seasonal m))
        q_values)
      d_values)
    p_values.

(** One emitted forecast dict.  [fp_error = None]: the key ['error'] is
    absent. *)
Record forecast_point : Type := {
  fp_step : nat;
  fp_forecast : xnum;
  fp_lower_bound : xnum;
  fp_upper_bound : xnum;
  fp_confidence_level : Q;
  fp_error : option string
}.

(** The dict returned by [forecast]. *)
Inductive forecast_envelope : Type :=
| ForecastSuccess (forecasts : list forecast_point) (forecast_horizon : nat)
    (model_type : string) (confidence_level : Q)
| ForecastFailure (error : string).

Definition fc_success (e : forecast_envelope) : bool :=
  match e with
  | ForecastSuccess _ _ _ _ => true
  | ForecastFailure _ => false
  end.

Definition fc_forecasts (e : forecast_envelope) : list forecast_point :=
  match e with
  | ForecastSuccess l _ _ _ => l
  | ForecastFailure _ => []
  end.

(** [prepare_data].  The dates are the timestamps [pd.to_datetime]
    parsed them to.  A length mismatch makes the [pd.Series] constructor
    raise, with the two lengths in its message. *)
Definition prepare_data (data_points : list (option Q)) (dates : option (list Z))
  : result series :=
  let body : result series :=
    let* ts :=
      (if truthy dates then
         match dates with
         | Some ds =>
             if Nat.eqb (List.length ds) (List.length data_points)
             then Ok {| s_index := DatetimeIndex ds; s_values := data_points |}
             else Raise (Exn "ValueError"
                             ("Length of values (" ++ str_nat (List.length data_points)
                              ++ ") does not match length of index ("
                              ++ str_nat (List.length ds) ++ ")"))
         | None => Ok {| s_index := RangeIndex (List.length data_points);
                         s_values := data_points |}
         end
       else Ok {| s_index := RangeIndex (List.length data_points);
                  s_values := data_points |}) in
    let ts := {| s_index := s_index ts; s_values := bfill (ffill (s_values ts)) |} in
    if Nat.ltb (List.length (s_values ts)) 10
    then Raise (Exn "ValueError" "Insufficient data points for ARIMA (minimum 10 required)")
    else Ok ts in
  match body with
  | Ok ts => Ok ts
  | Raise e => Raise (Exn "Exception" ("Data preparation failed: " ++ exn_msg e))
  end.

(** Boolean-mask indexing [a[mask]]: numpy raises when the lengths
    differ. *)
Definition mask_select (mask : list bool) (a : list xnum) : result (list xnum) :=
  if Nat.eqb (List.length mask) (List.length a)
  then Ok (map snd (filter fst (combine mask a)))
  else Raise (Exn "IndexError" "boolean index did not match indexed array").

(** [calculate_mape]: both arguments are turned into ndarrays; any
    exception gives [100.0]. *)
Definition calculate_mape (actual predicted : list xnum) : xnum :=
  let mask := map xnonzero actual in
  if Nat.eqb (List.length (filter (fun b => b) mask)) 0 then Fin 100
  else
    match mask_select mask actual, mask_select mask predicted with
    | Ok a, Ok p =>
        xmul (np_mean (map (fun ap => xabs (xdiv (xsub (fst ap) (snd ap)) (fst ap)))
                           (combine a p)))
             (Fin 100)
    | _, _ => Fin 100
    end.

(** Point extraction of one loop iteration of [forecast]. *)
Definition extract_point (fv : forecast_values) (i : nat) : result xnum :=
  match fv with
  | FV_Series iloc => iloc i
  | FV_Array getitem => getitem i
  | FV_Scalar x => Ok x
  end.

(** [float(c)]. *)
Definition float_of_cell (c : cell) : result xnum :=
  match c with
  | CNum x => Ok x
  | CBad e => Raise e
  end.

Definition extract_bounds (ci : conf_table) (i : nat) (forecast_val : xnum)
  : result (xnum * xnum) :=
  match ci with
  | CI_Frame iloc =>
      let* c0 := iloc i 0%nat in
      let* lower_val := float_of_cell c0 in
      let* c1 := iloc i 1%nat in
      let* upper_val := float_of_cell c1 in
      Ok (lower_val, upper_val)
  | CI_Array getitem =>
      let* c0 := getitem i 0%nat in
      let* lower_val := float_of_cell c0 in
      let* c1 := getitem i 1%nat in
      let* upper_val := float_of_cell c1 in
      Ok (lower_val, upper_val)
  | CI_Other => Ok (xmul forecast_val (Fin (8 # 10)), xmul forecast_val (Fin (12 # 10)))
  end.

(** [np.maximum(forecast_values, 0)], element by element. *)
Definition np_maximum0 (fv : forecast_values) : forecast_values :=
  match fv with
  | FV_Series iloc => FV_Series (fun i => let* x := iloc i in Ok (xmax0 x))
  | FV_Array getitem => FV_Array (fun i => let* x := getitem i in Ok (xmax0 x))
  | FV_Scalar x => FV_Scalar (xmax0 x)
  end.

(** Body of the [for i in range(steps)] loop: the inner [try] and its
    [except]. *)
Definition forecast_step (fv : forecast_values) (ci : conf_table)
    (confidence_level : Q) (i : nat) : forecast_point :=
  let attempt : result forecast_point :=
    let* forecast_val := extract_point fv i in
    let* bounds := extract_bounds ci i forecast_val in
    Ok {| fp_step := (i + 1)%nat;
          fp_forecast := forecast_val;
          fp_lower_bound := fst bounds;
          fp_upper_bound := snd bounds;
          fp_confidence_level := confidence_level;
          fp_error := None |} in
  match attempt with
  | Ok pt => pt
  | Raise inner_e =>
      {| fp_step := (i + 1)%nat;
         fp_forecast := Fin 0;
         fp_lower_bound := Fin 0;
         fp_upper_bound := Fin 0;
         fp_confidence_level := confidence_level;
         fp_error := Some (exn_msg inner_e) |}
  end.

(** [forecast], given the value of [self.fitted_model]. *)
Definition forecast (fitted_model : option fitted) (steps : nat) (confidence_level : Q)
  : result forecast_envelope :=
  match fitted_model with
  | None => Raise (Exn "Exception" "Model must be fitted before forecasting")
  | Some fm =>
      let body : result forecast_envelope :=
        let* forecast_result := f_get_forecast fm steps in
        let forecast_values := predicted_mean forecast_result in
        let* ci := conf_int forecast_result (1 - confidence_level)%Q in
        let forecast_values := np_maximum0 forecast_values in
        let forecasts := map (forecast_step forecast_values ci confidence_level)
                             (seq 0 steps) in
        Ok (ForecastSuccess forecasts steps "ARIMA" confidence_level) in
      match body with
      | Ok env => Ok env
      | Raise e => Ok (ForecastFailure (exn_msg e))
      end
  end.

(** *** The service object

    A [RealARIMAService] instance is its attribute dictionary;
    attribute access looks there first and then among the functions of
    the class, as Python does for plain functions. *)

Record decomposition : Type := {
  dc_trend : list xnum;
  dc_seasonal : list xnum;
  dc_resid : list xnum
}.

Inductive pyobj : Type :=
| PyNone
| PyFitted (fm : fitted)
| PyDecomposition (d : decomposition)
| PyBoundMethod (name : string).

Definition instance : Type := list (string * pyobj).

Definition class_functions : list string :=
  ["prepare_data"; "check_stationarity"; "auto_arima_selection";
   "simple_arima_grid_search"; "fit_arima_model"; "forecast";
   "seasonal_decomposition"; "calculate_seasonal_strength"; "calculate_mape"].

Fixpoint dict_get (d : instance) (name : string) : option pyobj :=
  match d with
  | [] => None
  | (k, v) :: rest => if String.eqb k name then Some v else dict_get rest name
  end.

Fixpoint dict_set (d : instance) (name : string) (v : pyobj) : instance :=
  match d with
  | [] => [(name, v)]
  | (k, w) :: rest =>
      if String.eqb k name then (k, v) :: rest else (k, w) :: dict_set rest name v
  end.

Definition getattr (self : instance) (name : string) : result pyobj :=
  match dict_get self name with
  | Some v => Ok v
  | None =>
      if existsb (String.eqb name) class_functions
      then Ok (PyBoundMethod name)
      else Raise (Exn "AttributeError"
                      ("'RealARIMAService' object has no attribute '" ++ name ++ "'"))
  end.

(** [self.name(...)]: the attribute is fetched, then called. *)
Definition callable (self : instance) (name : string) : result unit :=
  let* f := getattr self name in
  match f with
  | PyBoundMethod _ => Ok tt
  | PyNone => Raise (Exn "TypeError" "'NoneType' object is not callable")
  | PyFitted _ => Raise (Exn "TypeError" "'ARIMAResultsWrapper' object is not callable")
  | PyDecomposition _ => Raise (Exn "TypeError" "'DecomposeResult' object is not callable")
  end.

(** [__init__]. *)
Definition init : instance :=
  [("model", PyNone); ("fitted_model", PyNone); ("seasonal_decomposition", PyNone)].

Definition fitted_model_of (self : instance) : option fitted :=
  match dict_get self "fitted_model" with
  | Some (PyFitted fm) => Some fm
  | _ => None
  end.

(** The dict returned by [check_stationarity]. *)
Inductive stationarity : Type :=
| Stationarity (is_stationary : bool) (adf_statistic p_value : Q)
| StationarityError (error : string).

(** The dict returned by [seasonal_decomposition]. *)
Inductive seasonal_analysis : Type :=
| SeasonalSuccess (trend seasonal residual : list xnum) (period : nat)
    (model_type : string) (seasonal_strength : xnum)
| SeasonalFailure (error : string).

(** The dict returned by [fit_arima_model]; the residual statistics
    and the printed summary are left out. *)
Inductive model_fit : Type :=
| FitSuccess (order_used : order) (seasonal_order_used : option seasonal_order)
    (aic bic log_likelihood : xnum) (mape : xnum)
| FitFailure (error : string).

(** What [main] prints. *)
Inductive main_output : Type :=
| OutInsufficient
| OutFitFailed (error : string)
| OutSuccess (n_points : nat) (stationarity_test : stationarity)
    (seasonal : option seasonal_analysis) (model_diagnostics : model_fit)
    (forecasts : forecast_envelope)
| OutError (error error_type : string).

Definition out_success (o : main_output) : bool :=
  match o with
  | OutSuccess _ _ _ _ _ => true
  | _ => false
  end.

(** The parsed request; a key that is absent is [None]. *)
Record request : Type := {
  r_data_points : option (list (option Q));
  r_dates : option (list Z);
  r_forecast_steps : option nat;
  r_confidence_level : option Q;
  r_seasonal : option bool;
  r_seasonal_period : option nat
}.

Definition get_default {A : Type} (o : option A) (d : A) : A :=
  match o with
  | Some a => a
  | None => d
  end.

Definition dropna (l : list xnum) : list xnum := filter (fun a => negb (xisnan a)) l.

(** [np.var]. *)
Definition np_var (l : list xnum) : xnum :=
  let mu := np_mean l in
  np_mean (map (fun x => xmul (xsub x mu) (xsub x mu)) l).

(** [calculate_seasonal_strength]; [min(s, 1.0)] keeps [s] unless
    [1.0 < s]. *)
Definition calculate_seasonal_strength (d : decomposition) : xnum :=
  let seasonal_var := np_var (dropna (dc_seasonal d)) in
  let residual_var := np_var (dropna (dc_resid d)) in
  if xeq0 residual_var then Fin 1
  else
    let seasonal_strength := xdiv seasonal_var (xadd seasonal_var residual_var) in
    if xlt (Fin 1) seasonal_strength then Fin 1 else seasonal_strength.

Section Service.

(** [ARIMA(timeseries, order=..., seasonal_order=...).fit()]. *)
Variable ARIMA_fit : series -> order -> option seasonal_order -> result fitted.

(** [PMDARIMA_AVAILABLE] and pmdarima's [auto_arima]. *)
Variable PMDARIMA_AVAILABLE : bool.
Variable auto_arima : series -> bool -> nat -> result auto_model.

(** [adfuller]: the statistic and the p-value. *)
Variable adfuller : list (option Q) -> result (Q * Q).

(** [seasonal_decompose(timeseries, model=, period=,
    extrapolate_trend='freq')]. *)
Variable seasonal_decompose : series -> string -> nat -> result decomposition.

(** Body of the [try] in the innermost loop: the AIC of the fitted
    candidate, or [None] when anything in it raised (bare [except:
    continue]). *)
Definition try_fit (ts : series) (c : candidate) : option xnum :=
  match ARIMA_fit ts (fst c) (snd c) with
  | Ok fm => Some (f_aic fm)
  | Raise _ => None
  end.

(** [fitted_model.aic < best_aic], a comparison of floats: an AIC that
    is NaN or [+inf] never improves on anything. *)
Definition aic_improves (a best : xnum) : bool := xlt a best.

Definition search_step (ts : series) (st : search_state) (c : candidate) : search_state :=
  match try_fit ts c with
  | Some a =>
      if aic_improves a (best_aic st)
      then {| best_aic := a; best_order := fst c; best_seasonal_order := snd c |}
      else st
  | None => st
  end.

(** [best_aic = float('inf')], [best_order = (1, 1, 1)],
    [best_seasonal_order = None]. *)
Definition search_init : search_state :=
  {| best_aic := PInf; best_order := (1, 1, 1)%nat; best_seasonal_order := None |}.

Definition simple_arima_grid_search (ts : series) (seasonal : bool) (m : nat) : selection :=
  let st := fold_left (search_step ts) (grid seasonal m) search_init in
  {| sel_order := best_order st;
     sel_seasonal_order := best_seasonal_order st;
     sel_aic := if xis_pinf (best_aic st) then None else Some (best_aic st);
     sel_bic := None;
     sel_model := None;
     sel_method := Some "simple_grid_search";
     sel_fallback := None;
     sel_error := None |}.

Definition auto_arima_selection (ts : series) (seasonal : bool) (m : nat) : selection :=
  if PMDARIMA_AVAILABLE then
    match auto_arima ts seasonal m with
    | Ok am =>
        {| sel_order := am_order am;
           sel_seasonal_order := if seasonal then Some (am_seasonal_order am) else None;
           sel_aic := Some (am_aic am);
           sel_bic := Some (am_bic am);
           sel_model := Some am;
           sel_method := None;
           sel_fallback := None;
           sel_error := None |}
    | Raise e =>
        {| sel_order := (1, 1, 1)%nat;
           sel_seasonal_order := None;
           sel_aic := None;
           sel_bic := None;
           sel_model := None;
           sel_method := None;
           sel_fallback := Some true;
           sel_error := Some (exn_msg e) |}
    end
  else simple_arima_grid_search ts seasonal m.

Definition check_stationarity (ts : series) : stationarity :=
  match adfuller (filter (fun v => match v with Some _ => true | None => false end)
                         (s_values ts)) with
  | Ok (stat, p) => Stationarity (Qle_bool p (5 # 100)) stat p
  | Raise e => StationarityError (exn_msg e)
  end.

(** [fit_arima_model]: the new state of the instance and the dict.
    [self.fitted_model] is assigned as soon as the fit returns. *)
Definition fit_arima_model (self : instance) (ts : series)
    (ord : option order) (sord : option seasonal_order) : instance * model_fit :=
  let '(ord, sord) :=
    match ord with
    | None =>
        let auto_result := auto_arima_selection ts false 1 in
        (sel_order auto_result, sel_seasonal_order auto_result)
    | Some o => (o, sord)
    end in
  match ARIMA_fit ts ord sord with
  | Ok fm =>
      (dict_set self "fitted_model" (PyFitted fm),
       FitSuccess ord sord (f_aic fm) (f_bic fm) (f_llf fm)
         (calculate_mape (map to_float (s_values ts)) (f_fittedvalues fm)))
  | Raise e => (self, FitFailure (exn_msg e))
  end.

(** The function [seasonal_decomposition] of the class (what a call
    would run if the attribute resolved to it). *)
Definition seasonal_decomposition_function (self : instance) (ts : series)
    (model : string) (period : option nat) : instance * seasonal_analysis :=
  let period := get_default period (Nat.min (List.length (s_values ts) / 2) 30) in
  match seasonal_decompose ts model period with
  | Ok d =>
      (dict_set self "seasonal_decomposition" (PyDecomposition d),
       SeasonalSuccess (dc_trend d) (dc_seasonal d) (dc_resid d) period model
         (calculate_seasonal_strength d))
  | Raise e => (self, SeasonalFailure (exn_msg e))
  end.

(** The [try] body of [main], after the request is parsed. *)
Definition main_body (input_data : request) : result main_output :=
  let data_points := get_default (r_data_points input_data) [] in
  let dates := r_dates input_data in
  let forecast_steps := get_default (r_forecast_steps input_data) 30%nat in
  let confidence_level := get_default (r_confidence_level input_data) (95 # 100) in
  let seasonal := get_default (r_seasonal input_data) false in
  let seasonal_period := get_default (r_seasonal_period input_data) 7%nat in
  if Nat.ltb (List.length data_points) 10 then Ok OutInsufficient
  else
    let arima_service := init in
    let* _ := callable arima_service "prepare_data" in
    let* timeseries := prepare_data data_points dates in
    let* _ := callable arima_service "check_stationarity" in
    let stationarity_test := check_stationarity timeseries in
    let* sa :=
      (if seasonal then
         let* _ := callable arima_service "seasonal_decomposition" in
         let '(self', r) :=
           seasonal_decomposition_function arima_service timeseries "additive"
             (Some seasonal_period) in
         Ok (self', Some r)
       else Ok (arima_service, None)) in
    let '(arima_service, seasonal_analysis) := sa in
    let* _ := callable arima_service "fit_arima_model" in
    let '(arima_service, fit) := fit_arima_model arima_service timeseries None None in
    match fit with
    | FitFailure e => Ok (OutFitFailed e)
    | FitSuccess _ _ _ _ _ _ =>
        let* _ := callable arima_service "forecast" in
        let* forecast_result :=
          forecast (fitted_model_of arima_service) forecast_steps confidence_level in
        Ok (OutSuccess (List.length data_points) stationarity_test seasonal_analysis
              fit forecast_result)
    end.

(** [main]: every exception of the body becomes the error envelope. *)
Definition main (input_data : request) : main_output :=
  match main_body input_data with
  | Ok out => out
  | Raise e => OutError (exn_msg e) (exn_type e)
  end.

End Service.

End Arima.

(** ** The decomposable backend ([prophet_service.py]) *)

Module Prophet.

(** The two columns ['ds'] and ['y'] of the Prophet frame. *)
Record frame : Type := {
  ds : list Z;
  y : list (option Q)
}.

(** One row of a Prophet prediction, as far as the service reads it. *)
Record prediction : Type := {
  p_ds : Z;
  yhat : Q;
  yhat_lower : Q;
  yhat_upper : Q
}.

Record forecast_point : Type := {
  fp_step : option nat;
  fp_date : Z;
  fp_forecast : Q;
  fp_lower_bound : Q;
  fp_upper_bound : Q
}.

Inductive forecast_envelope : Type :=
| ForecastSuccess (forecasts : list forecast_point) (forecast_horizon : nat)
| ForecastFailure (error : string).

(** The dict returned by [generate_model_diagnostics]; the RMSE is
    left out. *)
Inductive diagnostics : Type :=
| DiagCrossValidation (mape mae coverage : Q) (cv_periods : nat)
| DiagInSample (mape mae : xnum)
| DiagError (error : string).

(** [prepare_data]; [now] is the reading of [pd.Timestamp.now()]. *)
Definition prepare_data (now : Z) (data_points : list (option Q)) (dates : option (list Z))
  : result frame :=
  let body : result frame :=
    let* df :=
      (if truthy dates then
         match dates with
         | Some stamps =>
             if Nat.eqb (List.length stamps) (List.length data_points)
             then Ok {| ds := stamps; y := data_points |}
             else Raise (Exn "ValueError" "All arrays must be of the same length")
         | None => Ok {| ds := synthetic_dates now (List.length data_points);
                         y := data_points |}
         end
       else Ok {| ds := synthetic_dates now (List.length data_points);
                  y := data_points |}) in
    let df := {| ds := ds df; y := bfill (ffill (y df)) |} in
    if Nat.ltb (List.length (y df)) 10
    then Raise (Exn "ValueError" "Insufficient data points for Prophet (minimum 10 required)")
    else Ok {| ds := ds df; y := map (option_map max0) (y df) |} in
  match body with
  | Ok df => Ok df
  | Raise e => Raise (Exn "Exception" ("Data preparation failed: " ++ exn_msg e))
  end.

(** The in-sample MAPE of [generate_model_diagnostics]:
    [np.mean(np.abs((df['y'] - forecast['yhat']) / df['y'])) * 100].
    Both operands are pandas Series on the default index; rows present
    in one only would be NaN and are skipped by the mean. *)
Definition in_sample_mape (actual predicted : list xnum) : xnum :=
  xmul (series_mean (map (fun ap => xabs (xdiv (xsub (fst ap) (snd ap)) (fst ap)))
                         (combine actual predicted)))
       (Fin 100).

Definition in_sample_mae (actual predicted : list xnum) : xnum :=
  series_mean (map (fun ap => xabs (xsub (fst ap) (snd ap))) (combine actual predicted)).

(** [forecast.tail(periods)]. *)
Definition tail {A : Type} (n : nat) (l : list A) : list A :=
  skipn (List.length l - n) l.

Section Service.

(** [self.fitted_model.predict(df)] on the training frame. *)
Variable predict_in_sample : frame -> result (list prediction).

(** [cross_validation] followed by [performance_metrics]: the means
    of the columns and the number of cutoffs. *)
Variable cross_validation_performance : frame -> result (Q * Q * Q * nat).

(** [make_future_dataframe(periods, freq, include_history)] followed
    by [predict]. *)
Variable predict_future : nat -> bool -> result (list prediction).

Definition generate_model_diagnostics (df : frame) : diagnostics :=
  let body : result diagnostics :=
    if Nat.leb 30 (List.length (y df)) then
      let* perf := cross_validation_performance df in
      let '(mape, mae, coverage, periods) := perf in
      Ok (DiagCrossValidation mape mae coverage periods)
    else
      let* fc := predict_in_sample df in
      let actual := map to_float (y df) in
      let predicted := map (fun r => Fin (yhat r)) fc in
      Ok (DiagInSample (in_sample_mape actual predicted)
                       (in_sample_mae actual predicted)) in
  match body with
  | Ok d => d
  | Raise e => DiagError (exn_msg e)
  end.

(** [forecast], called on a fitted service. *)
Definition forecast (periods : nat) (include_history : bool) : forecast_envelope :=
  let body : result forecast_envelope :=
    let* fc := predict_future periods include_history in
    let forecast_values := if include_history then fc else tail periods fc in
    let forecast_values :=
      map (fun r => {| p_ds := p_ds r;
                       yhat := max0 (yhat r);
                       yhat_lower := max0 (yhat_lower r);
                       yhat_upper := max0 (yhat_upper r) |}) forecast_values in
    let forecasts :=
      map (fun ir =>
             {| fp_step := if include_history then None else Some (fst ir + 1)%nat;
                fp_date := p_ds (snd ir);
                fp_forecast := yhat (snd ir);
                fp_lower_bound := yhat_lower (snd ir);
                fp_upper_bound := yhat_upper (snd ir) |})
          (combine (seq 0 (List.length forecast_values)) forecast_values) in
    Ok (ForecastSuccess forecasts periods) in
  match body with
  | Ok env => env
  | Raise e => ForecastFailure (exn_msg e)
  end.

End Service.

End Prophet.

(** ** The tree backend ([xgboost_service.py]) *)

Module XGBoost.

(** A row of the base frame: the stamp ['ds'] and the value ['y']. *)
Definition row : Type := (Z * option Q)%type.

(** [external_features]: a name and a column of values per feature. *)
Definition external : Type := list (string * list (option Q)).

(** The frame returned by [prepare_features]: the two base columns and
    the engineered feature columns, by name and row-major. *)
Record frame : Type := {
  ds : list Z;
  y : list Q;
  columns : list string;
  X : list (list Q)
}.

(** [df.sort_values('ds')] as a stable insertion sort.  pandas leaves
    the relative order of rows with equal stamps to its sorting
    algorithm; nothing below depends on that order. *)
Fixpoint insert_row (r : row) (l : list row) : list row :=
  match l with
  | [] => [r]
  | h :: t => if (fst r <=? fst h)%Z then r :: l else h :: insert_row r t
  end.

Definition sort_values (l : list row) : list row := fold_right insert_row [] l.

(** The last [.fillna(0)] on the ['y'] column. *)
Definition fillna0 (v : option Q) : Q :=
  match v with
  | Some q => q
  | None => 0
  end.

(** The base rows of [prepare_features] up to [# Sort by date]. *)
Definition base_rows (now : Z) (data_points : list (option Q)) (dates : option (list Z))
  : result (list row) :=
  let* df :=
    (if truthy dates then
       match dates with
       | Some stamps =>
           if Nat.eqb (List.length stamps) (List.length data_points)
           then Ok (stamps, data_points)
           else Raise (Exn "ValueError" "All arrays must be of the same length")
       | None => Ok (synthetic_dates now (List.length data_points), data_points)
       end
     else Ok (synthetic_dates now (List.length data_points), data_points)) in
  let df := (fst df, bfill (ffill (snd df))) in
  Ok (sort_values (combine (fst df) (snd df))).

(** A fitted or unfitted [XGBRegressor]. *)
Record booster : Type := {
  xm_predict : list (list Q) -> result (list Q);
  xm_feature_importances : list Q
}.

Inductive regressor : Type :=
| Unfitted
| Fitted (m : booster).

(** Keyword arguments of [XGBRegressor]: the default dictionary of
    [create_xgboost_model], or one preset of the optimiser's grid. *)
Inductive hyperparameters : Type :=
| HP_Default
| HP_Preset (learning_rate : Q) (max_depth n_estimators : nat).

Definition param_grid : list hyperparameters :=
  [HP_Preset (5 # 100) 4 150; HP_Preset (10 # 100) 6 100; HP_Preset (15 # 100) 8 80].

(** The state of a fitted [StandardScaler]. *)
Record scaler_state : Type := {
  sc_mean : list Q;
  sc_scale : list Q
}.

(** The attributes of a [RealXGBoostService]. *)
Record service : Type := {
  model : option regressor;
  scaler : option scaler_state;
  feature_names : list string;
  feature_importance : list (string * Q)
}.

Definition init : service :=
  {| model := None; scaler := None; feature_names := []; feature_importance := [] |}.

Record overfitting_report : Type := {
  train_val_mae_ratio : xnum;
  is_overfitting : bool
}.

(** The success dict of [fit_xgboost_model]; RMSE, R2, the sorted
    importances and the echoed hyperparameters are left out. *)
Record model_diagnostics : Type := {
  training_samples : nat;
  validation_samples : nat;
  features_count : nat;
  train_mae : Q;
  train_mape : xnum;
  val_mae : Q;
  val_mape : xnum;
  overfitting_check : overfitting_report
}.

Inductive fit_result : Type :=
| FitSuccess (d : model_diagnostics)
| FitFailure (error : string).

Record forecast_point : Type := {
  fp_step : nat;
  fp_forecast : Q;
  fp_lower_bound : Q;
  fp_upper_bound : Q;
  fp_confidence_level : Q
}.

Inductive forecast_envelope : Type :=
| ForecastSuccess (forecasts : list forecast_point) (forecast_horizon : nat)
    (importance : list (string * Q))
| ForecastFailure (error : string).

Definition Qsum (l : list Q) : Q := fold_left Qplus l 0.

(** sklearn's [mean_absolute_error]; it raises on inputs of different
    lengths and on empty inputs. *)
Definition mean_absolute_error (y_true y_pred : list Q) : result Q :=
  if negb (Nat.eqb (List.length y_true) (List.length y_pred))
  then Raise (Exn "ValueError" "Found input variables with inconsistent numbers of samples")
  else if Nat.eqb (List.length y_true) 0
  then Raise (Exn "ValueError" "Found array with 0 sample(s)")
  else Ok (Qsum (map (fun tp => Qabs (fst tp - snd tp)) (combine y_true y_pred))
           / Qofnat (List.length y_true)).

(** The local function [calculate_mape] of [fit_xgboost_model]:
    [actual] is a pandas Series, [predicted] an ndarray, and the mask
    must have the length of [predicted]. *)
Definition calculate_mape (actual predicted : list xnum) : result xnum :=
  let mask := map xnonzero actual in
  if Nat.eqb (List.length (filter (fun b => b) mask)) 0 then Ok (Fin 100)
  else
    let* p := Arima.mask_select mask predicted in
    let a := map snd (filter fst (combine mask actual)) in
    Ok (xmul (series_mean (map (fun ap => xabs (xdiv (xsub (fst ap) (snd ap)) (fst ap)))
                               (combine a p)))
             (Fin 100)).

(** [int(len(X) * 0.8)]. *)
Definition split_index (n : nat) : nat := (n * 4 / 5)%nat.

(** The calendar entries [predict] knows for a future date, in the
    order the source writes them into [feature_dict]. *)
Definition feature_dict (names : list string) (future_date : Z) : list (string * Q) :=
  (if existsb (String.eqb "month") names
   then [("month", inject_Z (ts_month future_date))] else [])
  ++ (if existsb (String.eqb "dayofweek") names
      then [("dayofweek", inject_Z (ts_dayofweek future_date))] else [])
  ++ (if existsb (String.eqb "quarter") names
      then [("quarter", inject_Z (ts_quarter future_date))] else [])
  ++ (if existsb (String.eqb "is_weekend") names
      then [("is_weekend", if (5 <=? ts_dayofweek future_date)%Z then 1 else 0)] else []).

Fixpoint dict_get (d : list (string * Q)) (name : string) : option Q :=
  match d with
  | [] => None
  | (k, v) :: rest => if String.eqb k name then Some v else dict_get rest name
  end.

(** [base_features[i] = v]. *)
Fixpoint set_item (l : list Q) (i : nat) (v : Q) : list Q :=
  match l, i with
  | [], _ => []
  | _ :: t, O => v :: t
  | h :: t, S j => h :: set_item t j v
  end.

(** [np.zeros(len(self.feature_names))] followed by the loop over
    [enumerate(self.feature_names)]. *)
Definition base_features (names : list string) (future_date : Z) : list Q :=
  let fd := feature_dict names future_date in
  fold_left
    (fun base ifn =>
       match dict_get fd (snd ifn) with
       | Some v => set_item base (fst ifn) v
       | None => base
       end)
    (combine (seq 0 (List.length names)) names)
    (repeat 0 (List.length names)).

Section Service.

(** The feature columns derived from the sorted base rows and the
    external features (sections 1 to 7 of [prepare_features] and the
    closing fills on those columns): names and rows. *)
Variable derive_features :
  list row -> option external -> result (list string * list (list Q)).

(** [self.scaler.fit_transform]. *)
Variable fit_transform : list (list Q) -> result (scaler_state * list (list Q)).

(** The regressor built from the hyperparameters and fitted:
    [self.model.fit(X_train, y_train, eval_set=...)]. *)
Variable xgb_fit :
  hyperparameters -> list (list Q) -> list Q -> list (list Q) -> list Q -> result booster.

(** [-cross_val_score(...).mean()] for one preset. *)
Variable cross_val_mae : hyperparameters -> list (list Q) -> list Q -> result Q.

(** Rounding to float64: the float that an arithmetic operation on two
    floats returns is its exact result rounded (an infinity when it
    overflows); [binary64] is the rounding of IEEE 754. *)
Variable round : Q -> xnum.

(** The ['overfitting_check'] entry:
    [float(val_mae / train_mae) if train_mae > 0 else 1.0] and
    [val_mae > train_mae * 1.5].  The quotient and the product are two
    separate float operations. *)
Definition overfitting (train_mae val_mae : Q) : overfitting_report :=
  {| train_val_mae_ratio :=
       if Qlt_bool 0 train_mae then round (val_mae / train_mae) else Fin 1;
     is_overfitting := xlt (round (train_mae * (15 # 10))) (Fin val_mae) |}.

Definition prepare_features (now : Z) (data_points : list (option Q))
    (dates : option (list Z)) (external_features : option external) : result frame :=
  let body : result frame :=
    let* rows := base_rows now data_points dates in
    let* feats := derive_features rows external_features in
    Ok {| ds := map fst rows;
          y := map (fun r => fillna0 (snd r)) rows;
          columns := fst feats;
          X := snd feats |} in
  match body with
  | Ok df => Ok df
  | Raise e => Raise (Exn "Exception" ("Feature preparation failed: " ++ exn_msg e))
  end.

(** One turn of the loop of [optimize_hyperparameters];
    [best_score = None] is [float('inf')]. *)
Definition optimize_step (X_train : list (list Q)) (y_train : list Q)
    (st : result (option hyperparameters * option Q)) (params : hyperparameters)
  : result (option hyperparameters * option Q) :=
  let* s := st in
  let* avg_score := cross_val_mae params X_train y_train in
  match snd s with
  | None => Ok (Some params, Some avg_score)
  | Some best => if Qlt_bool avg_score best then Ok (Some params, Some avg_score) else Ok s
  end.

Definition optimize_hyperparameters (X_train : list (list Q)) (y_train : list Q)
  : option hyperparameters * option Q :=
  match fold_left (optimize_step X_train y_train) param_grid (Ok (None, None)) with
  | Ok r => r
  | Raise _ => (None, None)
  end.

(** [fit_xgboost_model]: the attributes are written as the source
    writes them, also when a later statement raises. *)
Definition fit_xgboost_model (self : service) (df : frame) (optimize_params : bool)
  : service * fit_result :=
  match fit_transform (X df) with
  | Raise e => (self, FitFailure (exn_msg e))
  | Ok (sc, Xs) =>
      let self := {| model := model self; scaler := Some sc;
                     feature_names := columns df;
                     feature_importance := feature_importance self |} in
      let split_idx := split_index (List.length Xs) in
      let X_train := firstn split_idx Xs in
      let X_val := skipn split_idx Xs in
      let y_train := firstn split_idx (y df) in
      let y_val := skipn split_idx (y df) in
      let hp :=
        if optimize_params && Nat.ltb 30 (List.length X_train) then
          match fst (optimize_hyperparameters X_train y_train) with
          | Some best_params => best_params
          | None => HP_Default
          end
        else HP_Default in
      let self := {| model := Some Unfitted; scaler := scaler self;
                     feature_names := feature_names self;
                     feature_importance := feature_importance self |} in
      match xgb_fit hp X_train y_train X_val y_val with
      | Raise e => (self, FitFailure (exn_msg e))
      | Ok m =>
          let self := {| model := Some (Fitted m); scaler := scaler self;
                         feature_names := feature_names self;
                         feature_importance := feature_importance self |} in
          let body : result model_diagnostics :=
            let* y_train_pred := xm_predict m X_train in
            let* y_val_pred := xm_predict m X_val in
            let* train_mae := mean_absolute_error y_train y_train_pred in
            let* val_mae := mean_absolute_error y_val y_val_pred in
            let* train_mape := calculate_mape (map Fin y_train) (map Fin y_train_pred) in
            let* val_mape := calculate_mape (map Fin y_val) (map Fin y_val_pred) in
            Ok {| training_samples := List.length X_train;
                  validation_samples := List.length X_val;
                  features_count := List.length (feature_names self);
                  train_mae := train_mae;
                  train_mape := train_mape;
                  val_mae := val_mae;
                  val_mape := val_mape;
                  overfitting_check := overfitting train_mae val_mae |} in
          match body with
          | Ok d =>
              ({| model := model self; scaler := scaler self;
                  feature_names := feature_names self;
                  feature_importance :=
                    combine (feature_names self) (xm_feature_importances m) |},
               FitSuccess d)
          | Raise e => (self, FitFailure (exn_msg e))
          end
      end
  end.

End Service.

(** One turn of the loop of [predict]; [now] is the reading of
    [pd.Timestamp.now()] in that turn. *)
Definition predict_step (m : regressor) (names : list string) (now : Z) (step : nat)
  : result forecast_point :=
  let future_date := (now + Timedelta_days (Z.of_nat step + 1))%Z in
  let features := [base_features names future_date] in
  let* out :=
    match m with
    | Fitted b => xm_predict b features
    | Unfitted => Raise (Exn "NotFittedError" "need to call fit or load_model beforehand")
    end in
  let* prediction :=
    match out with
    | p :: _ => Ok p
    | [] => Raise (Exn "IndexError" "index 0 is out of bounds for axis 0 with size 0")
    end in
  (* the clamped [max(0, float(prediction))] goes to the local list
     [predictions], which the return statement does not read *)
  let prediction_std := prediction * (15 # 100) in
  let lower_bound := max0 (prediction - (196 # 100) * prediction_std) in
  let upper_bound := prediction + (196 # 100) * prediction_std in
  Ok {| fp_step := (step + 1)%nat;
        fp_forecast := prediction;
        fp_lower_bound := lower_bound;
        fp_upper_bound := upper_bound;
        fp_confidence_level := 95 # 100 |}.

Fixpoint predict_loop (m : regressor) (names : list string) (clock : nat -> Z)
    (steps : list nat) : result (list forecast_point) :=
  match steps with
  | [] => Ok []
  | step :: rest =>
      let* pt := predict_step m names (clock step) step in
      let* pts := predict_loop m names clock rest in
      Ok (pt :: pts)
  end.

(** [predict]; [clock step] is what [pd.Timestamp.now()] returns in
    turn [step] of the loop. *)
Definition predict (self : service) (clock : nat -> Z) (forecast_steps : nat)
    (external_features : option external) : result forecast_envelope :=
  match model self with
  | None => Raise (Exn "Exception" "Model must be fitted before prediction")
  | Some m =>
      match predict_loop m (feature_names self) clock (seq 0 forecast_steps) with
      | Ok prediction_intervals =>
          Ok (ForecastSuccess prediction_intervals forecast_steps (feature_importance self))
      | Raise e => Ok (ForecastFailure (exn_msg e))
      end
  end.

End XGBoost.

(** ** Engineered columns of [prepare_features]

    The columns of sections 1, 2, 3 and 7 of [prepare_features] that are
    rational functions of the sorted base rows.  Their argument is the
    ['y'] column after the first fill (or the calendar fields of
    ['ds']); the Fourier columns, the rolling standard deviation and the
    exponential averages are not modelled. *)

Module Features.

(** [df['ds'].dt.day]. *)
Definition ts_day (t : Z) : Z := snd (civil_from_days (days_of t)).

(** The 0/1 calendar columns of one row. *)
Record calendar_flags : Type := {
  is_weekend : bool;
  is_month_start : bool;
  is_month_end : bool;
  is_quarter_end : bool;
  is_year_end : bool;
  is_payday_week : bool;
  is_holiday_season : bool
}.

Definition flags (month day dayofweek : Z) : calendar_flags :=
  {| is_weekend := (5 <=? dayofweek)%Z;
     is_month_start := (day <=? 5)%Z;
     is_month_end := (25 <=? day)%Z;
     is_quarter_end := (month mod 3 =? 0)%Z && (25 <=? day)%Z;
     is_year_end := (month =? 12)%Z && (20 <=? day)%Z;
     is_payday_week := (22 <=? day)%Z || (day <=? 5)%Z;
     is_holiday_season :=
       ((month =? 4)%Z && (8 <=? day)%Z && (day <=? 15)%Z)
       || ((month =? 6)%Z && (15 <=? day)%Z && (day <=? 20)%Z)
       || ((month =? 8)%Z && (15 <=? day)%Z && (day <=? 20)%Z)
       || ((month =? 12)%Z && (20 <=? day)%Z) |}.

Definition flags_of_stamp (t : Z) : calendar_flags :=
  flags (ts_month t) (ts_day t) (ts_dayofweek t).

(** [Series.shift(k)]: the values move [k] rows down, the first [k]
    rows are missing. *)
Definition shift (k : nat) (y : list (option Q)) : list (option Q) :=
  firstn (List.length y) (repeat None k ++ y)%list.

(** The closing [df.fillna(method='ffill').fillna(method='bfill')
    .fillna(0)] on one column. *)
Definition final_fill (col : list (option Q)) : list Q :=
  map XGBoost.fillna0 (bfill (ffill col)).

(** The column [lag_k]; it is added only [if len(df) > lag]. *)
Definition lag_column (k : nat) (y : list (option Q)) : option (list Q) :=
  if Nat.ltb k (List.length y) then Some (final_fill (shift k y)) else None.










(** [.fillna(0)] on a float column. *)
Definition fillna_zero (a : xnum) : xnum := if xisnan a then Fin 0 else a.

(** [df['y'].pct_change(k).fillna(0)]: [y / y.shift(k) - 1], then the
    undefined entries (the first [k] rows and [0 / 0]) become 0. *)
Definition pct_change (k : nat) (y : list (option Q)) : list xnum :=
  map (fun cp => fillna_zero (xsub (xdiv (to_float (fst cp)) (to_float (snd cp))) (Fin 1)))
      (combine y (shift k y)).






End Features.

(** ** [get_feature_analysis] of the tree backend *)

Module Analysis.

(** [sub in s]. *)
Definition contains (sub s : string) : bool :=
  match String.index 0 sub s with
  | Some _ => true
  | None => false
  end.

Inductive category : Type :=
| Temporal
| Statistical
| Seasonal
| Trend
| External
| Other.

Definition category_eqb (a b : category) : bool :=
  match a, b with
  | Temporal, Temporal | Statistical, Statistical | Seasonal, Seasonal
  | Trend, Trend | External, External | Other, Other => true
  | _, _ => false
  end.

(** The [if]/[elif] chain of the loop over the importances. *)
Definition categorize (feature : string) : category :=
  if existsb (fun x => contains x feature) ["month"; "day"; "year"; "quarter"; "week"]
  then Temporal
  else if existsb (fun x => contains x feature) ["lag_"; "rolling_"; "pct_change"]
  then Statistical
  else if existsb (fun x => contains x feature) ["sin_"; "cos_"; "seasonal"; "holiday"]
  then Seasonal
  else if existsb (fun x => contains x feature) ["trend"; "macd"; "rsi"]
  then Trend
  else if String.prefix "ext_" feature
  then External
  else Other.

(** [sort(key=lambda x: x[1], reverse=True)]: descending by importance,
    items of equal importance in their former order. *)
Fixpoint insert_desc (x : string * Q) (l : list (string * Q)) : list (string * Q) :=
  match l with
  | [] => [x]
  | h :: t => if Qlt_bool (snd x) (snd h) then h :: insert_desc x t else x :: l
  end.

Definition sort_desc (l : list (string * Q)) : list (string * Q) :=
  fold_right insert_desc [] l.

(** The list a category holds after the loop and its sort. *)
Definition category_items (c : category) (importance : list (string * Q))
  : list (string * Q) :=
  sort_desc (filter (fun fi => category_eqb (categorize (fst fi)) c) importance).

Record analysis : Type := {
  total_features : nat;
  temporal : list (string * Q);
  statistical : list (string * Q);
  seasonal : list (string * Q);
  trend : list (string * Q);
  external : list (string * Q);
  other : list (string * Q);
  top_features : list (string * Q)
}.

(** [get_feature_analysis], given [self.feature_importance]. *)
Definition get_feature_analysis (importance : list (string * Q)) : string + analysis :=
  match importance with
  | [] => inl "No feature importance available - model not fitted"
  | _ =>
      inr {| total_features := List.length importance;
             temporal := category_items Temporal importance;
             statistical := category_items Statistical importance;
             seasonal := category_items Seasonal importance;
             trend := category_items Trend importance;
             external := category_items External importance;
             other := category_items Other importance;
             top_features := firstn 15 (sort_desc importance) |}
  end.

End Analysis.

(** * Specification-side definitions *)

(** The value [predict] is expected to put in the slot of a feature
    name: the calendar field of the future date for the four names it
    knows, nothing otherwise. *)
Definition calendar_field (name : string) (future_date : Z) : option Q :=
  if String.eqb "month" name then Some (inject_Z (ts_month future_date))
  else if String.eqb "dayofweek" name then Some (inject_Z (ts_dayofweek future_date))
  else if String.eqb "quarter" name then Some (inject_Z (ts_quarter future_date))
  else if String.eqb "is_weekend" name
       then Some (if (5 <=? ts_dayofweek future_date)%Z then 1 else 0)
  else None.

(** The degraded point of the autoregressive forecast loop. *)
Definition degraded_point (i : nat) (confidence_level : Q) (e : exn) : Arima.forecast_point :=
  {| Arima.fp_step := (i + 1)%nat;
     Arima.fp_forecast := Fin 0;
     Arima.fp_lower_bound := Fin 0;
     Arima.fp_upper_bound := Fin 0;
     Arima.fp_confidence_level := confidence_level;
     Arima.fp_error := Some (exn_msg e) |}.

(** The result of a grid search in which nothing was retained. *)
Definition default_selection : Arima.selection :=
  {| Arima.sel_order := (1, 1, 1)%nat;
     Arima.sel_seasonal_order := None;
     Arima.sel_aic := None;
     Arima.sel_bic := None;
     Arima.sel_model := None;
     Arima.sel_method := Some "simple_grid_search";
     Arima.sel_fallback := None;
     Arima.sel_error := None |}.

(** The grid search as the specification words it: whenever some
    candidate fits, the returned configuration is a fitted candidate of
    the grid, no fitted candidate has a lower AIC, and every fitted
    candidate met earlier in the walk has a higher one. *)
Definition returns_first_minimum
    (ARIMA_fit : Arima.series -> Arima.order -> option Arima.seasonal_order
                 -> result Arima.fitted)
    (ts : Arima.series) (seasonal : bool) (m : nat) : Prop :=
  (exists c fm, In c (Arima.grid seasonal m) /\ ARIMA_fit ts (fst c) (snd c) = Ok fm) ->
  exists i c fm,
    nth_error (Arima.grid seasonal m) i = Some c
    /\ ARIMA_fit ts (fst c) (snd c) = Ok fm
    /\ Arima.sel_order (Arima.simple_arima_grid_search ARIMA_fit ts seasonal m) = fst c
    /\ Arima.sel_seasonal_order (Arima.simple_arima_grid_search ARIMA_fit ts seasonal m)
       = snd c
    /\ forall j c' fm',
        nth_error (Arima.grid seasonal m) j = Some c' ->
        ARIMA_fit ts (fst c') (snd c') = Ok fm' ->
        xlt (Arima.f_aic fm') (Arima.f_aic fm) = false
        /\ ((j < i)%nat -> xlt (Arima.f_aic fm) (Arima.f_aic fm') = true).

(** A float that is not negative: a number at least 0, [+inf], or
    NaN. *)
Definition not_negative (a : xnum) : Prop :=
  match a with
  | Fin q => 0 <= q
  | NInf => False
  | PInf | NaN => True
  end.

(** The stamps a tree-backend or decomposable-backend frame starts
    from: the given dates, or the synthetic daily range. *)
Definition input_stamps (now : Z) (n : nat) (dates : option (list Z)) : list Z :=
  if truthy dates then
    match dates with
    | Some stamps => stamps
    | None => synthetic_dates now n
    end
  else synthetic_dates now n.

(** Rows in timestamp order. *)
Definition row_le (a b : XGBoost.row) : Prop := (fst a <= fst b)%Z.

(** The slot value of a feature name in the vector handed to the
    model: its calendar field, or the initial zero. *)
Definition slot (future_date : Z) (name : string) : Q :=
  match calendar_field name future_date with
  | Some v => v
  | None => 0
  end.

(** Importances in descending order. *)
Definition importance_ge (a b : string * Q) : Prop := snd b <= snd a.

(** * Sample inputs

    Concrete requests and library behaviours on which the theorems
    below are instantiated. *)

Definition sample_points : list (option Q) :=
  map Some [10; 12; 11; 13; 12; 14; 13; 15; 14; 16].

Definition sample_series : Arima.series :=
  {| Arima.s_index := Arima.RangeIndex 10; Arima.s_values := sample_points |}.

(** A results object with the given AIC and no forecast. *)
Definition sample_fitted (aic : xnum) : Arima.fitted :=
  {| Arima.f_aic := aic;
     Arima.f_bic := aic;
     Arima.f_llf := Fin 0;
     Arima.f_fittedvalues := [];
     Arima.f_get_forecast := fun _ => Raise (Exn "ValueError" "no forecast") |}.

(** A library that cannot fit without differencing, whose likelihood
    degenerates without an autoregressive term (the AIC is NaN) and
    whose AIC otherwise grows with [q] only, so that the values 1 and 2
    of [p] tie. *)
Definition sample_fit (ts : Arima.series) (o : Arima.order)
    (so : option Arima.seasonal_order) : result Arima.fitted :=
  let '(p, d, q) := o in
  if Nat.eqb d 0 then Raise (Exn "LinAlgError" "Schur decomposition solver error.")
  else if Nat.eqb p 0 then Ok (sample_fitted NaN)
  else Ok (sample_fitted (Fin (50 + Qofnat q))).

(** A library on which every fit returns, with an AIC that is NaN. *)
Definition nan_fit (ts : Arima.series) (o : Arima.order)
    (so : option Arima.seasonal_order) : result Arima.fitted :=
  Ok (sample_fitted NaN).

(** A library on which every fit raises. *)
Definition failing_fit (ts : Arima.series) (o : Arima.order)
    (so : option Arima.seasonal_order) : result Arima.fitted :=
  Raise (Exn "LinAlgError" "Schur decomposition solver error.").

Definition failing_auto_arima (ts : Arima.series) (seasonal : bool) (m : nat)
  : result Arima.auto_model :=
  Raise (Exn "ValueError" "Could not successfully fit a viable ARIMA model").

(** Positional indexing of a list-backed container. *)
Definition list_iloc {A : Type} (l : list A) (i : nat) : result A :=
  match nth_error l i with
  | Some x => Ok x
  | None => Raise (Exn "IndexError" "single positional indexer is out-of-bounds")
  end.

Definition table_iloc (rows : list (list Arima.cell)) (i j : nat) : result Arima.cell :=
  let* r := list_iloc rows i in list_iloc r j.

(** A fitted model whose forecast has a mean of 1 then -2 and intervals
    that reach below zero. *)
Definition interval_fitted : Arima.fitted :=
  {| Arima.f_aic := Fin 50;
     Arima.f_bic := Fin 52;
     Arima.f_llf := Fin (-23);
     Arima.f_fittedvalues := [];
     Arima.f_get_forecast := fun _ =>
       Ok {| Arima.predicted_mean := Arima.FV_Series (list_iloc (map Fin [1; -2]));
             Arima.conf_int := fun _ =>
               Ok (Arima.CI_Frame
                     (table_iloc [[Arima.CNum (Fin (-3)); Arima.CNum (Fin 5)];
                                  [Arima.CNum (Fin (-6)); Arima.CNum (Fin (-1))]])) |} |}.

(** A fitted model whose forecast object is short of the horizon and
    holds a cell that [float()] rejects. *)
Definition ragged_fitted : Arima.fitted :=
  {| Arima.f_aic := Fin 50;
     Arima.f_bic := Fin 52;
     Arima.f_llf := Fin (-23);
     Arima.f_fittedvalues := [];
     Arima.f_get_forecast := fun _ =>
       Ok {| Arima.predicted_mean := Arima.FV_Series (list_iloc (map Fin [7; 8]));
             Arima.conf_int := fun _ =>
               Ok (Arima.CI_Frame
                     (table_iloc
                        [[Arima.CNum (Fin 5); Arima.CNum (Fin 9)];
                         [Arima.CNum (Fin 6);
                          Arima.CBad (Exn "TypeError"
                                          "float() argument must be a string or a real number")]]))
          |} |}.

(** A library on which every fit succeeds and forecasts 15 with the
    interval (12, 18) at every step. *)
Definition steady_fitted : Arima.fitted :=
  {| Arima.f_aic := Fin 50;
     Arima.f_bic := Fin 52;
     Arima.f_llf := Fin (-23);
     Arima.f_fittedvalues := map to_float sample_points;
     Arima.f_get_forecast := fun steps =>
       Ok {| Arima.predicted_mean := Arima.FV_Series (list_iloc (repeat (Fin 15) steps));
             Arima.conf_int := fun _ =>
               Ok (Arima.CI_Frame
                     (table_iloc (repeat [Arima.CNum (Fin 12); Arima.CNum (Fin 18)] steps))) |} |}.

Definition steady_fit (ts : Arima.series) (o : Arima.order)
    (so : option Arima.seasonal_order) : result Arima.fitted :=
  Ok steady_fitted.

Definition sample_adfuller (l : list (option Q)) : result (Q * Q) :=
  Ok (-3, 1 # 100).

Definition sample_seasonal_decompose (ts : Arima.series) (model : string) (period : nat)
  : result Arima.decomposition :=
  Ok {| Arima.dc_trend := map to_float (Arima.s_values ts);
        Arima.dc_seasonal := map (fun _ => Fin 0) (Arima.s_values ts);
        Arima.dc_resid := map (fun _ => Fin 0) (Arima.s_values ts) |}.

(** Scenario A of the specification, and the same request with the
    seasonal flag set. *)
Definition plain_request : Arima.request :=
  {| Arima.r_data_points := Some sample_points;
     Arima.r_dates := None;
     Arima.r_forecast_steps := None;
     Arima.r_confidence_level := None;
     Arima.r_seasonal := None;
     Arima.r_seasonal_period := None |}.

Definition seasonal_request : Arima.request :=
  {| Arima.r_data_points := Some sample_points;
     Arima.r_dates := None;
     Arima.r_forecast_steps := None;
     Arima.r_confidence_level := None;
     Arima.r_seasonal := Some true;
     Arima.r_seasonal_period := None |}.

(** Ten daily sales figures that start with a day without sales. *)
Definition zero_start_points : list (option Q) :=
  map Some [0; 12; 11; 13; 12; 14; 13; 15; 14; 16].

(** 2026-11-04 12:00 UTC. *)
Definition sample_now : Z := (20761 * day_ns + 43200000000000)%Z.

(** A Prophet model that predicts 12 within (10, 14) on every row. *)
Definition flat_predict (df : Prophet.frame) : result (list Prophet.prediction) :=
  Ok (map (fun t => {| Prophet.p_ds := t; Prophet.yhat := 12;
                       Prophet.yhat_lower := 10; Prophet.yhat_upper := 14 |})
          (Prophet.ds df)).

Definition sample_cross_validation (df : Prophet.frame) : result (Q * Q * Q * nat) :=
  Ok (8 # 100, 1, 80 # 100, 2%nat).

(** Fifteen daily net sales, one of them negative (returns exceeded
    sales). *)
Definition returns_points : list (option Q) :=
  map Some [10; 12; 11; -5; 12; 14; 13; 15; 14; 16; 15; 17; 16; 18; 17].

(** A feature derivation that produces no column. *)
Definition no_features (rows : list XGBoost.row) (ext : option XGBoost.external)
  : result (list string * list (list Q)) :=
  Ok ([], map (fun _ => []) rows).

(** A frame of fifteen rows with the trend column only: twelve days of
    5 followed by three days of 6. *)
Definition step_frame : XGBoost.frame :=
  {| XGBoost.ds := synthetic_dates sample_now 15;
     XGBoost.y := (repeat 5 12 ++ repeat 6 3)%list;
     XGBoost.columns := ["trend"];
     XGBoost.X := map (fun k => [Qofnat k]) (seq 0 15) |}.

(** A scaler that centres the single column on 7 and leaves its scale. *)
Definition centring_scaler (X : list (list Q))
  : result (XGBoost.scaler_state * list (list Q)) :=
  Ok ({| XGBoost.sc_mean := [7]; XGBoost.sc_scale := [1] |},
      map (map (fun x => x - 7)) X).

(** A boosted model that has learnt the constant 5 of its training
    split. *)
Definition constant_booster (c : Q) : XGBoost.booster :=
  {| XGBoost.xm_predict := fun rows => Ok (map (fun _ => c) rows);
     XGBoost.xm_feature_importances := [] |}.

Definition constant_fit (hp : XGBoost.hyperparameters) (X_train : list (list Q))
    (y_train : list Q) (X_val : list (list Q)) (y_val : list Q) : result XGBoost.booster :=
  Ok (constant_booster (hd 0 y_train)).

Definition sample_cross_val_mae (hp : XGBoost.hyperparameters) (X_train : list (list Q))
    (y_train : list Q) : result Q :=
  Ok 1.

(** A fitted tree service whose model returns the month slot minus 12
    (a negative prediction for every month but December). *)
Definition month_service : XGBoost.service :=
  {| XGBoost.model :=
       Some (XGBoost.Fitted
               {| XGBoost.xm_predict := fun rows => Ok (map (fun r => hd 0 r - 12) rows);
                  XGBoost.xm_feature_importances := [1; 0] |});
     XGBoost.scaler := Some {| XGBoost.sc_mean := [6; 10]; XGBoost.sc_scale := [3; 2] |};
     XGBoost.feature_names := ["month"; "lag_1"];
     XGBoost.feature_importance := [("month", 1); ("lag_1", 0)] |}.

(** Ten daily figures with a leading gap, an inner gap of two days and
    a trailing gap. *)
Definition gap_points : list (option Q) :=
  [None; Some 10; None; None; Some 13; Some 12; Some 14; Some 13; Some 15; None].

(** A fitted model whose interval table is of a type [forecast] does
    not know: a mean of 10, then -4, then NaN, as an ndarray. *)
Definition untyped_interval_fitted : Arima.fitted :=
  {| Arima.f_aic := Fin 50;
     Arima.f_bic := Fin 52;
     Arima.f_llf := Fin (-23);
     Arima.f_fittedvalues := [];
     Arima.f_get_forecast := fun _ =>
       Ok {| Arima.predicted_mean := Arima.FV_Array (list_iloc [Fin 10; Fin (-4); NaN]);
             Arima.conf_int := fun _ => Ok Arima.CI_Other |} |}.

(** A Prophet library that returns the history (two rows) and then
    [periods] future rows whose raw values straddle zero. *)
Definition straddling_future (periods : nat) (include_history : bool)
  : result (list Prophet.prediction) :=
  Ok (map (fun k => {| Prophet.p_ds := (sample_now + Timedelta_days (Z.of_nat k))%Z;
                       Prophet.yhat := Qofnat k - 3;
                       Prophet.yhat_lower := Qofnat k - 5;
                       Prophet.yhat_upper := Qofnat k - 1 |})
          (seq 0 (2 + periods))).

(** A fitted tree service whose model fails from the third row it is
    asked about. *)
Definition brittle_service : XGBoost.service :=
  {| XGBoost.model :=
       Some (XGBoost.Fitted
               {| XGBoost.xm_predict := fun rows =>
                    if Qle_bool (hd 0 (hd [] rows)) 5
                    then Ok (map (fun r => hd 0 r + 20) rows)
                    else Raise (Exn "XGBoostError" "feature out of range");
                  XGBoost.xm_feature_importances := [1] |});
     XGBoost.scaler := None;
     XGBoost.feature_names := ["dayofweek"];
     XGBoost.feature_importance := [("dayofweek", 1)] |}.

(** Cross-validated errors under which the first and the third preset
    tie and the second is worse. *)
Definition tied_cross_val_mae (hp : XGBoost.hyperparameters) (X_train : list (list Q))
    (y_train : list Q) : result Q :=
  match hp with
  | XGBoost.HP_Preset _ depth _ => if Nat.eqb depth 6 then Ok 3 else Ok 2
  | XGBoost.HP_Default => Ok 9
  end.

(** A cross-validation that fails on the deepest preset. *)
Definition brittle_cross_val_mae (hp : XGBoost.hyperparameters) (X_train : list (list Q))
    (y_train : list Q) : result Q :=
  match hp with
  | XGBoost.HP_Preset _ depth _ =>
      if Nat.eqb depth 8 then Raise (Exn "ValueError" "n_splits too large") else Ok 2
  | XGBoost.HP_Default => Ok 9
  end.

(** Importances of a fitted tree model over engineered columns. *)
Definition sample_importance : list (string * Q) :=
  [("month", 5 # 100); ("lag_1", 30 # 100); ("sin_weekly", 10 # 100);
   ("is_holiday_season", 5 # 100); ("trend", 20 # 100); ("ext_price", 25 # 100);
   ("ramadan_proximity", 5 # 100)].

(** A request whose dates are one short of its points. *)
Definition short_dates_request : Arima.request :=
  {| Arima.r_data_points := Some sample_points;
     Arima.r_dates := Some (synthetic_dates sample_now 9);
     Arima.r_forecast_steps := None;
     Arima.r_confidence_level := None;
     Arima.r_seasonal := None;
     Arima.r_seasonal_period := None |}.

(** A decomposition with a weekly pattern and a small remainder. *)
Definition sample_decomposition : Arima.decomposition :=
  {| Arima.dc_trend := map Fin [10; 10; 10; 10];
     Arima.dc_seasonal := map Fin [2; -2; 2; -2];
     Arima.dc_resid := map Fin [1; -1; -1; 1] |}.

(** * Facts about the plumbing *)

Local Open Scope list_scope.

Lemma Qlt_bool_true (a b : Q) : Qlt_bool a b = true <-> a < b.
Proof.
  unfold Qlt_bool. rewrite negb_true_iff. split.
  - intros H. apply Qnot_le_lt. intros Hle.
    apply Qle_bool_iff in Hle. congruence.
  - intros H. destruct (Qle_bool b a) eqn:E; [|reflexivity].
    apply Qle_bool_iff in E. exfalso. apply (Qlt_not_le _ _ H E).
Qed.

Lemma Qlt_bool_false (a b : Q) : Qlt_bool a b = false <-> b <= a.
Proof.
  unfold Qlt_bool. rewrite negb_false_iff. apply Qle_bool_iff.
Qed.

Lemma max0_nonneg (x : Q) : 0 <= max0 x.
Proof.
  unfold max0. destruct (Qlt_bool 0 x) eqn:E.
  - apply Qlt_le_weak, Qlt_bool_true, E.
  - apply Qle_refl.
Qed.

Lemma max0_mono (x z : Q) : x <= z -> max0 x <= max0 z.
Proof.
  intros H. unfold max0.
  destruct (Qlt_bool 0 x) eqn:Ex, (Qlt_bool 0 z) eqn:Ez.
  - exact H.
  - apply Qlt_bool_true in Ex. apply Qlt_bool_false in Ez.
    exfalso. apply (Qlt_not_le _ _ Ex). eapply Qle_trans; eassumption.
  - apply Qlt_le_weak, Qlt_bool_true, Ez.
  - apply Qle_refl.
Qed.

(** * Comparisons of floats *)

Lemma xlt_irrefl (a : xnum) : xlt a a = false.
Proof.
  destruct a as [x| | |]; simpl; try reflexivity.
  apply Qlt_bool_false, Qle_refl.
Qed.

Lemma xlt_trans (a b c : xnum) : xlt a b = true -> xlt b c = true -> xlt a c = true.
Proof.
  destruct a as [x| | |], b as [y| | |], c as [z| | |]; simpl;
    try discriminate; try reflexivity.
  rewrite !Qlt_bool_true. apply Qlt_trans.
Qed.

(** What compares below something is a number or [-inf]. *)
Lemma xlt_below_inf (a b : xnum) : xlt a b = true -> xlt a PInf = true.
Proof.
  destruct a as [x| | |], b as [y| | |]; simpl; try discriminate; reflexivity.
Qed.

(** Of two floats that are not NaN, one is below the other or they are
    equal: what is not below [b] is above whatever is below [b]. *)
Lemma xlt_through (a a' b : xnum) :
  xlt a b = true -> xlt a' b = false -> xlt a' PInf = true -> xlt a a' = true.
Proof.
  destruct a as [x| | |], a' as [x'| | |], b as [y| | |]; simpl;
    try discriminate; try reflexivity.
  rewrite Qlt_bool_true, Qlt_bool_false, Qlt_bool_true.
  intros H1 H2 _. eapply Qlt_le_trans; eassumption.
Qed.

Lemma xlt_not_below (a a' b : xnum) :
  xlt a b = true -> xlt a' b = false -> xlt a' a = false.
Proof.
  intros Hab Hnot. destruct (xlt a' a) eqn:E; [|reflexivity].
  rewrite (xlt_trans _ _ _ E Hab) in Hnot. discriminate.
Qed.

Lemma xlt_incomparable (a a' : xnum) :
  xlt a' PInf = false -> xlt a PInf = false -> xlt a' a = false.
Proof.
  destruct a as [x| | |], a' as [x'| | |]; simpl; try discriminate; reflexivity.
Qed.

(** * The configuration search of the autoregressive backend *)

Section GridSearch.

Variable ARIMA_fit :
  Arima.series -> Arima.order -> option Arima.seasonal_order -> result Arima.fitted.
Variable ts : Arima.series.

Let fit := Arima.try_fit ARIMA_fit ts.
Let step := Arima.search_step ARIMA_fit ts.

(** What the loop has established after the candidates [l]: no fitted
    candidate of [l] has an AIC below the retained one; and either
    nothing was retained, or the state holds the first candidate of [l]
    whose AIC is least among those that compare below [+inf]. *)
Let retained (l : list Arima.candidate) (st : Arima.search_state) : Prop :=
  (forall j c' a', nth_error l j = Some c' -> fit c' = Some a' ->
                   xlt a' (Arima.best_aic st) = false)
  /\ (st = Arima.search_init
      \/ (xlt (Arima.best_aic st) PInf = true
          /\ exists i,
              nth_error l i = Some (Arima.best_order st, Arima.best_seasonal_order st)
              /\ fit (Arima.best_order st, Arima.best_seasonal_order st)
                 = Some (Arima.best_aic st)
              /\ forall j c' a', (j < i)%nat -> nth_error l j = Some c' -> fit c' = Some a' ->
                                 xlt a' PInf = true -> xlt (Arima.best_aic st) a' = true)).

Lemma nth_error_snoc {A : Type} (l : list A) (x : A) (j : nat) (y : A) :
  nth_error (l ++ [x]) j = Some y ->
  (j < List.length l /\ nth_error l j = Some y)%nat \/ (j = List.length l /\ y = x).
Proof.
  intros H. destruct (Nat.lt_ge_cases j (List.length l)) as [Hlt | Hge].
  - left. split; [exact Hlt|]. now rewrite nth_error_app1 in H.
  - right. rewrite nth_error_app2 in H by exact Hge.
    destruct (j - List.length l)%nat as [|k] eqn:E; simpl in H.
    + split; [lia | congruence].
    + destruct k; discriminate.
Qed.

Lemma search_retains (l : list Arima.candidate) :
  retained l (fold_left step l Arima.search_init).
Proof.
  induction l as [|c l IH] using rev_ind.
  - split; [intros [|j] c' a' H; discriminate | left; reflexivity].
  - rewrite fold_left_app. simpl.
    set (st := fold_left step l Arima.search_init) in *.
    destruct IH as [Hbelow Hfirst].
    unfold step at 1, Arima.search_step. fold fit.
    destruct (fit c) as [a|] eqn:Hc.
    + unfold Arima.aic_improves. destruct (xlt a (Arima.best_aic st)) eqn:Hab.
      * (* the candidate improves on the retained AIC *)
        split; cbn [Arima.best_aic Arima.best_order Arima.best_seasonal_order].
        -- intros j c' a' Hj Hf. apply nth_error_snoc in Hj.
           destruct Hj as [[_ Hj] | [_ ->]].
           ++ apply (xlt_not_below _ _ _ Hab), (Hbelow j c' a' Hj Hf).
           ++ assert (a' = a) by congruence. subst a'. apply xlt_irrefl.
        -- right. split; [exact (xlt_below_inf _ _ Hab)|].
           exists (List.length l). split; [|split].
           ++ rewrite nth_error_app2 by lia. rewrite Nat.sub_diag. simpl. now destruct c.
           ++ destruct c. exact Hc.
           ++ intros j c' a' Hlt Hj Hf Hnum. apply nth_error_snoc in Hj.
              destruct Hj as [[_ Hj] | [Hj' _]]; [|lia].
              exact (xlt_through _ _ _ Hab (Hbelow j c' a' Hj Hf) Hnum).
      * (* it does not: the state stays *)
        split.
        -- intros j c' a' Hj Hf. apply nth_error_snoc in Hj.
           destruct Hj as [[_ Hj] | [_ ->]].
           ++ exact (Hbelow j c' a' Hj Hf).
           ++ assert (a' = a) by congruence. subst a'. exact Hab.
        -- destruct Hfirst as [Hinit | (Hnum & i & Hi & Hfi & Hmin)]; [left; exact Hinit|].
           right. split; [exact Hnum|]. exists i.
           assert (Hil : (i < List.length l)%nat) by (apply nth_error_Some; congruence).
           split; [|split].
           ++ rewrite nth_error_app1 by exact Hil. exact Hi.
           ++ exact Hfi.
           ++ intros j c' a' Hlt Hj Hf. rewrite nth_error_app1 in Hj by lia.
              exact (Hmin j c' a' Hlt Hj Hf).
    + (* the fit raised: the candidate is skipped *)
      split.
      * intros j c' a' Hj Hf. apply nth_error_snoc in Hj.
        destruct Hj as [[_ Hj] | [_ ->]]; [exact (Hbelow j c' a' Hj Hf) | congruence].
      * destruct Hfirst as [Hinit | (Hnum & i & Hi & Hfi & Hmin)]; [left; exact Hinit|].
        right. split; [exact Hnum|]. exists i.
        assert (Hil : (i < List.length l)%nat) by (apply nth_error_Some; congruence).
        split; [|split].
        -- rewrite nth_error_app1 by exact Hil. exact Hi.
        -- exact Hfi.
        -- intros j c' a' Hlt Hj Hf. rewrite nth_error_app1 in Hj by lia.
           exact (Hmin j c' a' Hlt Hj Hf).
Qed.

(** Nothing is retained when no candidate fits with an AIC below
    [+inf]: the fits that raise and those whose AIC is NaN or [+inf]
    leave the initial state as it is. *)
Lemma search_none_retained (l : list Arima.candidate) :
  (forall c a, In c l -> fit c = Some a -> xlt a PInf = false) ->
  fold_left step l Arima.search_init = Arima.search_init.
Proof.
  intros Hnone. destruct (search_retains l) as [_ [Hinit | (Hnum & i & Hi & Hfi & _)]].
  - exact Hinit.
  - apply nth_error_In in Hi. rewrite (Hnone _ _ Hi Hfi) in Hnum. discriminate.
Qed.

Lemma search_some_retained (l : list Arima.candidate) :
  (exists c a, In c l /\ fit c = Some a /\ xlt a PInf = true) ->
  xlt (Arima.best_aic (fold_left step l Arima.search_init)) PInf = true
  /\ exists i,
      nth_error l i
      = Some (Arima.best_order (fold_left step l Arima.search_init),
              Arima.best_seasonal_order (fold_left step l Arima.search_init))
      /\ fit (Arima.best_order (fold_left step l Arima.search_init),
              Arima.best_seasonal_order (fold_left step l Arima.search_init))
         = Some (Arima.best_aic (fold_left step l Arima.search_init))
      /\ forall j c' a', nth_error l j = Some c' -> fit c' = Some a' ->
           xlt a' (Arima.best_aic (fold_left step l Arima.search_init)) = false
           /\ ((j < i)%nat -> xlt a' PInf = true ->
               xlt (Arima.best_aic (fold_left step l Arima.search_init)) a' = true).
Proof.
  intros (c & a & Hin & Hc & Hnum).
  destruct (search_retains l) as [Hbelow [Hinit | (Hb & i & Hi & Hfi & Hmin)]].
  - apply In_nth_error in Hin. destruct Hin as [j Hj].
    pose proof (Hbelow j c a Hj Hc) as H. rewrite Hinit in H. simpl in H. congruence.
  - split; [exact Hb|]. exists i. split; [exact Hi|]. split; [exact Hfi|].
    intros j c' a' Hj Hf. split; [exact (Hbelow j c' a' Hj Hf)|].
    intros Hlt. exact (Hmin j c' a' Hlt Hj Hf).
Qed.

(** The retained AIC is not above the AIC of any fitted candidate. *)
Lemma search_never_above (l : list Arima.candidate) (c' : Arima.candidate) (a' : xnum) :
  In c' l -> fit c' = Some a' ->
  xlt a' (Arima.best_aic (fold_left step l Arima.search_init)) = false.
Proof.
  intros Hin Hf. apply In_nth_error in Hin. destruct Hin as [j Hj].
  exact (proj1 (search_retains l) j c' a' Hj Hf).
Qed.

End GridSearch.

Lemma try_fit_some
    (ARIMA_fit : Arima.series -> Arima.order -> option Arima.seasonal_order
                 -> result Arima.fitted)
    (ts : Arima.series) (c : Arima.candidate) (a : xnum) :
  Arima.try_fit ARIMA_fit ts c = Some a
  <-> exists fm, ARIMA_fit ts (fst c) (snd c) = Ok fm /\ Arima.f_aic fm = a.
Proof.
  unfold Arima.try_fit. destruct (ARIMA_fit ts (fst c) (snd c)) as [fm|e]; split.
  - intros H. exists fm. split; [reflexivity | congruence].
  - intros (fm' & H & <-). congruence.
  - discriminate.
  - intros (fm' & H & _). discriminate.
Qed.

Lemma grid_full (seasonal : bool) (m : nat) (p d q : nat) (so : option Arima.seasonal_order) :
  In ((p, d, q), so) (Arima.grid seasonal m)
  <-> In p [0; 1; 2]%nat /\ In d [0; 1]%nat /\ In q [0; 1; 2]%nat
      /\ In so (Arima.seasonal_orders seasonal m).
Proof.
  unfold Arima.grid, Arima.p_values, Arima.d_values, Arima.q_values. split.
  - intros H. apply in_flat_map in H. destruct H as (p' & Hp & H).
    apply in_flat_map in H. destruct H as (d' & Hd & H).
    apply in_flat_map in H. destruct H as (q' & Hq & H).
    apply in_map_iff in H. destruct H as (so' & Heq & Hso).
    inversion Heq; subst. auto.
  - intros (Hp & Hd & Hq & Hso).
    apply in_flat_map. exists p. split; [exact Hp|].
    apply in_flat_map. exists d. split; [exact Hd|].
    apply in_flat_map. exists q. split; [exact Hq|].
    apply in_map_iff. exists so. auto.
Qed.


(** C4 (as the code has it).  The grid search walks the full grid p in
    {0,1,2}, d in {0,1}, q in {0,1,2} (each with the two seasonal orders
    when seasonal, in the order p, d, q, seasonal order).  A candidate
    whose fit raises is skipped, and so is one whose AIC does not compare
    below +inf (NaN or +inf).  When some candidate fits with an AIC below
    +inf, the search returns, with its AIC, the first candidate of the
    walk whose AIC is least among those: no fitted candidate has a
    smaller AIC, and every such candidate met earlier has a strictly
    larger one.  When none does, it returns the default order (1,1,1)
    without seasonal order and without AIC.  In either case the returned
    configuration never has a higher AIC than another fitted
    candidate. *)
Theorem grid_search_first_minimum
    (ARIMA_fit : Arima.series -> Arima.order -> option Arima.seasonal_order
                 -> result Arima.fitted)
    (ts : Arima.series) (seasonal : bool) (m : nat) :
  (forall p d q so,
      In ((p, d, q), so) (Arima.grid seasonal m)
      <-> In p [0; 1; 2]%nat /\ In d [0; 1]%nat /\ In q [0; 1; 2]%nat
          /\ In so (if seasonal then [Some (0, 1, 0, m); Some (1, 1, 1, m)]%nat else [None]))
  /\ List.length (Arima.grid seasonal m) = (if seasonal then 36 else 18)%nat
  /\ ((exists c fm,
          In c (Arima.grid seasonal m)
          /\ ARIMA_fit ts (fst c) (snd c) = Ok fm
          /\ xlt (Arima.f_aic fm) PInf = true) ->
      exists i c fm,
        nth_error (Arima.grid seasonal m) i = Some c
        /\ ARIMA_fit ts (fst c) (snd c) = Ok fm
        /\ xlt (Arima.f_aic fm) PInf = true
        /\ Arima.sel_order (Arima.simple_arima_grid_search ARIMA_fit ts seasonal m) = fst c
        /\ Arima.sel_seasonal_order (Arima.simple_arima_grid_search ARIMA_fit ts seasonal m)
           = snd c
        /\ Arima.sel_aic (Arima.simple_arima_grid_search ARIMA_fit ts seasonal m)
           = Some (Arima.f_aic fm)
        /\ forall j c' fm',
            nth_error (Arima.grid seasonal m) j = Some c' ->
            ARIMA_fit ts (fst c') (snd c') = Ok fm' ->
            xlt (Arima.f_aic fm') (Arima.f_aic fm) = false
            /\ ((j < i)%nat -> xlt (Arima.f_aic fm') PInf = true ->
                xlt (Arima.f_aic fm) (Arima.f_aic fm') = true))
  /\ ((forall c fm,
          In c (Arima.grid seasonal m) -> ARIMA_fit ts (fst c) (snd c) = Ok fm ->
          xlt (Arima.f_aic fm) PInf = false) ->
      Arima.simple_arima_grid_search ARIMA_fit ts seasonal m = default_selection)
  /\ (forall c c' fm fm',
        In c (Arima.grid seasonal m) -> In c' (Arima.grid seasonal m) ->
        Arima.sel_order (Arima.simple_arima_grid_search ARIMA_fit ts seasonal m) = fst c ->
        Arima.sel_seasonal_order (Arima.simple_arima_grid_search ARIMA_fit ts seasonal m)
        = snd c ->
        ARIMA_fit ts (fst c) (snd c) = Ok fm ->
        ARIMA_fit ts (fst c') (snd c') = Ok fm' ->
        xlt (Arima.f_aic fm') (Arima.f_aic fm) = false).
Proof.
  split; [|split; [|split; [|split]]].
  - intros p d q so. apply grid_full.
  - destruct seasonal; reflexivity.
  - intros (c0 & fm0 & Hin0 & Hfit0 & Hnum0).
    destruct (search_some_retained ARIMA_fit ts (Arima.grid seasonal m))
      as (Hb & i & Hi & Hfi & Hmin).
    { exists c0, (Arima.f_aic fm0). split; [exact Hin0|]. split; [|exact Hnum0].
      apply try_fit_some. exists fm0. split; [exact Hfit0 | reflexivity]. }
    set (st := fold_left (Arima.search_step ARIMA_fit ts) (Arima.grid seasonal m)
                         Arima.search_init) in *.
    apply try_fit_some in Hfi. destruct Hfi as (fm & Hfm & Haic).
    exists i, (Arima.best_order st, Arima.best_seasonal_order st), fm.
    unfold Arima.simple_arima_grid_search. fold st.
    cbn [Arima.sel_order Arima.sel_seasonal_order Arima.sel_aic fst snd].
    split; [exact Hi|]. split; [exact Hfm|]. rewrite Haic. split; [exact Hb|].
    split; [reflexivity|]. split; [reflexivity|]. split.
    + destruct (Arima.best_aic st); try reflexivity; discriminate.
    + intros j c' fm' Hj Hf'. apply (Hmin j c' (Arima.f_aic fm') Hj).
      apply try_fit_some. exists fm'. split; [exact Hf' | reflexivity].
  - intros Hnone. unfold Arima.simple_arima_grid_search.
    rewrite (search_none_retained ARIMA_fit ts).
    + reflexivity.
    + intros c a Hin Hc. apply try_fit_some in Hc. destruct Hc as (fm & Hfm & <-).
      exact (Hnone c fm Hin Hfm).
  - intros c c' fm fm' Hin Hin' Ho Hso Hfm Hfm'.
    assert (Hbelow : xlt (Arima.f_aic fm')
                         (Arima.best_aic
                            (fold_left (Arima.search_step ARIMA_fit ts) (Arima.grid seasonal m)
                                       Arima.search_init)) = false).
    { apply (search_never_above ARIMA_fit ts _ c'); [exact Hin'|].
      apply try_fit_some. exists fm'. split; [exact Hfm' | reflexivity]. }
    destruct (search_retains ARIMA_fit ts (Arima.grid seasonal m))
      as [Hall [Hinit | (Hb & i & Hi & Hfi & _)]].
    + (* nothing retained: every fitted AIC is NaN or +inf *)
      rewrite Hinit in Hbelow. simpl in Hbelow.
      apply xlt_incomparable; [exact Hbelow|].
      apply In_nth_error in Hin. destruct Hin as [j Hj].
      assert (Hc : Arima.try_fit ARIMA_fit ts c = Some (Arima.f_aic fm))
        by (apply try_fit_some; exists fm; split; [exact Hfm | reflexivity]).
      pose proof (Hall j c _ Hj Hc) as H. rewrite Hinit in H. exact H.
    + (* the retained candidate is [c] *)
      unfold Arima.simple_arima_grid_search in Ho, Hso.
      cbn [Arima.sel_order Arima.sel_seasonal_order] in Ho, Hso.
      rewrite Ho, Hso, <- surjective_pairing in Hfi.
      apply try_fit_some in Hfi. destruct Hfi as (fm0 & Hfm0 & Haic).
      assert (fm0 = fm) by congruence. subst fm0. rewrite Haic. exact Hbelow.
Qed.

Lemma grid_search_first_minimum_witness :
  exists i c fm,
    nth_error (Arima.grid false 1) i = Some c
    /\ sample_fit sample_series (fst c) (snd c) = Ok fm
    /\ xlt (Arima.f_aic fm) PInf = true
    /\ Arima.sel_order (Arima.simple_arima_grid_search sample_fit sample_series false 1) = fst c
    /\ Arima.sel_seasonal_order (Arima.simple_arima_grid_search sample_fit sample_series false 1)
       = snd c
    /\ Arima.sel_aic (Arima.simple_arima_grid_search sample_fit sample_series false 1)
       = Some (Arima.f_aic fm)
    /\ forall j c' fm',
        nth_error (Arima.grid false 1) j = Some c' ->
        sample_fit sample_series (fst c') (snd c') = Ok fm' ->
        xlt (Arima.f_aic fm') (Arima.f_aic fm) = false
        /\ ((j < i)%nat -> xlt (Arima.f_aic fm') PInf = true ->
            xlt (Arima.f_aic fm) (Arima.f_aic fm') = true).
Proof.
  refine (proj1 (proj2 (proj2 (grid_search_first_minimum sample_fit sample_series false 1))) _).
  exists ((1, 1, 2)%nat, None), (sample_fitted (Fin 52)). split.
  - simpl. auto 20.
  - split; reflexivity.
Defined.

(** On the sample library the fits with [d = 0] raise, those with
    [p = 0] have no AIC to compare, and the fits with [d = 1] and
    [q = 0] tie for [p = 1] and [p = 2]; the search keeps the first of
    the two. *)
Example grid_search_tie_keeps_first :
  Arima.sel_order (Arima.simple_arima_grid_search sample_fit sample_series false 1)
  = (1, 1, 0)%nat
  /\ Arima.sel_aic (Arima.simple_arima_grid_search sample_fit sample_series false 1)
     = Some (Fin 50)
  /\ Arima.try_fit sample_fit sample_series ((2, 1, 0)%nat, None)
     = Arima.try_fit sample_fit sample_series ((1, 1, 0)%nat, None)
  /\ Arima.try_fit sample_fit sample_series ((0, 1, 0)%nat, None) = Some NaN
  /\ Arima.try_fit sample_fit sample_series ((0, 0, 0)%nat, None) = None.
Proof. repeat split. Qed.

(** C4 as stated fails: on a library whose every fit returns, with an
    AIC that is NaN, all eighteen candidates are fitted and none has a
    lower AIC than the first, (0,0,0); the search returns the default
    order (1,1,1) and no AIC. *)
Lemma grid_search_skips_nan_aic :
  (forall c, In c (Arima.grid false 1) ->
             exists fm, nan_fit sample_series (fst c) (snd c) = Ok fm)
  /\ Arima.simple_arima_grid_search nan_fit sample_series false 1 = default_selection
  /\ Arima.sel_order (Arima.simple_arima_grid_search nan_fit sample_series false 1)
     <> (0, 0, 0)%nat
  /\ ~ returns_first_minimum nan_fit sample_series false 1.
Proof.
  split; [|split; [|split]].
  - intros c _. eexists. reflexivity.
  - reflexivity.
  - discriminate.
  - intros H. destruct H as (i & c & fm & Hi & Hfm & Ho & Hso & Hmin).
    { exists ((0, 0, 0)%nat, None). eexists. split; [simpl; auto | reflexivity]. }
    assert (Hc : c = ((1, 1, 1)%nat, None)).
    { destruct c as [o so]. simpl in Ho, Hso. rewrite <- Ho, <- Hso. reflexivity. }
    subst c.
    destruct i as [|i].
    + simpl in Hi. discriminate.
    + destruct (Hmin 0%nat ((0, 0, 0)%nat, None) (sample_fitted NaN) eq_refl eq_refl)
        as [_ Hfirst].
      specialize (Hfirst ltac:(lia)). inversion Hfm; subst fm. discriminate.
Qed.

(** C5 at every series on which all fits raise.  The grid search
    returns order (1,1,1) with no seasonal order and no AIC, tagged with
    its method name and without any fallback flag; the selection routine
    returns the same when pmdarima is absent.  The flag fallback=true,
    again with order (1,1,1), is what the sibling branch of the selection
    routine returns when pmdarima's own search raises. *)
Theorem grid_search_all_fail
    (ARIMA_fit : Arima.series -> Arima.order -> option Arima.seasonal_order
                 -> result Arima.fitted)
    (auto_arima : Arima.series -> bool -> nat -> result Arima.auto_model)
    (ts : Arima.series) (seasonal : bool) (m : nat)
    (Hfail : forall c, In c (Arima.grid seasonal m) ->
                       exists e, ARIMA_fit ts (fst c) (snd c) = Raise e) :
  Arima.simple_arima_grid_search ARIMA_fit ts seasonal m = default_selection
  /\ Arima.auto_arima_selection ARIMA_fit false auto_arima ts seasonal m = default_selection
  /\ Arima.sel_order default_selection = (1, 1, 1)%nat
  /\ Arima.sel_fallback default_selection = None
  /\ forall e, auto_arima ts seasonal m = Raise e ->
        Arima.sel_order (Arima.auto_arima_selection ARIMA_fit true auto_arima ts seasonal m)
        = (1, 1, 1)%nat
        /\ Arima.sel_fallback
             (Arima.auto_arima_selection ARIMA_fit true auto_arima ts seasonal m)
           = Some true.
Proof.
  assert (Hgs : Arima.simple_arima_grid_search ARIMA_fit ts seasonal m = default_selection).
  { unfold Arima.simple_arima_grid_search.
    rewrite (search_none_retained ARIMA_fit ts); [reflexivity|].
    intros c a Hin Hc. destruct (Hfail c Hin) as [e He].
    unfold Arima.try_fit in Hc. rewrite He in Hc. discriminate. }
  split; [exact Hgs|]. split; [exact Hgs|]. split; [reflexivity|]. split; [reflexivity|].
  intros e He. unfold Arima.auto_arima_selection. rewrite He. split; reflexivity.
Qed.

Lemma grid_search_all_fail_witness :
  Arima.simple_arima_grid_search failing_fit sample_series true 7 = default_selection
  /\ Arima.auto_arima_selection failing_fit false failing_auto_arima sample_series true 7
     = default_selection
  /\ Arima.sel_order default_selection = (1, 1, 1)%nat
  /\ Arima.sel_fallback default_selection = None
  /\ forall e, failing_auto_arima sample_series true 7 = Raise e ->
        Arima.sel_order
          (Arima.auto_arima_selection failing_fit true failing_auto_arima sample_series true 7)
        = (1, 1, 1)%nat
        /\ Arima.sel_fallback
             (Arima.auto_arima_selection failing_fit true failing_auto_arima sample_series true 7)
           = Some true.
Proof.
  apply (grid_search_all_fail failing_fit failing_auto_arima sample_series true 7).
  intros c _. eexists. reflexivity.
Defined.

(** With every fit raising and pmdarima absent, what the selection
    routine returns has order (1,1,1) and no fallback flag. *)
Example grid_search_all_fail_no_flag :
  (forall c, In c (Arima.grid false 1) ->
             exists e, failing_fit sample_series (fst c) (snd c) = Raise e)
  /\ Arima.sel_order
       (Arima.auto_arima_selection failing_fit false failing_auto_arima sample_series false 1)
     = (1, 1, 1)%nat
  /\ Arima.sel_fallback
       (Arima.auto_arima_selection failing_fit false failing_auto_arima sample_series false 1)
     <> Some true.
Proof.
  split; [|split].
  - intros c _. eexists. reflexivity.
  - reflexivity.
  - discriminate.
Qed.


(** * The forecast generator of the autoregressive backend *)

Lemma nth_error_seq0 (n i : nat) : (i < n)%nat -> nth_error (seq 0 n) i = Some i.
Proof.
  intros H. rewrite (nth_error_nth' _ 0%nat) by (rewrite length_seq; exact H).
  rewrite seq_nth by exact H. reflexivity.
Qed.

Lemma forecast_step_number (fv : Arima.forecast_values) (ci : Arima.conf_table)
    (cl : Q) (i : nat) :
  Arima.fp_step (Arima.forecast_step fv ci cl i) = (i + 1)%nat.
Proof.
  unfold Arima.forecast_step.
  destruct (Arima.extract_point fv i) as [v|e]; simpl; [|reflexivity].
  destruct (Arima.extract_bounds ci i v); reflexivity.
Qed.

(** C6.  Once the forecast object and its interval table are obtained,
    [forecast] reports success with one point per step 1..horizon; a
    step whose point or bounds extraction raises yields the zero-valued
    point tagged with that exception's message, and every other step
    yields its extracted values. *)
Theorem forecast_step_isolation
    (fm : Arima.fitted) (steps : nat) (cl : Q)
    (fr : Arima.forecast_result) (ci : Arima.conf_table)
    (Hfc : Arima.f_get_forecast fm steps = Ok fr)
    (Hci : Arima.conf_int fr (1 - cl) = Ok ci) :
  exists pts,
    Arima.forecast (Some fm) steps cl = Ok (Arima.ForecastSuccess pts steps "ARIMA" cl)
    /\ Arima.fc_success (Arima.ForecastSuccess pts steps "ARIMA" cl) = true
    /\ List.length pts = steps
    /\ forall i, (i < steps)%nat ->
        exists pt,
          nth_error pts i = Some pt
          /\ Arima.fp_step pt = (i + 1)%nat
          /\ (forall e,
                Arima.extract_point (Arima.np_maximum0 (Arima.predicted_mean fr)) i = Raise e ->
                pt = degraded_point i cl e)
          /\ (forall v e,
                Arima.extract_point (Arima.np_maximum0 (Arima.predicted_mean fr)) i = Ok v ->
                Arima.extract_bounds ci i v = Raise e ->
                pt = degraded_point i cl e)
          /\ (forall v b,
                Arima.extract_point (Arima.np_maximum0 (Arima.predicted_mean fr)) i = Ok v ->
                Arima.extract_bounds ci i v = Ok b ->
                pt = {| Arima.fp_step := (i + 1)%nat;
                        Arima.fp_forecast := v;
                        Arima.fp_lower_bound := fst b;
                        Arima.fp_upper_bound := snd b;
                        Arima.fp_confidence_level := cl;
                        Arima.fp_error := None |}).
Proof.
  unfold Arima.forecast. rewrite Hfc. simpl. rewrite Hci. simpl.
  eexists. split; [reflexivity|]. split; [reflexivity|]. split.
  - rewrite length_map, length_seq. reflexivity.
  - intros i Hi. eexists. split.
    + rewrite nth_error_map, (nth_error_seq0 _ _ Hi). reflexivity.
    + split; [apply forecast_step_number|].
      unfold Arima.forecast_step. repeat split.
      * intros e He. rewrite He. reflexivity.
      * intros v e Hv Hb. rewrite Hv. simpl. rewrite Hb. reflexivity.
      * intros v b Hv Hb. rewrite Hv. simpl. rewrite Hb. reflexivity.
Qed.

Lemma forecast_step_isolation_witness :
  exists pts,
    Arima.forecast (Some ragged_fitted) 3 (95 # 100)
    = Ok (Arima.ForecastSuccess pts 3 "ARIMA" (95 # 100))
    /\ List.length pts = 3%nat
    /\ nth_error pts 1
       = Some (degraded_point 1 (95 # 100)
                 (Exn "TypeError" "float() argument must be a string or a real number"))
    /\ nth_error pts 2
       = Some (degraded_point 2 (95 # 100)
                 (Exn "IndexError" "single positional indexer is out-of-bounds")).
Proof.
  destruct (forecast_step_isolation ragged_fitted 3 (95 # 100) _ _ eq_refl eq_refl)
    as (pts & Hf & _ & Hlen & Hpt).
  exists pts. split; [exact Hf|]. split; [exact Hlen|]. split.
  - destruct (Hpt 1%nat ltac:(lia)) as (pt & Hn & _ & _ & Hb & _).
    rewrite Hn. f_equal. apply (Hb (Fin 8)). reflexivity. reflexivity.
  - destruct (Hpt 2%nat ltac:(lia)) as (pt & Hn & _ & Hp & _).
    rewrite Hn. f_equal. apply Hp. reflexivity.
Defined.

Lemma xmax0_not_negative (a : xnum) : not_negative (xmax0 a).
Proof.
  destruct a as [q| | |]; simpl; try exact I. apply max0_nonneg. apply Qle_refl.
Qed.

Lemma extract_clamped (fv : Arima.forecast_values) (i : nat) (v : xnum) :
  Arima.extract_point (Arima.np_maximum0 fv) i = Ok v ->
  exists raw, Arima.extract_point fv i = Ok raw /\ v = xmax0 raw.
Proof.
  destruct fv as [iloc|getitem|x]; simpl.
  - destruct (iloc i) as [raw|e]; simpl; [|discriminate].
    intros H. injection H as <-. eauto.
  - destruct (getitem i) as [raw|e]; simpl; [|discriminate].
    intros H. injection H as <-. eauto.
  - intros H. injection H as <-. eauto.
Qed.

(** X6.  What the autoregressive forecast does guarantee: no emitted
    point forecast is negative.  It is a number that is at least 0 (0 at
    a step whose extraction failed), or +inf, or NaN, and it is NaN only
    where the predicted mean the library returned is NaN. *)
Lemma arima_forecast_point_nonneg (fm : Arima.fitted) (steps : nat) (cl : Q)
    (env : Arima.forecast_envelope) :
  Arima.forecast (Some fm) steps cl = Ok env ->
  Forall (fun pt => not_negative (Arima.fp_forecast pt)) (Arima.fc_forecasts env)
  /\ forall i pt,
      nth_error (Arima.fc_forecasts env) i = Some pt ->
      Arima.fp_forecast pt = NaN ->
      exists fr,
        Arima.f_get_forecast fm steps = Ok fr
        /\ Arima.extract_point (Arima.predicted_mean fr) i = Ok NaN.
Proof.
  unfold Arima.forecast.
  destruct (Arima.f_get_forecast fm steps) as [fr|e]; simpl;
    [|intros H; inversion H; split; [constructor | intros [|i] pt; discriminate]].
  destruct (Arima.conf_int fr (1 - cl)) as [ci|e]; simpl;
    [|intros H; inversion H; split; [constructor | intros [|i] pt; discriminate]].
  intros H. inversion H; subst env; clear H. simpl. split.
  - apply Forall_forall. intros pt Hin. apply in_map_iff in Hin.
    destruct Hin as (i & <- & _). unfold Arima.forecast_step.
    destruct (Arima.extract_point (Arima.np_maximum0 (Arima.predicted_mean fr)) i)
      as [v|e] eqn:Hv; simpl; [|apply Qle_refl].
    destruct (extract_clamped _ _ _ Hv) as (raw & _ & ->).
    destruct (Arima.extract_bounds ci i (xmax0 raw)); simpl;
      [apply xmax0_not_negative | apply Qle_refl].
  - intros i pt Hi Hnan. exists fr. split; [reflexivity|].
    rewrite nth_error_map in Hi.
    destruct (nth_error (seq 0 steps) i) as [k|] eqn:Hk; [|discriminate].
    assert (k = i).
    { assert (Hlt : (i < List.length (seq 0 steps))%nat)
        by (apply nth_error_Some; congruence).
      rewrite length_seq in Hlt. rewrite (nth_error_seq0 _ _ Hlt) in Hk. congruence. }
    subst k. simpl in Hi. injection Hi as <-. unfold Arima.forecast_step in Hnan.
    destruct (Arima.extract_point (Arima.np_maximum0 (Arima.predicted_mean fr)) i)
      as [v|e] eqn:Hv; simpl in Hnan; [|discriminate].
    destruct (extract_clamped _ _ _ Hv) as (raw & Hraw & ->).
    destruct (Arima.extract_bounds ci i (xmax0 raw)); simpl in Hnan; [|discriminate].
    destruct raw; simpl in Hnan; try discriminate. exact Hraw.
Qed.

(** C1 at a concrete forecast.  The autoregressive forecast clamps the
    point forecast only: with a predicted mean of 1 then -2 and
    intervals (-3, 5) and (-6, -1) it emits a negative lower bound at
    step 1 and, at step 2, a point forecast above its upper bound. *)
Theorem arima_forecast_bounds_not_clamped :
  Arima.forecast (Some interval_fitted) 2 (95 # 100)
  = Ok (Arima.ForecastSuccess
          [ {| Arima.fp_step := 1; Arima.fp_forecast := Fin 1;
               Arima.fp_lower_bound := Fin (-3); Arima.fp_upper_bound := Fin 5;
               Arima.fp_confidence_level := 95 # 100; Arima.fp_error := None |};
            {| Arima.fp_step := 2; Arima.fp_forecast := Fin 0;
               Arima.fp_lower_bound := Fin (-6); Arima.fp_upper_bound := Fin (-1);
               Arima.fp_confidence_level := 95 # 100; Arima.fp_error := None |} ]
          2 "ARIMA" (95 # 100))
  /\ (-3 < 0)%Q /\ (-1 < 0)%Q.
Proof. split; [reflexivity | split; reflexivity]. Qed.


(** * The entry point of the autoregressive backend *)

Lemma init_shadows_seasonal_decomposition :
  Arima.getattr Arima.init "seasonal_decomposition" = Ok Arima.PyNone
  /\ Arima.callable Arima.init "seasonal_decomposition"
     = Raise (Exn "TypeError" "'NoneType' object is not callable")
  /\ Arima.callable Arima.init "prepare_data" = Ok tt
  /\ Arima.callable Arima.init "check_stationarity" = Ok tt.
Proof. repeat split. Qed.

(** A request without the seasonal flag goes through: 30 points, all
    with a non-negative forecast. *)
Example plain_request_succeeds :
  exists st fit pts,
    Arima.main steady_fit false failing_auto_arima sample_adfuller sample_seasonal_decompose
      plain_request
    = Arima.OutSuccess 10 st None fit (Arima.ForecastSuccess pts 30 "ARIMA" (95 # 100))
    /\ List.length pts = 30%nat
    /\ Forall (fun pt => Arima.fp_forecast pt = Fin 15) pts.
Proof.
  do 3 eexists. split; [vm_compute; reflexivity|]. split; [reflexivity|].
  repeat constructor.
Qed.

(** C7.  A request with the seasonal flag set and at least ten data
    points never yields a successful forecast: [main] returns the
    top-level error envelope.  When the preparation succeeds the error is
    the TypeError of calling the attribute [seasonal_decomposition],
    which [__init__] has set to None on the instance. *)
Theorem seasonal_request_fails
    (ARIMA_fit : Arima.series -> Arima.order -> option Arima.seasonal_order
                 -> result Arima.fitted)
    (PMDARIMA_AVAILABLE : bool)
    (auto_arima : Arima.series -> bool -> nat -> result Arima.auto_model)
    (adfuller : list (option Q) -> result (Q * Q))
    (seasonal_decompose : Arima.series -> string -> nat -> result Arima.decomposition)
    (input_data : Arima.request) (data_points : list (option Q))
    (Hdata : Arima.r_data_points input_data = Some data_points)
    (Hlen : (10 <= List.length data_points)%nat)
    (Hseasonal : Arima.r_seasonal input_data = Some true) :
  Arima.out_success
    (Arima.main ARIMA_fit PMDARIMA_AVAILABLE auto_arima adfuller seasonal_decompose input_data)
  = false
  /\ exists error error_type,
      Arima.main ARIMA_fit PMDARIMA_AVAILABLE auto_arima adfuller seasonal_decompose input_data
      = Arima.OutError error error_type
      /\ (forall ts,
            Arima.prepare_data data_points (Arima.r_dates input_data) = Ok ts ->
            error = "'NoneType' object is not callable" /\ error_type = "TypeError")
      /\ (forall e,
            Arima.prepare_data data_points (Arima.r_dates input_data) = Raise e ->
            error = exn_msg e /\ error_type = exn_type e).
Proof.
  unfold Arima.main, Arima.main_body. rewrite Hdata, Hseasonal. simpl Arima.get_default.
  assert (Hlt : Nat.ltb (List.length data_points) 10 = false)
    by (apply Nat.ltb_ge; exact Hlen).
  rewrite Hlt.
  destruct init_shadows_seasonal_decomposition as (_ & _ & Hprep & _).
  rewrite Hprep. simpl bind.
  destruct (Arima.prepare_data data_points (Arima.r_dates input_data)) as [ts|e].
  - simpl. split; [reflexivity|]. do 2 eexists. split; [reflexivity|]. split.
    + intros _ _. split; reflexivity.
    + intros e He. discriminate.
  - simpl. split; [reflexivity|]. do 2 eexists. split; [reflexivity|]. split.
    + intros ts Hts. discriminate.
    + intros e' He'. inversion He'; subst. split; reflexivity.
Qed.

Lemma seasonal_request_fails_witness :
  Arima.out_success
    (Arima.main steady_fit false failing_auto_arima sample_adfuller sample_seasonal_decompose
       seasonal_request)
  = false
  /\ Arima.main steady_fit false failing_auto_arima sample_adfuller sample_seasonal_decompose
       seasonal_request
     = Arima.OutError "'NoneType' object is not callable" "TypeError".
Proof.
  split.
  - apply (seasonal_request_fails steady_fit false failing_auto_arima sample_adfuller
             sample_seasonal_decompose seasonal_request sample_points eq_refl).
    + simpl. lia.
    + reflexivity.
  - reflexivity.
Defined.


(** * The MAPE computations *)

Lemma xsum_finite (l : list xnum) :
  Forall (fun a => exists q, a = Fin q) l ->
  forall acc, exists q, fold_left xadd l (Fin acc) = Fin q.
Proof.
  induction 1 as [|a l [x ->] _ IH]; intros acc; simpl.
  - exists acc. reflexivity.
  - apply IH.
Qed.

Lemma Qofnat_succ_nonzero (n : nat) : Qeq_bool (Qofnat (S n)) 0 = false.
Proof.
  destruct (Qeq_bool (Qofnat (S n)) 0) eqn:E; [|reflexivity].
  apply Qeq_bool_iff in E. unfold Qofnat, Qeq in E. simpl in E. lia.
Qed.

Lemma np_mean_finite (l : list xnum) :
  l <> [] ->
  Forall (fun a => exists q, a = Fin q) l ->
  exists q, np_mean l = Fin q.
Proof.
  intros Hne Hfin. destruct l as [|a l]; [congruence|].
  unfold np_mean, xsum. destruct (xsum_finite _ Hfin 0) as [s ->].
  change (List.length (a :: l)) with (S (List.length l)).
  unfold xdiv. rewrite Qofnat_succ_nonzero. eexists. reflexivity.
Qed.

Lemma series_mean_finite (l : list xnum) :
  l <> [] ->
  Forall (fun a => exists q, a = Fin q) l ->
  exists q, series_mean l = Fin q.
Proof.
  intros Hne Hfin. unfold series_mean.
  assert (Hid : filter (fun a => negb (xisnan a)) l = l).
  { clear Hne. induction Hfin as [|a l [x ->] _ IH]; simpl; [reflexivity | now rewrite IH]. }
  rewrite Hid. apply np_mean_finite; assumption.
Qed.

(** The rows a mask built with [!= 0] keeps are non-zero numbers. *)
Lemma masked_actual_nonzero (actual : list Q) :
  Forall (fun a => exists x, a = Fin x /\ Qeq_bool x 0 = false)
         (map snd (filter fst (combine (map xnonzero (map Fin actual)) (map Fin actual)))).
Proof.
  induction actual as [|x l IH]; simpl; [constructor|].
  destruct (Qeq_bool x 0) eqn:E; simpl; [exact IH|].
  constructor; [exists x; auto | exact IH].
Qed.

Lemma masked_finite (mask : list bool) (l : list Q) :
  Forall (fun a => exists x, a = Fin x) (map snd (filter fst (combine mask (map Fin l)))).
Proof.
  revert l. induction mask as [|b mask IH]; intros [|x l]; simpl; try constructor.
  destruct b; simpl; [constructor; [eauto | apply IH] | apply IH].
Qed.

Lemma masked_length {A : Type} (mask : list bool) (l : list A) :
  List.length mask = List.length l ->
  List.length (map snd (filter fst (combine mask l)))
  = List.length (filter (fun b => b) mask).
Proof.
  revert l. induction mask as [|b mask IH]; intros [|x l] H; simpl in *; try discriminate.
  - reflexivity.
  - injection H as H. destruct b; simpl; [f_equal|]; apply IH, H.
Qed.

(** The percentage errors over kept rows are finite. *)
Lemma ratios_finite (a p : list xnum) :
  Forall (fun u => exists x, u = Fin x /\ Qeq_bool x 0 = false) a ->
  Forall (fun v => exists y, v = Fin y) p ->
  Forall (fun r => exists q, r = Fin q)
         (map (fun ap => xabs (xdiv (xsub (fst ap) (snd ap)) (fst ap))) (combine a p)).
Proof.
  intros Ha. revert p. induction Ha as [|u a (x & -> & Hx) _ IH]; intros p Hp; simpl.
  - constructor.
  - destruct Hp as [|v p [y ->] Hp]; simpl; constructor.
    + rewrite Hx. eexists. reflexivity.
    + apply IH, Hp.
Qed.

(** The guarded MAPE of the autoregressive backend is a finite number
    whatever the actual values are, and 100 when no actual value is
    non-zero. *)
Lemma arima_mape_guarded (actual predicted : list Q) :
  (exists q, Arima.calculate_mape (map Fin actual) (map Fin predicted) = Fin q)
  /\ ((forall x, In x actual -> x == 0) ->
      Arima.calculate_mape (map Fin actual) (map Fin predicted) = Fin 100).
Proof.
  unfold Arima.calculate_mape, Arima.mask_select.
  set (mask := map xnonzero (map Fin actual)).
  split.
  - destruct (Nat.eqb (List.length (filter (fun b => b) mask)) 0) eqn:Ecount; [eauto|].
    apply Nat.eqb_neq in Ecount.
    rewrite (proj2 (Nat.eqb_eq (List.length mask) (List.length (map Fin actual))))
      by (unfold mask; now rewrite !length_map).
    destruct (Nat.eqb (List.length mask) (List.length (map Fin predicted))) eqn:Elen; [|eauto].
    apply Nat.eqb_eq in Elen.
    set (a := map snd (filter fst (combine mask (map Fin actual)))).
    set (p := map snd (filter fst (combine mask (map Fin predicted)))).
    assert (Hla : List.length a = List.length (filter (fun b => b) mask))
      by (apply masked_length; unfold mask; now rewrite !length_map).
    assert (Hlp : List.length p = List.length (filter (fun b => b) mask))
      by (apply masked_length, Elen).
    destruct (np_mean_finite
                (map (fun ap => xabs (xdiv (xsub (fst ap) (snd ap)) (fst ap))) (combine a p)))
      as [mu Hmu].
    + intros Hnil. apply (f_equal (@List.length _)) in Hnil.
      rewrite length_map, length_combine in Hnil. simpl in Hnil. lia.
    + apply ratios_finite; [apply masked_actual_nonzero | apply masked_finite].
    + rewrite Hmu. simpl. eauto.
  - intros Hzero.
    assert (Hcount : filter (fun b => b) mask = []).
    { unfold mask. clear -Hzero. induction actual as [|x l IH]; simpl; [reflexivity|].
      rewrite (proj2 (Qeq_bool_iff x 0)) by (apply Hzero; now left).
      simpl. apply IH. intros y Hy. apply Hzero. now right. }
    rewrite Hcount. reflexivity.
Qed.

(** The same for the local MAPE of the tree backend's fit. *)
Lemma xgboost_mape_guarded (actual predicted : list Q) (r : xnum) :
  XGBoost.calculate_mape (map Fin actual) (map Fin predicted) = Ok r ->
  exists q, r = Fin q.
Proof.
  unfold XGBoost.calculate_mape, Arima.mask_select.
  set (mask := map xnonzero (map Fin actual)).
  destruct (Nat.eqb (List.length (filter (fun b => b) mask)) 0) eqn:Ecount.
  - intros H. inversion H. eauto.
  - apply Nat.eqb_neq in Ecount.
    destruct (Nat.eqb (List.length mask) (List.length (map Fin predicted))) eqn:Elen;
      [|discriminate].
    apply Nat.eqb_eq in Elen. simpl.
    set (a := map snd (filter fst (combine mask (map Fin actual)))).
    set (p := map snd (filter fst (combine mask (map Fin predicted)))).
    assert (Hla : List.length a = List.length (filter (fun b => b) mask))
      by (apply masked_length; unfold mask; now rewrite !length_map).
    assert (Hlp : List.length p = List.length (filter (fun b => b) mask))
      by (apply masked_length, Elen).
    destruct (series_mean_finite
                (map (fun ap => xabs (xdiv (xsub (fst ap) (snd ap)) (fst ap))) (combine a p)))
      as [mu Hmu].
    + intros Hnil. apply (f_equal (@List.length _)) in Hnil.
      rewrite length_map, length_combine in Hnil. simpl in Hnil. lia.
    + apply ratios_finite; [apply masked_actual_nonzero | apply masked_finite].
    + rewrite Hmu. simpl. intros H. inversion H. eauto.
Qed.

(** C3 at a concrete input.  On ten points that start with a day
    without sales, the decomposable backend's in-sample MAPE divides by
    that zero and is infinite, where the guarded computation of the
    autoregressive backend on the same numbers is finite. *)
Theorem prophet_mape_divides_by_zero :
  exists df mae,
    Prophet.prepare_data sample_now zero_start_points None = Ok df
    /\ Prophet.generate_model_diagnostics flat_predict sample_cross_validation df
       = Prophet.DiagInSample PInf mae
    /\ exists q,
        Arima.calculate_mape (map to_float (Prophet.y df))
                             (map (fun _ => Fin 12) (Prophet.y df)) = Fin q.
Proof.
  eexists. eexists. split; [reflexivity|]. split.
  - vm_compute. reflexivity.
  - eexists. vm_compute. reflexivity.
Qed.


(** * Data preparation *)

Lemma insert_row_perm (r : XGBoost.row) (l : list XGBoost.row) :
  Permutation (XGBoost.insert_row r l) (r :: l).
Proof.
  induction l as [|h t IH]; simpl.
  - apply Permutation_refl.
  - destruct (fst r <=? fst h)%Z.
    + apply Permutation_refl.
    + eapply Permutation_trans; [apply perm_skip, IH | apply perm_swap].
Qed.

Lemma sort_values_perm (l : list XGBoost.row) : Permutation (XGBoost.sort_values l) l.
Proof.
  induction l as [|r l IH]; simpl.
  - apply Permutation_refl.
  - eapply Permutation_trans; [apply insert_row_perm | apply perm_skip, IH].
Qed.

Lemma insert_row_sorted (r : XGBoost.row) (l : list XGBoost.row) :
  StronglySorted row_le l -> StronglySorted row_le (XGBoost.insert_row r l).
Proof.
  induction 1 as [|h t Hs IH Hall]; simpl.
  - repeat constructor.
  - destruct (fst r <=? fst h)%Z eqn:E.
    + apply Z.leb_le in E. constructor.
      * constructor; assumption.
      * constructor; [exact E|].
        eapply Forall_impl; [|exact Hall]. unfold row_le. intros a Ha. lia.
    + apply Z.leb_gt in E. constructor; [exact IH|].
      eapply Permutation_Forall; [apply Permutation_sym, insert_row_perm|].
      constructor; [unfold row_le; lia | exact Hall].
Qed.

Lemma sort_values_sorted (l : list XGBoost.row) : StronglySorted row_le (XGBoost.sort_values l).
Proof.
  induction l as [|r l IH]; simpl; [constructor | apply insert_row_sorted, IH].
Qed.

(** Rows that already are in order are left as they are. *)
Lemma sort_values_sorted_id (l : list XGBoost.row) :
  StronglySorted row_le l -> XGBoost.sort_values l = l.
Proof.
  induction 1 as [|h t Hs IH Hall]; simpl; [reflexivity|].
  rewrite IH. destruct t as [|h' t']; simpl; [reflexivity|].
  inversion Hall as [|? ? Hh _]; subst. unfold row_le in Hh.
  apply Z.leb_le in Hh. rewrite Hh. reflexivity.
Qed.

Lemma ffill_from_length (last : option Q) (l : list (option Q)) :
  List.length (ffill_from last l) = List.length l.
Proof.
  revert last. induction l as [|[x|] l IH]; intros last; simpl; auto.
Qed.

Lemma bfill_length (l : list (option Q)) : List.length (bfill l) = List.length l.
Proof.
  induction l as [|[x|] l IH]; simpl; auto.
Qed.

Lemma fill_length (l : list (option Q)) : List.length (bfill (ffill l)) = List.length l.
Proof.
  unfold ffill. rewrite bfill_length. apply ffill_from_length.
Qed.

Lemma synthetic_dates_length (now : Z) (n : nat) : List.length (synthetic_dates now n) = n.
Proof.
  unfold synthetic_dates, date_range. rewrite length_map, length_seq. reflexivity.
Qed.

(** The [k]-th synthetic stamp lies [n - 1 - k] days before [now]; the
    last one is [now]. *)
Lemma synthetic_dates_nth (now : Z) (n k : nat) :
  (k < n)%nat ->
  nth_error (synthetic_dates now n) k
  = Some (now - Timedelta_days (Z.of_nat (n - 1 - k)))%Z.
Proof.
  intros H. unfold synthetic_dates, date_range.
  rewrite nth_error_map, (nth_error_seq0 _ _ H). simpl. f_equal.
  unfold Timedelta_days. replace (Z.of_nat (n - 1 - k)) with (Z.of_nat n - 1 - Z.of_nat k)%Z by lia.
  ring.
Qed.

Lemma date_rows_sorted (start : Z) (n a : nat) (vals : list (option Q)) :
  StronglySorted row_le
    (combine (map (fun k => (start + Timedelta_days (Z.of_nat k))%Z) (seq a n)) vals).
Proof.
  revert a vals. induction n as [|n IH]; intros a vals; simpl; [constructor|].
  destruct vals as [|v vals]; [constructor|].
  constructor; [apply IH|].
  apply Forall_forall. intros [t w] Hin. apply in_combine_l in Hin.
  apply in_map_iff in Hin. destruct Hin as (k & <- & Hk). apply in_seq in Hk.
  unfold row_le, Timedelta_days, day_ns. simpl. lia.
Qed.

Lemma map_fst_combine {A B : Type} (l : list A) (l' : list B) :
  List.length l = List.length l' -> map fst (combine l l') = l.
Proof.
  revert l'. induction l as [|a l IH]; intros [|b l'] H; simpl in *; try discriminate.
  - reflexivity.
  - f_equal. apply IH. now injection H.
Qed.

Lemma base_rows_spec (now : Z) (data_points : list (option Q)) (dates : option (list Z))
    (rows : list XGBoost.row) :
  XGBoost.base_rows now data_points dates = Ok rows ->
  rows = XGBoost.sort_values
           (combine (input_stamps now (List.length data_points) dates)
                    (bfill (ffill data_points))).
Proof.
  unfold XGBoost.base_rows, input_stamps.
  destruct (truthy dates) eqn:Et.
  - destruct dates as [stamps|]; [|discriminate].
    destruct (Nat.eqb (List.length stamps) (List.length data_points)); simpl.
    + intros H. inversion H. reflexivity.
    + discriminate.
  - simpl. intros H. inversion H. reflexivity.
Qed.

(** What a successful [prepare_features] is made of. *)
Lemma prepare_features_inv
    (derive_features : list XGBoost.row -> option XGBoost.external
                       -> result (list string * list (list Q)))
    (now : Z) (data_points : list (option Q)) (dates : option (list Z))
    (external_features : option XGBoost.external) (df : XGBoost.frame) :
  XGBoost.prepare_features derive_features now data_points dates external_features = Ok df ->
  exists rows,
    XGBoost.base_rows now data_points dates = Ok rows
    /\ derive_features rows external_features = Ok (XGBoost.columns df, XGBoost.X df)
    /\ XGBoost.ds df = map fst rows
    /\ XGBoost.y df = map (fun r => XGBoost.fillna0 (snd r)) rows.
Proof.
  unfold XGBoost.prepare_features. intros Hprep.
  destruct (XGBoost.base_rows now data_points dates) as [rows|e] eqn:Hrows;
    simpl in Hprep; [|discriminate].
  destruct (derive_features rows external_features) as [[names X]|e] eqn:Hfeat;
    simpl in Hprep; [|discriminate].
  inversion Hprep; subst df; clear Hprep. simpl.
  exists rows. repeat split. exact Hfeat.
Qed.

(** The half of C2 that holds, and what the other half comes to.  The
    tree-backend preparation hands the feature derivation rows that are
    ordered by timestamp and are the input rows, forward then backward
    filled, in another order; the values are not clamped: each prepared
    value is the filled input value (0 where the whole column is
    missing). *)
Theorem prepare_features_sorts
    (derive_features : list XGBoost.row -> option XGBoost.external
                       -> result (list string * list (list Q)))
    (now : Z) (data_points : list (option Q)) (dates : option (list Z))
    (external_features : option XGBoost.external) (df : XGBoost.frame)
    (Hprep : XGBoost.prepare_features derive_features now data_points dates external_features
             = Ok df) :
  exists rows,
    XGBoost.base_rows now data_points dates = Ok rows
    /\ StronglySorted (fun a b => (fst a <= fst b)%Z) rows
    /\ Permutation rows
         (combine (input_stamps now (List.length data_points) dates)
                  (bfill (ffill data_points)))
    /\ derive_features rows external_features = Ok (XGBoost.columns df, XGBoost.X df)
    /\ XGBoost.ds df = map fst rows
    /\ XGBoost.y df = map (fun r => XGBoost.fillna0 (snd r)) rows
    /\ StronglySorted Z.le (XGBoost.ds df).
Proof.
  destruct (prepare_features_inv _ _ _ _ _ _ Hprep) as (rows & Hrows & Hfeat & Hds & Hy).
  pose proof (base_rows_spec _ _ _ _ Hrows) as Hspec.
  assert (Hsorted : StronglySorted row_le rows) by (rewrite Hspec; apply sort_values_sorted).
  exists rows.
  split; [exact Hrows|]. split; [exact Hsorted|].
  split; [rewrite Hspec; apply sort_values_perm|].
  split; [exact Hfeat|]. split; [exact Hds|]. split; [exact Hy|].
  rewrite Hds. clear -Hsorted.
  induction Hsorted as [|h t _ IH Hall]; simpl; constructor.
  - exact IH.
  - apply Forall_forall. intros z Hz. apply in_map_iff in Hz.
    destruct Hz as (r & <- & Hr). rewrite Forall_forall in Hall. apply (Hall r Hr).
Qed.

Lemma prepare_features_sorts_witness :
  exists rows,
    XGBoost.base_rows sample_now returns_points (Some (rev (synthetic_dates sample_now 15)))
    = Ok rows
    /\ StronglySorted (fun a b => (fst a <= fst b)%Z) rows
    /\ hd_error rows = Some ((sample_now - Timedelta_days 14)%Z, Some 17).
Proof.
  destruct (prepare_features_sorts no_features sample_now returns_points
              (Some (rev (synthetic_dates sample_now 15))) None _ eq_refl)
    as (rows & Hrows & Hsorted & _).
  exists rows. split; [exact Hrows|]. split; [exact Hsorted|].
  vm_compute in Hrows. inversion Hrows. reflexivity.
Defined.

(** C2 at a concrete input.  On fifteen daily figures of which the
    fourth is -5, the tree-backend preparation returns the rows in
    timestamp order but leaves the value as it is: the prepared column
    still holds -5.  The preparation of the decomposable backend, on the
    same figures, clamps it to 0. *)
Theorem prepare_features_keeps_negative :
  exists df pf,
    XGBoost.prepare_features no_features sample_now returns_points None None = Ok df
    /\ StronglySorted Z.le (XGBoost.ds df)
    /\ nth_error (XGBoost.y df) 3 = Some (-5)
    /\ -5 < 0
    /\ Prophet.prepare_data sample_now returns_points None = Ok pf
    /\ nth_error (Prophet.y pf) 3 = Some (Some 0).
Proof.
  eexists. eexists. split; [reflexivity|]. split.
  - destruct (prepare_features_sorts no_features sample_now returns_points None None _ eq_refl)
      as (rows & _ & _ & _ & _ & _ & _ & Hsorted).
    exact Hsorted.
  - split; [reflexivity|]. split; [reflexivity|]. split; reflexivity.
Qed.

(** The decomposable backend is the one that clamps. *)
Lemma prophet_prepare_clamps (now : Z) (data_points : list (option Q))
    (dates : option (list Z)) (df : Prophet.frame) (v : Q) :
  Prophet.prepare_data now data_points dates = Ok df ->
  In (Some v) (Prophet.y df) -> 0 <= v.
Proof.
  unfold Prophet.prepare_data. intros H Hin.
  match type of H with match ?b with _ => _ end = _ => destruct b as [df'|e] eqn:Hb end;
    [|discriminate].
  inversion H; subst df'; clear H.
  match type of Hb with bind ?r _ = _ => destruct r as [df0|e]; simpl in Hb end;
    [|discriminate].
  destruct (Nat.ltb _ 10); [discriminate|].
  inversion Hb; subst df; clear Hb. simpl in Hin.
  apply in_map_iff in Hin. destruct Hin as ([w|] & Hw & _); simpl in Hw; [|discriminate].
  inversion Hw. apply max0_nonneg.
Qed.

Lemma prophet_prepare_index (now : Z) (data_points : list (option Q))
    (dates : option (list Z)) (df : Prophet.frame) :
  Prophet.prepare_data now data_points dates = Ok df ->
  Prophet.ds df = input_stamps now (List.length data_points) dates.
Proof.
  unfold Prophet.prepare_data, input_stamps. intros H.
  destruct (truthy dates) eqn:Et.
  - destruct dates as [stamps|]; [|discriminate].
    destruct (Nat.eqb (List.length stamps) (List.length data_points)); simpl in H.
    + destruct (Nat.ltb _ 10); [discriminate|]. inversion H. reflexivity.
    + discriminate.
  - simpl in H. destruct (Nat.ltb _ 10); [discriminate|]. inversion H. reflexivity.
Qed.

(** C8 (as the code has it).  When no timestamps are given, the
    decomposable and the tree preparation index the series by one stamp
    per value, a day apart, the last one being the current time; the
    autoregressive preparation uses the sequential index 0..n-1. *)
Theorem synthetic_index_when_dates_absent
    (now : Z) (data_points : list (option Q)) (dates : option (list Z))
    (Hdates : truthy dates = false) :
  (forall df,
      Prophet.prepare_data now data_points dates = Ok df ->
      Prophet.ds df = synthetic_dates now (List.length data_points))
  /\ (forall derive_features external_features df,
        XGBoost.prepare_features derive_features now data_points dates external_features
        = Ok df ->
        XGBoost.ds df = synthetic_dates now (List.length data_points))
  /\ (forall k, (k < List.length data_points)%nat ->
        nth_error (synthetic_dates now (List.length data_points)) k
        = Some (now - Timedelta_days (Z.of_nat (List.length data_points - 1 - k)))%Z)
  /\ List.length (synthetic_dates now (List.length data_points)) = List.length data_points
  /\ (forall ts,
        Arima.prepare_data data_points dates = Ok ts ->
        Arima.s_index ts = Arima.RangeIndex (List.length data_points)).
Proof.
  assert (Hstamps : input_stamps now (List.length data_points) dates
                    = synthetic_dates now (List.length data_points))
    by (unfold input_stamps; rewrite Hdates; reflexivity).
  split; [|split; [|split; [|split]]].
  - intros df H. rewrite (prophet_prepare_index _ _ _ _ H). exact Hstamps.
  - intros derive_features external_features df H.
    destruct (prepare_features_inv _ _ _ _ _ _ H) as (rows & Hrows & _ & Hds & _).
    rewrite Hds, (base_rows_spec _ _ _ _ Hrows), Hstamps.
    rewrite sort_values_sorted_id by apply date_rows_sorted.
    apply map_fst_combine. rewrite synthetic_dates_length, fill_length. reflexivity.
  - intros k Hk. apply synthetic_dates_nth, Hk.
  - apply synthetic_dates_length.
  - intros ts H. unfold Arima.prepare_data in H. rewrite Hdates in H. simpl in H.
    destruct (Nat.ltb _ 10); [discriminate|]. inversion H. reflexivity.
Qed.

Lemma synthetic_index_when_dates_absent_witness :
  (exists df,
      Prophet.prepare_data sample_now sample_points None = Ok df
      /\ Prophet.ds df = synthetic_dates sample_now 10)
  /\ (exists df,
        XGBoost.prepare_features no_features sample_now returns_points None None = Ok df
        /\ XGBoost.ds df = synthetic_dates sample_now 15)
  /\ nth_error (synthetic_dates sample_now 10) 9 = Some sample_now.
Proof.
  split; [|split].
  - eexists. split; [reflexivity|].
    apply (proj1 (synthetic_index_when_dates_absent sample_now sample_points None eq_refl)).
    reflexivity.
  - eexists. split; [reflexivity|].
    apply (proj1 (proj2 (synthetic_index_when_dates_absent sample_now returns_points None
                           eq_refl)) no_features None).
    reflexivity.
  - reflexivity.
Defined.

(** C8 as stated fails for the autoregressive backend: without
    timestamps its prepared series carries the sequential index, not
    dates. *)
Lemma arima_index_is_sequential :
  exists ts,
    Arima.prepare_data sample_points None = Ok ts
    /\ Arima.s_index ts = Arima.RangeIndex 10
    /\ forall stamps, Arima.s_index ts <> Arima.DatetimeIndex stamps.
Proof.
  eexists. split; [reflexivity|]. split; [reflexivity|]. intros stamps. discriminate.
Qed.


(** * The diagnostics of the tree backend *)

Lemma Qsum_nonneg (l : list Q) :
  Forall (fun x => 0 <= x) l -> forall acc, 0 <= acc -> 0 <= fold_left Qplus l acc.
Proof.
  induction 1 as [|x l Hx _ IH]; intros acc Hacc; simpl; [exact Hacc|].
  apply IH. replace 0 with (0 + 0) by reflexivity. apply Qplus_le_compat; assumption.
Qed.

Lemma Qofnat_pos (n : nat) : (0 < n)%nat -> 0 < Qofnat n.
Proof.
  intros H. unfold Qofnat, Qlt. simpl. lia.
Qed.

Lemma mean_absolute_error_nonneg (y_true y_pred : list Q) (m : Q) :
  XGBoost.mean_absolute_error y_true y_pred = Ok m -> 0 <= m.
Proof.
  unfold XGBoost.mean_absolute_error.
  destruct (negb _); [discriminate|].
  destruct (Nat.eqb (List.length y_true) 0) eqn:E; [discriminate|].
  apply Nat.eqb_neq in E. intros H. inversion H; subst m; clear H.
  apply Qle_shift_div_l; [apply Qofnat_pos; lia|].
  rewrite Qmult_0_l. apply Qsum_nonneg; [|apply Qle_refl].
  apply Forall_forall. intros x Hx. apply in_map_iff in Hx.
  destruct Hx as (tp & Hx & _). rewrite <- Hx. exact (Qabs_nonneg (fst tp - snd tp)).
Qed.

(** C9 (as the code has it).  After a successful fit the reported MAEs
    are those of the time-ordered 80/20 split.  The overfitting signal
    is the float quotient of validation MAE by training MAE when the
    training MAE is positive, and the constant 1 when it is zero.
    [is_overfitting] is a separate test, whether the validation MAE
    exceeds the float product of the training MAE and 1.5; it is not
    computed from the reported signal, and with a training MAE of zero it
    holds exactly when the validation MAE is positive.  The only
    assumption on the rounding is that it leaves zero at zero. *)
Theorem overfitting_signal
    (fit_transform : list (list Q) -> result (XGBoost.scaler_state * list (list Q)))
    (xgb_fit : XGBoost.hyperparameters -> list (list Q) -> list Q -> list (list Q) -> list Q
               -> result XGBoost.booster)
    (cross_val_mae : XGBoost.hyperparameters -> list (list Q) -> list Q -> result Q)
    (round : Q -> xnum)
    (self self' : XGBoost.service) (df : XGBoost.frame) (optimize_params : bool)
    (d : XGBoost.model_diagnostics)
    (Hzero : forall q, q == 0 -> exists z, round q = Fin z /\ z == 0)
    (Hfit : XGBoost.fit_xgboost_model fit_transform xgb_fit cross_val_mae round self df
              optimize_params
            = (self', XGBoost.FitSuccess d)) :
  (exists sc Xs m y_train_pred y_val_pred,
      fit_transform (XGBoost.X df) = Ok (sc, Xs)
      /\ XGBoost.model self' = Some (XGBoost.Fitted m)
      /\ XGBoost.xm_predict m (firstn (XGBoost.split_index (List.length Xs)) Xs)
         = Ok y_train_pred
      /\ XGBoost.xm_predict m (skipn (XGBoost.split_index (List.length Xs)) Xs)
         = Ok y_val_pred
      /\ XGBoost.mean_absolute_error
           (firstn (XGBoost.split_index (List.length Xs)) (XGBoost.y df)) y_train_pred
         = Ok (XGBoost.train_mae d)
      /\ XGBoost.mean_absolute_error
           (skipn (XGBoost.split_index (List.length Xs)) (XGBoost.y df)) y_val_pred
         = Ok (XGBoost.val_mae d))
  /\ 0 <= XGBoost.train_mae d
  /\ 0 <= XGBoost.val_mae d
  /\ (0 < XGBoost.train_mae d ->
      XGBoost.train_val_mae_ratio (XGBoost.overfitting_check d)
      = round (XGBoost.val_mae d / XGBoost.train_mae d))
  /\ (XGBoost.train_mae d == 0 ->
      XGBoost.train_val_mae_ratio (XGBoost.overfitting_check d) = Fin 1)
  /\ XGBoost.is_overfitting (XGBoost.overfitting_check d)
     = xlt (round (XGBoost.train_mae d * (15 # 10))) (Fin (XGBoost.val_mae d))
  /\ (XGBoost.train_mae d == 0 ->
      (XGBoost.is_overfitting (XGBoost.overfitting_check d) = true
       <-> 0 < XGBoost.val_mae d)).
Proof.
  unfold XGBoost.fit_xgboost_model in Hfit.
  destruct (fit_transform (XGBoost.X df)) as [[sc Xs]|e]; [|discriminate].
  set (k := XGBoost.split_index (List.length Xs)) in *.
  destruct (xgb_fit _ _ _ _ _) as [m|e]; [|discriminate].
  cbv zeta in Hfit.
  destruct (XGBoost.xm_predict m (firstn k Xs)) as [ytp|e] eqn:Htp; simpl in Hfit;
    [|discriminate].
  destruct (XGBoost.xm_predict m (skipn k Xs)) as [yvp|e] eqn:Hvp; simpl in Hfit;
    [|discriminate].
  destruct (XGBoost.mean_absolute_error (firstn k (XGBoost.y df)) ytp) as [tm|e] eqn:Htm;
    simpl in Hfit; [|discriminate].
  destruct (XGBoost.mean_absolute_error (skipn k (XGBoost.y df)) yvp) as [vm|e] eqn:Hvm;
    simpl in Hfit; [|discriminate].
  destruct (XGBoost.calculate_mape _ _) as [tmape|e]; simpl in Hfit; [|discriminate].
  destruct (XGBoost.calculate_mape _ _) as [vmape|e]; simpl in Hfit; [|discriminate].
  inversion Hfit; subst self' d; clear Hfit.
  cbn [XGBoost.train_mae XGBoost.val_mae XGBoost.overfitting_check XGBoost.model
       XGBoost.overfitting XGBoost.train_val_mae_ratio XGBoost.is_overfitting].
  pose proof (mean_absolute_error_nonneg _ _ _ Htm) as Htm0.
  pose proof (mean_absolute_error_nonneg _ _ _ Hvm) as Hvm0.
  split; [exists sc, Xs, m, ytp, yvp; auto 10|].
  split; [exact Htm0|]. split; [exact Hvm0|].
  split; [|split; [|split]].
  - intros Hpos. rewrite (proj2 (Qlt_bool_true 0 tm) Hpos). reflexivity.
  - intros Hz. assert (Hnot : Qlt_bool 0 tm = false)
      by (apply Qlt_bool_false; rewrite Hz; apply Qle_refl).
    rewrite Hnot. reflexivity.
  - reflexivity.
  - intros Hz. destruct (Hzero (tm * (15 # 10))) as (z & -> & Hzz).
    { rewrite Hz. reflexivity. }
    simpl. rewrite Qlt_bool_true, Hzz. reflexivity.
Qed.

Lemma binary64_zero (q : Q) : q == 0 -> exists z, binary64 q = Fin z /\ z == 0.
Proof.
  intros H. exists 0. unfold binary64.
  rewrite (proj2 (Qeq_bool_iff q 0) H). split; reflexivity.
Qed.

Lemma overfitting_signal_witness :
  exists self' d,
    XGBoost.fit_xgboost_model centring_scaler constant_fit sample_cross_val_mae binary64
      XGBoost.init step_frame true = (self', XGBoost.FitSuccess d)
    /\ XGBoost.train_mae d == 0
    /\ XGBoost.train_val_mae_ratio (XGBoost.overfitting_check d) = Fin 1
    /\ (XGBoost.is_overfitting (XGBoost.overfitting_check d) = true
        <-> 0 < XGBoost.val_mae d).
Proof.
  eexists. eexists. split; [reflexivity|].
  refine (let H := overfitting_signal centring_scaler constant_fit sample_cross_val_mae
                     binary64 XGBoost.init _ step_frame true _ binary64_zero eq_refl in _).
  destruct H as (_ & _ & _ & _ & Hone & _ & Hflag).
  match type of Hone with ?P -> _ => assert (Hz : P) by reflexivity end.
  split; [exact Hz|]. split; [exact (Hone Hz) | exact (Hflag Hz)].
Defined.

(** C9 as stated fails: a model that reproduces a constant training
    split has training MAE 0; the reported signal is then 1, which does
    not exceed 1.5, and yet [is_overfitting] is set. *)
Lemma overfitting_flag_without_ratio :
  exists self' d,
    XGBoost.fit_xgboost_model centring_scaler constant_fit sample_cross_val_mae binary64
      XGBoost.init step_frame true = (self', XGBoost.FitSuccess d)
    /\ XGBoost.train_mae d == 0
    /\ XGBoost.val_mae d == 1
    /\ XGBoost.train_val_mae_ratio (XGBoost.overfitting_check d) = Fin 1
    /\ XGBoost.is_overfitting (XGBoost.overfitting_check d) = true
    /\ xlt (Fin (15 # 10)) (XGBoost.train_val_mae_ratio (XGBoost.overfitting_check d)) = false.
Proof.
  eexists. eexists. split; [reflexivity|]. simpl.
  repeat split; reflexivity.
Qed.

(** In float64 the flag and the reported signal part ways also when
    the training MAE is positive.  With training MAE 0.3 and validation
    MAE 0.45 the product 0.3 * 1.5 rounds below 0.45 and the flag is set,
    while the quotient 0.45 / 0.3 rounds to 1.5, which does not exceed
    1.5.  With training MAE 0.1 and a validation MAE of 0.1 * 1.5 as
    rounded, the flag is not set, while the quotient rounds above 1.5. *)
Example overfitting_flag_and_signal_in_float64 :
  XGBoost.overfitting binary64 (float_literal (3 # 10)) (float_literal (45 # 100))
  = {| XGBoost.train_val_mae_ratio := Fin (3 # 2); XGBoost.is_overfitting := true |}
  /\ XGBoost.is_overfitting
       (XGBoost.overfitting binary64 (float_literal (1 # 10))
          (float_literal (float_literal (1 # 10) * (15 # 10))))
     = false
  /\ xlt (Fin (15 # 10))
         (XGBoost.train_val_mae_ratio
            (XGBoost.overfitting binary64 (float_literal (1 # 10))
               (float_literal (float_literal (1 # 10) * (15 # 10)))))
     = true.
Proof. vm_compute. repeat split; reflexivity. Qed.


(** * The forecast of the tree backend *)

Lemma existsb_key (key : string) (names : list string) :
  In key names -> existsb (String.eqb key) names = true.
Proof.
  intros H. apply existsb_exists. exists key. split; [exact H | apply String.eqb_refl].
Qed.

Lemma feature_dict_lookup (names : list string) (future_date : Z) (name : string) :
  In name names ->
  XGBoost.dict_get (XGBoost.feature_dict names future_date) name
  = calendar_field name future_date.
Proof.
  intros Hin. unfold XGBoost.feature_dict, calendar_field.
  destruct (String.eqb "month" name) eqn:E1.
  { apply String.eqb_eq in E1. subst name. rewrite (existsb_key _ _ Hin). reflexivity. }
  assert (D1 : forall v rest, XGBoost.dict_get
                 ((if existsb (String.eqb "month") names then [("month", v)] else []) ++ rest)
                 name = XGBoost.dict_get rest name).
  { intros v rest. destruct (existsb _ names); cbn [app XGBoost.dict_get];
    [rewrite E1|]; reflexivity. }
  rewrite D1. clear D1.
  destruct (String.eqb "dayofweek" name) eqn:E2.
  { apply String.eqb_eq in E2. subst name. rewrite (existsb_key _ _ Hin). reflexivity. }
  assert (D2 : forall v rest, XGBoost.dict_get
                 ((if existsb (String.eqb "dayofweek") names then [("dayofweek", v)] else [])
                  ++ rest) name = XGBoost.dict_get rest name).
  { intros v rest. destruct (existsb _ names); cbn [app XGBoost.dict_get];
    [rewrite E2|]; reflexivity. }
  rewrite D2. clear D2.
  destruct (String.eqb "quarter" name) eqn:E3.
  { apply String.eqb_eq in E3. subst name. rewrite (existsb_key _ _ Hin). reflexivity. }
  assert (D3 : forall v rest, XGBoost.dict_get
                 ((if existsb (String.eqb "quarter") names then [("quarter", v)] else [])
                  ++ rest) name = XGBoost.dict_get rest name).
  { intros v rest. destruct (existsb _ names); cbn [app XGBoost.dict_get];
    [rewrite E3|]; reflexivity. }
  rewrite D3. clear D3.
  destruct (String.eqb "is_weekend" name) eqn:E4.
  { apply String.eqb_eq in E4. subst name. rewrite (existsb_key _ _ Hin). reflexivity. }
  destruct (existsb _ names); cbn [app XGBoost.dict_get]; [rewrite E4|]; reflexivity.
Qed.

Lemma set_item_middle (done rest : list Q) (x v : Q) :
  XGBoost.set_item (done ++ x :: rest) (List.length done) v = done ++ v :: rest.
Proof.
  induction done as [|h t IH]; simpl; [reflexivity | now rewrite IH].
Qed.

(** The loop over [enumerate(self.feature_names)], started after the
    slots [done] have been visited. *)
Lemma fill_loop (fd : list (string * Q)) (names : list string) (done : list Q) :
  fold_left
    (fun base ifn =>
       match XGBoost.dict_get fd (snd ifn) with
       | Some v => XGBoost.set_item base (fst ifn) v
       | None => base
       end)
    (combine (seq (List.length done) (List.length names)) names)
    (done ++ repeat 0 (List.length names))
  = done ++ map (fun name => match XGBoost.dict_get fd name with
                             | Some v => v
                             | None => 0
                             end) names.
Proof.
  revert done. induction names as [|name names IH]; intros done; simpl; [reflexivity|].
  assert (Hnext : forall x : Q,
             S (List.length done) = List.length (done ++ [x]))
    by (intros x; rewrite length_app; simpl; lia).
  destruct (XGBoost.dict_get fd name) as [v|].
  - rewrite set_item_middle, (Hnext v).
    change (done ++ v :: repeat 0 (List.length names))
      with (done ++ [v] ++ repeat 0 (List.length names)).
    rewrite app_assoc, IH, <- app_assoc. reflexivity.
  - rewrite (Hnext 0).
    change (done ++ 0 :: repeat 0 (List.length names))
      with (done ++ [0] ++ repeat 0 (List.length names)).
    rewrite app_assoc, IH, <- app_assoc. reflexivity.
Qed.

(** The vector [predict] builds holds, slot by slot, the calendar field
    of the future date for the four names it knows and zero elsewhere. *)
Lemma base_features_spec (names : list string) (future_date : Z) :
  XGBoost.base_features names future_date = map (slot future_date) names.
Proof.
  unfold XGBoost.base_features.
  pose proof (fill_loop (XGBoost.feature_dict names future_date) names []) as Hloop.
  cbn [List.length app] in Hloop. cbv zeta. rewrite Hloop.
  apply map_ext_in. intros name Hin. unfold slot.
  rewrite (feature_dict_lookup _ _ _ Hin). reflexivity.
Qed.

(** C10.  The forecasts of [predict] do not depend on the
    external_features argument nor on the fitted scaler; in every step
    the model is asked only about the vector that holds the calendar
    fields (month, day of week, quarter, weekend flag) of the synthetic
    future date in the slots of those names and zero in every other
    slot. *)
Theorem predict_ignores_external_features
    (self : XGBoost.service) (clock : nat -> Z) (forecast_steps : nat)
    (ext1 ext2 : option XGBoost.external) (sc : option XGBoost.scaler_state)
    (b : XGBoost.booster) (names : list string) (now : Z) (step : nat) :
  XGBoost.predict self clock forecast_steps ext1
  = XGBoost.predict self clock forecast_steps ext2
  /\ XGBoost.predict
       {| XGBoost.model := XGBoost.model self;
          XGBoost.scaler := sc;
          XGBoost.feature_names := XGBoost.feature_names self;
          XGBoost.feature_importance := XGBoost.feature_importance self |}
       clock forecast_steps ext1
     = XGBoost.predict self clock forecast_steps ext1
  /\ XGBoost.base_features names (now + Timedelta_days (Z.of_nat step + 1))%Z
     = map (slot (now + Timedelta_days (Z.of_nat step + 1))%Z) names
  /\ XGBoost.predict_step (XGBoost.Fitted b) names now step
     = XGBoost.predict_step
         (XGBoost.Fitted
            {| XGBoost.xm_predict := fun _ =>
                 XGBoost.xm_predict b
                   [map (slot (now + Timedelta_days (Z.of_nat step + 1))%Z) names];
               XGBoost.xm_feature_importances := XGBoost.xm_feature_importances b |})
         names now step.
Proof.
  split; [reflexivity|]. split; [reflexivity|]. split; [apply base_features_spec|].
  unfold XGBoost.predict_step. simpl. rewrite base_features_spec. reflexivity.
Qed.

(** On 2026-11-04 the sample service is asked about November and
    December dates: the vector is (month, 0) and the emitted forecasts
    are negative, with an upper bound below the forecast. *)
Example xgboost_forecast_not_clamped :
  exists pt rest imp,
    XGBoost.predict month_service (fun _ => sample_now) 30 None
    = Ok (XGBoost.ForecastSuccess (pt :: rest) 30 imp)
    /\ XGBoost.fp_forecast pt == -1
    /\ XGBoost.fp_lower_bound pt == 0
    /\ XGBoost.fp_upper_bound pt < XGBoost.fp_forecast pt.
Proof.
  do 3 eexists. split; [vm_compute; reflexivity|]. simpl.
  split; [reflexivity|]. split; reflexivity.
Qed.

(** X27.  The forecast of the decomposable backend clamps all three
    values: in every point of a successful forecast the point forecast
    and both bounds are non-negative. *)
Lemma prophet_forecast_nonneg
    (predict_future : nat -> bool -> result (list Prophet.prediction))
    (periods : nat) (include_history : bool) (pts : list Prophet.forecast_point) (h : nat) :
  Prophet.forecast predict_future periods include_history = Prophet.ForecastSuccess pts h ->
  Forall (fun pt => 0 <= Prophet.fp_forecast pt
                    /\ 0 <= Prophet.fp_lower_bound pt
                    /\ 0 <= Prophet.fp_upper_bound pt) pts.
Proof.
  unfold Prophet.forecast.
  destruct (predict_future periods include_history) as [fc|e]; simpl; [|discriminate].
  intros H. inversion H; subst; clear H.
  apply Forall_forall. intros pt Hin. apply in_map_iff in Hin.
  destruct Hin as ([i r] & <- & Hin). apply in_combine_r in Hin.
  apply in_map_iff in Hin. destruct Hin as (r0 & <- & _). simpl.
  repeat split; apply max0_nonneg.
Qed.


(** * Missing values and the three preparations *)

Lemma ffill_from_keeps (last : option Q) (l : list (option Q)) (i : nat) (v : Q) :
  nth_error l i = Some (Some v) -> nth_error (ffill_from last l) i = Some (Some v).
Proof.
  revert last i. induction l as [|[x|] l IH]; intros last [|i] H; simpl in *;
    try discriminate; try exact H; apply IH, H.
Qed.

Lemma bfill_keeps (l : list (option Q)) (i : nat) (v : Q) :
  nth_error l i = Some (Some v) -> nth_error (bfill l) i = Some (Some v).
Proof.
  revert i. induction l as [|[x|] l IH]; intros [|i] H; simpl in *;
    try discriminate; try exact H; apply IH, H.
Qed.

Lemma ffill_from_some (a : Q) (l : list (option Q)) :
  exists vs, ffill_from (Some a) l = map Some vs.
Proof.
  revert a. induction l as [|[x|] l IH]; intros a; simpl.
  - exists []. reflexivity.
  - destruct (IH x) as [vs ->]. exists (x :: vs). reflexivity.
  - destruct (IH a) as [vs ->]. exists (a :: vs). reflexivity.
Qed.

(** After the forward fill the missing entries, if any remain, are the
    leading ones. *)
Lemma ffill_shape (l : list (option Q)) :
  exists k vs,
    ffill l = repeat None k ++ map Some vs
    /\ ((exists v, In (Some v) l) -> vs <> []).
Proof.
  unfold ffill. induction l as [|[x|] l IH]; simpl.
  - exists 0%nat, []. split; [reflexivity | intros [v []]].
  - destruct (ffill_from_some x l) as [vs ->]. exists 0%nat, (x :: vs).
    split; [reflexivity | discriminate].
  - destruct IH as (k & vs & -> & Hvs). exists (S k), vs. split; [reflexivity|].
    intros [v [Hv | Hv]]; [discriminate | apply Hvs; eauto].
Qed.

Lemma bfill_present (vs : list Q) : bfill (map Some vs) = map Some vs.
Proof.
  induction vs as [|v vs IH]; simpl; [reflexivity | now rewrite IH].
Qed.

Lemma bfill_leading (k : nat) (v : Q) (vs : list Q) :
  bfill (repeat None k ++ map Some (v :: vs)) = map Some (repeat v k ++ v :: vs).
Proof.
  induction k as [|k IH]; simpl.
  - now rewrite bfill_present.
  - simpl in IH. rewrite IH. destruct k; reflexivity.
Qed.

Lemma fill_no_missing (l : list (option Q)) :
  (exists v, In (Some v) l) -> exists vs, bfill (ffill l) = map Some vs.
Proof.
  intros H. destruct (ffill_shape l) as (k & vs & -> & Hvs).
  destruct vs as [|v vs]; [elim (Hvs H); reflexivity|].
  rewrite bfill_leading. eauto.
Qed.

Lemma ffill_from_gap (last : option Q) (pre rest : list (option Q)) (a : Q) (k : nat) :
  ffill_from last (pre ++ Some a :: repeat None k ++ rest)
  = ffill_from last pre ++ Some a :: repeat (Some a) k ++ ffill_from (Some a) rest.
Proof.
  revert last. induction pre as [|[x|] pre IH]; intros last; simpl.
  - f_equal. induction k as [|k IHk]; simpl; [reflexivity | now rewrite IHk].
  - now rewrite IH.
  - now rewrite IH.
Qed.

(** The forward fill comes first: a run of missing entries that
    follows a value takes that value, whatever comes after the run. *)
Lemma fill_gap (pre rest : list (option Q)) (a : Q) (k j : nat) :
  (j <= k)%nat ->
  nth_error (bfill (ffill (pre ++ Some a :: repeat None k ++ rest))) (List.length pre + j)
  = Some (Some a).
Proof.
  intros Hj. apply bfill_keeps. unfold ffill. rewrite ffill_from_gap.
  rewrite nth_error_app2 by (rewrite ffill_from_length; lia).
  rewrite ffill_from_length.
  replace (List.length pre + j - List.length pre)%nat with j by lia.
  change (Some a :: repeat (Some a) k ++ ffill_from (Some a) rest)
    with (repeat (Some a) (S k) ++ ffill_from (Some a) rest).
  rewrite nth_error_app1 by (rewrite repeat_length; lia).
  apply nth_error_repeat. lia.
Qed.

Lemma arima_prepare_inv (data_points : list (option Q)) (dates : option (list Z))
    (ts : Arima.series) :
  Arima.prepare_data data_points dates = Ok ts ->
  Arima.s_values ts = bfill (ffill data_points)
  /\ (10 <= List.length data_points)%nat
  /\ Arima.s_index ts
     = (if truthy dates
        then match dates with
             | Some stamps => Arima.DatetimeIndex stamps
             | None => Arima.RangeIndex (List.length data_points)
             end
        else Arima.RangeIndex (List.length data_points)).
Proof.
  unfold Arima.prepare_data. intros H.
  destruct (truthy dates) eqn:Et.
  - destruct dates as [stamps|]; [|discriminate].
    destruct (Nat.eqb (List.length stamps) (List.length data_points)); simpl in H;
      [|discriminate].
    destruct (Nat.ltb _ 10) eqn:El; [discriminate|].
    inversion H; subst ts; clear H. simpl. split; [reflexivity|]. split; [|reflexivity].
    apply Nat.ltb_ge in El. rewrite fill_length in El. exact El.
  - simpl in H. destruct (Nat.ltb _ 10) eqn:El; [discriminate|].
    inversion H; subst ts; clear H. simpl. split; [reflexivity|]. split; [|reflexivity].
    apply Nat.ltb_ge in El. rewrite fill_length in El. exact El.
Qed.

(** X1.  A series the autoregressive preparation returns has the length
    of the input and keeps every value that was present at its row; a
    run of missing rows after a value takes that value (forward fill
    before backward fill); and if any value is present at all, no row of
    the prepared series is missing. *)
Theorem arima_prepare_fills
    (data_points : list (option Q)) (dates : option (list Z)) (ts : Arima.series)
    (Hprep : Arima.prepare_data data_points dates = Ok ts) :
  List.length (Arima.s_values ts) = List.length data_points
  /\ (forall i v, nth_error data_points i = Some (Some v) ->
                  nth_error (Arima.s_values ts) i = Some (Some v))
  /\ (forall pre a k rest j,
        data_points = pre ++ Some a :: repeat None k ++ rest -> (j <= k)%nat ->
        nth_error (Arima.s_values ts) (List.length pre + j) = Some (Some a))
  /\ ((exists v, In (Some v) data_points) ->
      exists vs, Arima.s_values ts = map Some vs).
Proof.
  destruct (arima_prepare_inv _ _ _ Hprep) as (Hv & _ & _). rewrite Hv.
  split; [apply fill_length|]. split; [|split].
  - intros i v H. apply bfill_keeps, ffill_from_keeps, H.
  - intros pre a k rest j -> Hj. apply fill_gap, Hj.
  - apply fill_no_missing.
Qed.

Lemma arima_prepare_fills_witness :
  exists ts,
    Arima.prepare_data gap_points None = Ok ts
    /\ Arima.s_values ts
       = map Some [10; 10; 10; 10; 13; 12; 14; 13; 15; 15]
    /\ List.length (Arima.s_values ts) = List.length gap_points.
Proof.
  eexists. split; [reflexivity|]. split; [reflexivity|].
  apply (arima_prepare_fills gap_points None _ eq_refl).
Defined.

(** X2.  The autoregressive preparation needs ten points: when it
    succeeds there are at least ten, and the dates, if any were given,
    are as many as the points.  Without dates it succeeds exactly when
    there are at least ten points.  Whatever goes wrong surfaces as an
    [Exception] whose message starts with "Data preparation failed: ",
    and with fewer than ten points and no dates the message names the
    minimum. *)
Theorem arima_prepare_requirements
    (data_points : list (option Q)) (dates : option (list Z)) :
  (forall ts,
      Arima.prepare_data data_points dates = Ok ts ->
      (10 <= List.length data_points)%nat
      /\ (truthy dates = true ->
          exists stamps, dates = Some stamps
                         /\ List.length stamps = List.length data_points))
  /\ (truthy dates = false ->
      ((exists ts, Arima.prepare_data data_points dates = Ok ts)
       <-> (10 <= List.length data_points)%nat))
  /\ (forall e, Arima.prepare_data data_points dates = Raise e ->
        exn_type e = "Exception"
        /\ exists inner, exn_msg e = ("Data preparation failed: " ++ inner)%string)
  /\ (truthy dates = false -> (List.length data_points < 10)%nat ->
      Arima.prepare_data data_points dates
      = Raise (Exn "Exception"
                   "Data preparation failed: Insufficient data points for ARIMA (minimum 10 required)")).
Proof.
  unfold Arima.prepare_data. split; [|split; [|split]].
  - intros ts H. destruct (truthy dates) eqn:Et.
    + destruct dates as [stamps|]; [|discriminate].
      destruct (Nat.eqb (List.length stamps) (List.length data_points)) eqn:Eq;
        simpl in H; [|discriminate].
      destruct (Nat.ltb _ 10) eqn:El; [discriminate|].
      apply Nat.ltb_ge in El. rewrite fill_length in El. split; [exact El|].
      intros _. exists stamps. split; [reflexivity | apply Nat.eqb_eq, Eq].
    + simpl in H. destruct (Nat.ltb _ 10) eqn:El; [discriminate|].
      apply Nat.ltb_ge in El. rewrite fill_length in El. split; [exact El|].
      discriminate.
  - intros Et. rewrite Et. simpl. split.
    + intros [ts H]. destruct (Nat.ltb _ 10) eqn:El; [discriminate|].
      apply Nat.ltb_ge in El. rewrite fill_length in El. exact El.
    + intros Hlen.
      rewrite (proj2 (Nat.ltb_ge _ _)) by (rewrite fill_length; exact Hlen). eauto.
  - intros e H.
    match type of H with
    | match ?b with _ => _ end = _ => destruct b as [ts|e']; [discriminate|]
    end.
    inversion H. simpl. eauto.
  - intros Et Hlt. rewrite Et. simpl.
    rewrite (proj2 (Nat.ltb_lt _ _)) by (rewrite fill_length; exact Hlt). reflexivity.
Qed.

Lemma prophet_prepare_inv (now : Z) (data_points : list (option Q))
    (dates : option (list Z)) (df : Prophet.frame) :
  Prophet.prepare_data now data_points dates = Ok df ->
  Prophet.y df = map (option_map max0) (bfill (ffill data_points))
  /\ Prophet.ds df = input_stamps now (List.length data_points) dates
  /\ (10 <= List.length data_points)%nat
  /\ List.length (Prophet.ds df) = List.length data_points.
Proof.
  intros H. pose proof (prophet_prepare_index _ _ _ _ H) as Hds.
  unfold Prophet.prepare_data, input_stamps in *.
  destruct (truthy dates) eqn:Et.
  - destruct dates as [stamps|]; [|discriminate].
    destruct (Nat.eqb (List.length stamps) (List.length data_points)) eqn:Eq;
      simpl in H; [|discriminate].
    destruct (Nat.ltb _ 10) eqn:El; [discriminate|].
    apply Nat.ltb_ge in El. rewrite fill_length in El.
    inversion H; subst df; clear H. simpl.
    repeat split; try assumption. apply Nat.eqb_eq, Eq.
  - simpl in H. destruct (Nat.ltb _ 10) eqn:El; [discriminate|].
    apply Nat.ltb_ge in El. rewrite fill_length in El.
    inversion H; subst df; clear H. simpl.
    repeat split; try assumption. apply synthetic_dates_length.
Qed.

(** X3.  A frame the decomposable preparation returns has one stamp per
    value and as many rows as the input (at least ten); row by row its
    value is the filled input value clamped at zero, so every value that
    is present is non-negative, and none is missing when the input holds
    any value. *)
Theorem prophet_prepare_frame
    (now : Z) (data_points : list (option Q)) (dates : option (list Z)) (df : Prophet.frame)
    (Hprep : Prophet.prepare_data now data_points dates = Ok df) :
  List.length (Prophet.ds df) = List.length data_points
  /\ List.length (Prophet.y df) = List.length data_points
  /\ (10 <= List.length data_points)%nat
  /\ (forall i v, nth_error (bfill (ffill data_points)) i = Some (Some v) ->
                  nth_error (Prophet.y df) i = Some (Some (max0 v)))
  /\ (forall v, In (Some v) (Prophet.y df) -> 0 <= v)
  /\ ((exists v, In (Some v) data_points) -> exists vs, Prophet.y df = map Some vs).
Proof.
  destruct (prophet_prepare_inv _ _ _ _ Hprep) as (Hy & _ & Hlen & Hds).
  split; [exact Hds|]. split; [|split; [exact Hlen|split; [|split]]].
  - rewrite Hy, length_map. apply fill_length.
  - intros i v H. rewrite Hy, nth_error_map, H. reflexivity.
  - intros v Hin. rewrite Hy in Hin. apply in_map_iff in Hin.
    destruct Hin as ([w|] & Hw & _); simpl in Hw; [|discriminate].
    inversion Hw. apply max0_nonneg.
  - intros Hsome. destruct (fill_no_missing _ Hsome) as [vs Hvs].
    exists (map max0 vs). rewrite Hy, Hvs, !map_map. reflexivity.
Qed.

Lemma prophet_prepare_frame_witness :
  exists df,
    Prophet.prepare_data sample_now
      (Some (-4) :: gap_points) None = Ok df
    /\ Prophet.y df = map Some [0; 0; 10; 10; 10; 13; 12; 14; 13; 15; 15]
    /\ List.length (Prophet.ds df) = 11%nat.
Proof.
  eexists. split; [reflexivity|]. split; [reflexivity|].
  apply (prophet_prepare_frame sample_now (Some (-4) :: gap_points) None _ eq_refl).
Defined.


(** * Fitting, forecasting and the entry point of the autoregressive backend *)

Lemma dict_get_set_same (d : Arima.instance) (k : string) (v : Arima.pyobj) :
  Arima.dict_get (Arima.dict_set d k v) k = Some v.
Proof.
  induction d as [|[k0 w] d IH]; simpl.
  - now rewrite String.eqb_refl.
  - destruct (String.eqb k0 k) eqn:E; simpl; rewrite E; [reflexivity | exact IH].
Qed.

Lemma dict_get_set_other (d : Arima.instance) (k k' : string) (v : Arima.pyobj) :
  k' <> k -> Arima.dict_get (Arima.dict_set d k v) k' = Arima.dict_get d k'.
Proof.
  intros Hne. induction d as [|[k0 w] d IH]; simpl.
  - destruct (String.eqb k k') eqn:E; [|reflexivity].
    apply String.eqb_eq in E. congruence.
  - destruct (String.eqb k0 k) eqn:E; simpl.
    + apply String.eqb_eq in E. subst k0.
      destruct (String.eqb k k') eqn:E'; [|reflexivity].
      apply String.eqb_eq in E'. congruence.
    + destruct (String.eqb k0 k'); [reflexivity | exact IH].
Qed.

(** X4.  Whatever the attributes of the instance were, a successful
    [fit_arima_model] stores the fitted model (and touches no other
    attribute), after which [forecast] returns an envelope and does not
    raise; a failed fit leaves the instance as it was; and on a fresh
    instance [forecast] raises "Model must be fitted before
    forecasting". *)
Theorem arima_fit_then_forecast
    (ARIMA_fit : Arima.series -> Arima.order -> option Arima.seasonal_order
                 -> result Arima.fitted)
    (PMDARIMA_AVAILABLE : bool)
    (auto_arima : Arima.series -> bool -> nat -> result Arima.auto_model)
    (self : Arima.instance) (ts : Arima.series)
    (ord : option Arima.order) (sord : option Arima.seasonal_order)
    (steps : nat) (cl : Q) :
  match Arima.fit_arima_model ARIMA_fit PMDARIMA_AVAILABLE auto_arima self ts ord sord with
  | (self', Arima.FitSuccess o so aic bic llf mape) =>
      (exists fm,
          ARIMA_fit ts o so = Ok fm
          /\ Arima.fitted_model_of self' = Some fm
          /\ aic = Arima.f_aic fm
          /\ mape = Arima.calculate_mape (map to_float (Arima.s_values ts))
                                          (Arima.f_fittedvalues fm))
      /\ (forall k, k <> "fitted_model" -> Arima.dict_get self' k = Arima.dict_get self k)
      /\ (exists env, Arima.forecast (Arima.fitted_model_of self') steps cl = Ok env)
  | (self', Arima.FitFailure _) => self' = self
  end
  /\ Arima.forecast (Arima.fitted_model_of Arima.init) steps cl
     = Raise (Exn "Exception" "Model must be fitted before forecasting").
Proof.
  split; [|reflexivity].
  unfold Arima.fit_arima_model.
  destruct ord as [o|].
  - destruct (ARIMA_fit ts o sord) as [fm|e] eqn:Hfit; [|reflexivity].
    unfold Arima.fitted_model_of. rewrite dict_get_set_same.
    split; [exists fm; auto|]. split.
    + intros k Hk. apply dict_get_set_other, Hk.
    + unfold Arima.forecast.
      destruct (Arima.f_get_forecast fm steps) as [fr|e]; simpl; [|eauto].
      destruct (Arima.conf_int fr (1 - cl)) as [ci|e]; simpl; eauto.
  - set (sel := Arima.auto_arima_selection ARIMA_fit PMDARIMA_AVAILABLE auto_arima ts false 1).
    destruct (ARIMA_fit ts (Arima.sel_order sel) (Arima.sel_seasonal_order sel))
      as [fm|e] eqn:Hfit; [|reflexivity].
    unfold Arima.fitted_model_of. rewrite dict_get_set_same.
    split; [exists fm; auto|]. split.
    + intros k Hk. apply dict_get_set_other, Hk.
    + unfold Arima.forecast.
      destruct (Arima.f_get_forecast fm steps) as [fr|e]; simpl; [|eauto].
      destruct (Arima.conf_int fr (1 - cl)) as [ci|e]; simpl; eauto.
Qed.

(** X5.  A request without the seasonal flag whose points (at least
    ten) pass the preparation never ends in the top-level error
    envelope: it reports the fit failure when the library cannot fit the
    selected order, and otherwise succeeds with the number of points,
    the stationarity test, no seasonal analysis, the fit diagnostics
    (the selected order, the criteria of the fitted model and the MAPE
    of its fitted values) and the forecast envelope for the requested
    horizon (30 steps and 0.95 by default). *)
Theorem arima_main_without_seasonal
    (ARIMA_fit : Arima.series -> Arima.order -> option Arima.seasonal_order
                 -> result Arima.fitted)
    (PMDARIMA_AVAILABLE : bool)
    (auto_arima : Arima.series -> bool -> nat -> result Arima.auto_model)
    (adfuller : list (option Q) -> result (Q * Q))
    (seasonal_decompose : Arima.series -> string -> nat -> result Arima.decomposition)
    (input_data : Arima.request) (data_points : list (option Q)) (ts : Arima.series)
    (Hdata : Arima.r_data_points input_data = Some data_points)
    (Hlen : (10 <= List.length data_points)%nat)
    (Hseasonal : Arima.get_default (Arima.r_seasonal input_data) false = false)
    (Hprep : Arima.prepare_data data_points (Arima.r_dates input_data) = Ok ts) :
  match ARIMA_fit ts
          (Arima.sel_order
             (Arima.auto_arima_selection ARIMA_fit PMDARIMA_AVAILABLE auto_arima ts false 1))
          (Arima.sel_seasonal_order
             (Arima.auto_arima_selection ARIMA_fit PMDARIMA_AVAILABLE auto_arima ts false 1))
  with
  | Raise e =>
      Arima.main ARIMA_fit PMDARIMA_AVAILABLE auto_arima adfuller seasonal_decompose input_data
      = Arima.OutFitFailed (exn_msg e)
  | Ok fm =>
      exists env,
        Arima.forecast (Some fm)
          (Arima.get_default (Arima.r_forecast_steps input_data) 30%nat)
          (Arima.get_default (Arima.r_confidence_level input_data) (95 # 100)) = Ok env
        /\ Arima.main ARIMA_fit PMDARIMA_AVAILABLE auto_arima adfuller seasonal_decompose
             input_data
           = Arima.OutSuccess (List.length data_points)
               (Arima.check_stationarity adfuller ts) None
               (Arima.FitSuccess
                  (Arima.sel_order
                     (Arima.auto_arima_selection ARIMA_fit PMDARIMA_AVAILABLE auto_arima
                        ts false 1))
                  (Arima.sel_seasonal_order
                     (Arima.auto_arima_selection ARIMA_fit PMDARIMA_AVAILABLE auto_arima
                        ts false 1))
                  (Arima.f_aic fm) (Arima.f_bic fm) (Arima.f_llf fm)
                  (Arima.calculate_mape (map to_float (Arima.s_values ts))
                                        (Arima.f_fittedvalues fm)))
               env
  end.
Proof.
  unfold Arima.main, Arima.main_body. rewrite Hseasonal, Hdata.
  change (Arima.get_default (Some data_points) []) with data_points.
  rewrite (proj2 (Nat.ltb_ge _ _) Hlen).
  destruct init_shadows_seasonal_decomposition as (_ & _ & Hp & _).
  rewrite Hp. simpl bind. rewrite Hprep. simpl bind. unfold Arima.fit_arima_model.
  set (sel := Arima.auto_arima_selection ARIMA_fit PMDARIMA_AVAILABLE auto_arima ts false 1).
  destruct (ARIMA_fit ts (Arima.sel_order sel) (Arima.sel_seasonal_order sel)) as [fm|e].
  - change (Arima.callable (Arima.dict_set Arima.init "fitted_model" (Arima.PyFitted fm))
                           "forecast") with (Ok tt : result unit).
    simpl bind.
    change (Arima.fitted_model_of
              (Arima.dict_set Arima.init "fitted_model" (Arima.PyFitted fm))) with (Some fm).
    unfold Arima.forecast.
    destruct (Arima.f_get_forecast fm _) as [fr|e]; simpl; [|eauto].
    destruct (Arima.conf_int fr _) as [ci|e]; simpl; eauto.
  - reflexivity.
Qed.

Lemma arima_main_without_seasonal_witness :
  exists env mape,
    Arima.forecast (Some steady_fitted) 30 (95 # 100) = Ok env
    /\ Arima.main steady_fit false failing_auto_arima sample_adfuller sample_seasonal_decompose
         plain_request
       = Arima.OutSuccess 10
           (Arima.check_stationarity sample_adfuller sample_series) None
           (Arima.FitSuccess (0, 0, 0)%nat None (Fin 50) (Fin 52) (Fin (-23)) mape) env.
Proof.
  destruct (arima_main_without_seasonal steady_fit false failing_auto_arima sample_adfuller
              sample_seasonal_decompose plain_request sample_points sample_series
              eq_refl ltac:(simpl; lia) eq_refl eq_refl) as (env & Hf & Hm).
  exists env. eexists. split; [exact Hf | exact Hm].
Defined.

Lemma arima_forecast_point_nonneg_witness :
  exists env,
    Arima.forecast (Some untyped_interval_fitted) 3 (95 # 100) = Ok env
    /\ Forall (fun pt => not_negative (Arima.fp_forecast pt)) (Arima.fc_forecasts env)
    /\ map Arima.fp_forecast (Arima.fc_forecasts env) = [Fin 10; Fin 0; NaN].
Proof.
  eexists. split; [reflexivity|]. split; [|reflexivity].
  exact (proj1 (arima_forecast_point_nonneg untyped_interval_fitted 3 (95 # 100) _ eq_refl)).
Defined.

Lemma xle_true (a b : Q) : xle (Fin a) (Fin b) = true <-> a <= b.
Proof. simpl. apply Qle_bool_iff. Qed.

(** X7.  When the interval table is neither a DataFrame nor an ndarray,
    the autoregressive forecast reports success with one point per step,
    and every point whose point forecast is not NaN is in order and not
    negative: 0 <= lower bound <= point forecast <= upper bound (all
    three are zero on a degraded point).  Where the point forecast is
    NaN, so are both bounds. *)
Theorem arima_forecast_default_bounds
    (fm : Arima.fitted) (steps : nat) (cl : Q) (fr : Arima.forecast_result)
    (env : Arima.forecast_envelope)
    (Hfc : Arima.f_get_forecast fm steps = Ok fr)
    (Hci : Arima.conf_int fr (1 - cl) = Ok Arima.CI_Other)
    (Henv : Arima.forecast (Some fm) steps cl = Ok env) :
  Arima.fc_success env = true
  /\ List.length (Arima.fc_forecasts env) = steps
  /\ Forall (fun pt =>
               (xisnan (Arima.fp_forecast pt) = false ->
                xle (Fin 0) (Arima.fp_lower_bound pt) = true
                /\ xle (Arima.fp_lower_bound pt) (Arima.fp_forecast pt) = true
                /\ xle (Arima.fp_forecast pt) (Arima.fp_upper_bound pt) = true)
               /\ (xisnan (Arima.fp_forecast pt) = true ->
                   Arima.fp_lower_bound pt = NaN /\ Arima.fp_upper_bound pt = NaN))
            (Arima.fc_forecasts env).
Proof.
  unfold Arima.forecast in Henv. rewrite Hfc in Henv. simpl in Henv.
  rewrite Hci in Henv. simpl in Henv. inversion Henv; subst env; clear Henv. simpl.
  split; [reflexivity|]. split; [rewrite length_map, length_seq; reflexivity|].
  apply Forall_forall. intros pt Hin. apply in_map_iff in Hin.
  destruct Hin as (i & <- & _). unfold Arima.forecast_step.
  destruct (Arima.extract_point (Arima.np_maximum0 (Arima.predicted_mean fr)) i)
    as [v|e] eqn:Hv; simpl.
  - destruct (extract_clamped _ _ _ Hv) as (raw & _ & ->).
    destruct raw as [q| | |]; simpl.
    + split; [intros _ | discriminate].
      pose proof (max0_nonneg q) as Hq. rewrite !Qle_bool_iff. repeat split; lra.
    + split; [intros _; repeat split | discriminate].
    + split; [intros _ | discriminate].
      rewrite !Qle_bool_iff. repeat split; lra.
    + split; [discriminate | intros _; split; reflexivity].
  - split; [intros _; repeat split | discriminate].
Qed.

Lemma arima_forecast_default_bounds_witness :
  exists env,
    Arima.forecast (Some untyped_interval_fitted) 3 (95 # 100) = Ok env
    /\ Arima.fc_success env = true
    /\ List.length (Arima.fc_forecasts env) = 3%nat.
Proof.
  eexists. split; [reflexivity|].
  refine (let H := arima_forecast_default_bounds untyped_interval_fitted 3 (95 # 100) _ _
                     eq_refl eq_refl eq_refl in _).
  split; [exact (proj1 H) | exact (proj1 (proj2 H))].
Defined.


(** * Forecasts and diagnostics of the decomposable and the tree backend *)

Lemma nth_error_enumerate {A : Type} (l : list A) (a i : nat) :
  nth_error (combine (seq a (List.length l)) l) i
  = option_map (fun x => ((a + i)%nat, x)) (nth_error l i).
Proof.
  revert a i. induction l as [|x l IH]; intros a [|i]; simpl; try reflexivity.
  - now rewrite Nat.add_0_r.
  - rewrite IH. destruct (nth_error l i); simpl; [|reflexivity].
    now rewrite Nat.add_succ_r.
Qed.

(** X8.  A forecast of the decomposable backend without history has
    one point for each of the last [periods] rows the library predicts,
    numbered from 1; each value is the library's value clamped at zero,
    so all three are non-negative, and the order the library gives to
    lower bound, point and upper bound is kept. *)
Theorem prophet_forecast_points
    (predict_future : nat -> bool -> result (list Prophet.prediction))
    (periods : nat) (fc : list Prophet.prediction)
    (Hfc : predict_future periods false = Ok fc) :
  exists pts,
    Prophet.forecast predict_future periods false = Prophet.ForecastSuccess pts periods
    /\ List.length pts = Nat.min periods (List.length fc)
    /\ forall i pt,
        nth_error pts i = Some pt ->
        exists r,
          nth_error fc (List.length fc - periods + i) = Some r
          /\ Prophet.fp_step pt = Some (i + 1)%nat
          /\ Prophet.fp_date pt = Prophet.p_ds r
          /\ Prophet.fp_forecast pt = max0 (Prophet.yhat r)
          /\ Prophet.fp_lower_bound pt = max0 (Prophet.yhat_lower r)
          /\ Prophet.fp_upper_bound pt = max0 (Prophet.yhat_upper r)
          /\ 0 <= Prophet.fp_lower_bound pt
          /\ 0 <= Prophet.fp_forecast pt
          /\ 0 <= Prophet.fp_upper_bound pt
          /\ (Prophet.yhat_lower r <= Prophet.yhat r ->
              Prophet.fp_lower_bound pt <= Prophet.fp_forecast pt)
          /\ (Prophet.yhat r <= Prophet.yhat_upper r ->
              Prophet.fp_forecast pt <= Prophet.fp_upper_bound pt).
Proof.
  unfold Prophet.forecast. rewrite Hfc. simpl.
  eexists. split; [reflexivity|]. split.
  - rewrite length_map, length_combine, length_seq, length_map.
    unfold Prophet.tail. rewrite length_skipn. lia.
  - intros i pt Hpt. rewrite nth_error_map, nth_error_enumerate, nth_error_map in Hpt.
    unfold Prophet.tail in Hpt. rewrite nth_error_skipn in Hpt.
    destruct (nth_error fc (List.length fc - periods + i)) as [r|] eqn:Hr;
      simpl in Hpt; [|discriminate].
    inversion Hpt; subst pt; clear Hpt. exists r. simpl.
    repeat split; try apply max0_nonneg; apply max0_mono.
Qed.

Lemma prophet_forecast_points_witness :
  exists pts,
    Prophet.forecast straddling_future 4 false = Prophet.ForecastSuccess pts 4
    /\ List.length pts = 4%nat
    /\ map Prophet.fp_forecast pts = [0; 0; 1; 2]
    /\ map Prophet.fp_upper_bound pts = [1; 2; 3; 4].
Proof.
  destruct (prophet_forecast_points straddling_future 4 _ eq_refl) as (pts & H & Hlen & _).
  exists pts. split; [exact H|]. split; [exact Hlen|].
  vm_compute in H. inversion H. split; reflexivity.
Defined.

Lemma prophet_forecast_nonneg_witness :
  Forall (fun pt => 0 <= Prophet.fp_forecast pt
                    /\ 0 <= Prophet.fp_lower_bound pt
                    /\ 0 <= Prophet.fp_upper_bound pt)
         (map (fun k => {| Prophet.fp_step := None;
                           Prophet.fp_date := (sample_now + Timedelta_days (Z.of_nat k))%Z;
                           Prophet.fp_forecast := max0 (Qofnat k - 3);
                           Prophet.fp_lower_bound := max0 (Qofnat k - 5);
                           Prophet.fp_upper_bound := max0 (Qofnat k - 1) |})
              (seq 0 3)).
Proof.
  apply (prophet_forecast_nonneg straddling_future 1 true _ 1%nat). reflexivity.
Defined.

Lemma xsum_fin (qs : list Q) (acc : Q) :
  fold_left xadd (map Fin qs) (Fin acc) = Fin (fold_left Qplus qs acc).
Proof.
  revert acc. induction qs as [|q qs IH]; intros acc; simpl; [reflexivity | apply IH].
Qed.

Lemma np_mean_fin (qs : list Q) :
  qs <> [] -> np_mean (map Fin qs) = Fin (XGBoost.Qsum qs / Qofnat (List.length qs)).
Proof.
  intros Hne. destruct qs as [|q qs]; [congruence|].
  transitivity (xdiv (fold_left xadd (map Fin (q :: qs)) (Fin 0))
                    (Fin (Qofnat (List.length (map Fin (q :: qs)))))); [reflexivity|].
  rewrite xsum_fin, length_map.
  change (List.length (q :: qs)) with (S (List.length qs)).
  unfold xdiv. rewrite Qofnat_succ_nonzero. reflexivity.
Qed.

Lemma series_mean_fin (qs : list Q) :
  qs <> [] -> series_mean (map Fin qs) = Fin (XGBoost.Qsum qs / Qofnat (List.length qs)).
Proof.
  intros Hne. unfold series_mean.
  assert (Hid : filter (fun a => negb (xisnan a)) (map Fin qs) = map Fin qs)
    by (clear Hne; induction qs as [|q qs IH]; simpl; [reflexivity | now rewrite IH]).
  rewrite Hid. apply np_mean_fin, Hne.
Qed.

Lemma mean_nonneg (qs : list Q) :
  Forall (fun q => 0 <= q) qs -> 0 <= XGBoost.Qsum qs / Qofnat (List.length qs).
Proof.
  intros H. destruct qs as [|q qs].
  - discriminate.
  - apply Qle_shift_div_l; [apply Qofnat_pos; simpl; lia|].
    rewrite Qmult_0_l. apply Qsum_nonneg; [exact H | apply Qle_refl].
Qed.

(** The percentage errors over rows whose actual value is not zero, as
    numbers. *)
Lemma ratios_fin (rows : list (Q * Q)) :
  Forall (fun ap => ~ fst ap == 0) rows ->
  map (fun ap : xnum * xnum => xabs (xdiv (xsub (fst ap) (snd ap)) (fst ap)))
      (map (fun ap => (Fin (fst ap), Fin (snd ap))) rows)
  = map Fin (map (fun ap => Qabs ((fst ap + - snd ap) / fst ap)) rows).
Proof.
  induction 1 as [|[a p] rows Ha _ IH]; simpl; [reflexivity|].
  simpl in Ha. destruct (Qeq_bool a 0) eqn:E.
  - apply Qeq_bool_iff in E. contradiction.
  - now rewrite IH.
Qed.

Lemma combine_map_fin (a p : list Q) :
  combine (map Fin a) (map Fin p) = map (fun ap => (Fin (fst ap), Fin (snd ap))) (combine a p).
Proof.
  revert p. induction a as [|x a IH]; intros [|y p]; simpl; try reflexivity.
  now rewrite IH.
Qed.

(** ** Floats that are not negative *)

Lemma xabs_not_negative (a : xnum) : not_negative (xabs a).
Proof.
  destruct a as [q| | |]; simpl; try exact I. apply Qabs_nonneg.
Qed.

Lemma xadd_not_negative (a b : xnum) :
  not_negative a -> not_negative b -> not_negative (xadd a b).
Proof.
  destruct a as [x| | |], b as [y| | |]; simpl; try tauto. intros; lra.
Qed.

Lemma xsum_not_negative (l : list xnum) :
  Forall not_negative l ->
  forall acc, not_negative acc -> not_negative (fold_left xadd l acc).
Proof.
  induction 1 as [|a l Ha _ IH]; intros acc Hacc; simpl; [exact Hacc|].
  apply IH, xadd_not_negative; assumption.
Qed.

Lemma Qofnat_succ_not_neg (n : nat) : Qsign_neg (Qofnat (S n)) = false.
Proof.
  unfold Qsign_neg. apply Qlt_bool_false, Qlt_le_weak, Qofnat_pos. lia.
Qed.

Lemma np_mean_not_negative (l : list xnum) :
  Forall not_negative l -> not_negative (np_mean l).
Proof.
  intros H. destruct l as [|a l]; [exact I|].
  unfold np_mean, xsum.
  pose proof (xsum_not_negative _ H (Fin 0) (Qle_refl 0)) as Hs.
  change (List.length (a :: l)) with (S (List.length l)).
  destruct (fold_left xadd (a :: l) (Fin 0)) as [s| | |]; unfold xdiv.
  - rewrite Qofnat_succ_nonzero. cbn [not_negative] in *.
    apply Qle_shift_div_l; [apply Qofnat_pos; lia | lra].
  - rewrite Qofnat_succ_not_neg. exact I.
  - contradiction.
  - exact I.
Qed.

Lemma series_mean_not_negative (l : list xnum) :
  Forall not_negative l -> not_negative (series_mean l).
Proof.
  intros H. apply np_mean_not_negative.
  rewrite Forall_forall in *. intros a Ha. apply filter_In in Ha. apply H, Ha.
Qed.

Lemma percent_not_negative (a : xnum) : not_negative a -> not_negative (xmul a (Fin 100)).
Proof.
  destruct a as [q| | |]; simpl; try tauto. intros; lra.
Qed.

Lemma ratios_not_negative (rows : list (xnum * xnum)) :
  Forall not_negative
         (map (fun ap => xabs (xdiv (xsub (fst ap) (snd ap)) (fst ap))) rows).
Proof.
  apply Forall_forall. intros r Hr. apply in_map_iff in Hr.
  destruct Hr as (ap & <- & _). apply xabs_not_negative.
Qed.

Lemma errors_not_negative (rows : list (xnum * xnum)) :
  Forall not_negative (map (fun ap => xabs (xsub (fst ap) (snd ap))) rows).
Proof.
  apply Forall_forall. intros r Hr. apply in_map_iff in Hr.
  destruct Hr as (ap & <- & _). apply xabs_not_negative.
Qed.

Lemma arima_mape_not_negative (actual predicted : list xnum) :
  not_negative (Arima.calculate_mape actual predicted).
Proof.
  unfold Arima.calculate_mape.
  destruct (Nat.eqb _ 0); [simpl; lra|].
  destruct (Arima.mask_select _ actual) as [a|e]; [|simpl; lra].
  destruct (Arima.mask_select _ predicted) as [p|e]; [|simpl; lra].
  apply percent_not_negative, np_mean_not_negative, ratios_not_negative.
Qed.

Lemma xgboost_mape_not_negative (actual predicted : list xnum) (r : xnum) :
  XGBoost.calculate_mape actual predicted = Ok r -> not_negative r.
Proof.
  unfold XGBoost.calculate_mape.
  destruct (Nat.eqb _ 0); [intros H; injection H as <-; simpl; lra|].
  destruct (Arima.mask_select _ predicted) as [p|e]; simpl; [|discriminate].
  intros H. injection H as <-.
  apply percent_not_negative, series_mean_not_negative, ratios_not_negative.
Qed.

(** In the exact arithmetic of the model: with fewer than thirty rows,
    no missing and no zero value, the in-sample figures are numbers, the
    MAPE being 100 times the mean of |y - yhat| / |y|. *)
Lemma prophet_in_sample_exact
    (predict_in_sample : Prophet.frame -> result (list Prophet.prediction))
    (cross_validation_performance : Prophet.frame -> result (Q * Q * Q * nat))
    (df : Prophet.frame) (vs : list Q) (fc : list Prophet.prediction)
    (Hshort : (List.length (Prophet.y df) < 30)%nat)
    (Hy : Prophet.y df = map Some vs)
    (Hnonzero : Forall (fun v => ~ v == 0) vs)
    (Hpred : predict_in_sample df = Ok fc)
    (Hrows : combine vs fc <> []) :
  exists mape mae,
    Prophet.generate_model_diagnostics predict_in_sample cross_validation_performance df
    = Prophet.DiagInSample (Fin mape) (Fin mae)
    /\ 0 <= mape /\ 0 <= mae
    /\ mape
       = XGBoost.Qsum (map (fun ap => Qabs ((fst ap + - snd ap) / fst ap))
                           (combine vs (map Prophet.yhat fc)))
         / Qofnat (List.length (combine vs (map Prophet.yhat fc))) * 100.
Proof.
  unfold Prophet.generate_model_diagnostics.
  rewrite (proj2 (Nat.leb_gt _ _) Hshort), Hpred. simpl bind.
  unfold Prophet.in_sample_mape, Prophet.in_sample_mae.
  assert (Hact : map to_float (Prophet.y df) = map Fin vs)
    by (rewrite Hy, map_map; reflexivity).
  assert (Hprd : map (fun r => Fin (Prophet.yhat r)) fc = map Fin (map Prophet.yhat fc))
    by (rewrite map_map; reflexivity).
  rewrite Hact, Hprd, combine_map_fin.
  set (rows := combine vs (map Prophet.yhat fc)).
  assert (Hne : rows <> []).
  { unfold rows. intros E. apply Hrows. apply (f_equal (@List.length _)) in E.
    rewrite length_combine, length_map in E.
    apply length_zero_iff_nil. rewrite length_combine. exact E. }
  assert (Hnz : Forall (fun ap => ~ fst ap == 0) rows).
  { apply Forall_forall. intros [a p] Hin. apply in_combine_l in Hin.
    rewrite Forall_forall in Hnonzero. apply (Hnonzero a Hin). }
  rewrite (ratios_fin rows Hnz).
  assert (Hmae : map (fun ap : xnum * xnum => xabs (xsub (fst ap) (snd ap)))
                     (map (fun ap => (Fin (fst ap), Fin (snd ap))) rows)
                 = map Fin (map (fun ap => Qabs (fst ap + - snd ap)) rows))
    by (clear; induction rows as [|[a p] rows IH]; simpl; [reflexivity | now rewrite IH]).
  rewrite Hmae.
  rewrite !series_mean_fin
    by (intros E; apply Hne; apply (f_equal (@List.length _)) in E;
        rewrite length_map in E; apply length_zero_iff_nil; exact E).
  rewrite !length_map. simpl xmul.
  do 2 eexists. split; [reflexivity|]. split; [|split; [|reflexivity]].
  - apply Qmult_le_0_compat; [|discriminate].
    rewrite <- (length_map (fun ap => Qabs ((fst ap + - snd ap) / fst ap)) rows).
    apply mean_nonneg, Forall_forall. intros q Hq. apply in_map_iff in Hq.
    destruct Hq as (ap & <- & _). apply Qabs_nonneg.
  - rewrite <- (length_map (fun ap => Qabs (fst ap + - snd ap)) rows).
    apply mean_nonneg, Forall_forall. intros q Hq. apply in_map_iff in Hq.
    destruct Hq as (ap & <- & _). apply Qabs_nonneg.
Qed.

(** X9.  With fewer than thirty rows the diagnostics of the
    decomposable backend are the in-sample ones: the cross-validation is
    not consulted; when the in-sample prediction raises, the result is
    the error dict with that message; otherwise it holds a MAPE and an
    MAE neither of which is negative (each is a number at least 0, +inf
    or NaN), and neither is NaN when the frame has no missing and no zero
    value and the prediction has a row. *)
Theorem prophet_in_sample_diagnostics
    (predict_in_sample : Prophet.frame -> result (list Prophet.prediction))
    (cv1 cv2 : Prophet.frame -> result (Q * Q * Q * nat))
    (df : Prophet.frame)
    (Hshort : (List.length (Prophet.y df) < 30)%nat) :
  Prophet.generate_model_diagnostics predict_in_sample cv1 df
  = Prophet.generate_model_diagnostics predict_in_sample cv2 df
  /\ (forall e,
        predict_in_sample df = Raise e ->
        Prophet.generate_model_diagnostics predict_in_sample cv1 df
        = Prophet.DiagError (exn_msg e))
  /\ (forall fc,
        predict_in_sample df = Ok fc ->
        exists mape mae,
          Prophet.generate_model_diagnostics predict_in_sample cv1 df
          = Prophet.DiagInSample mape mae
          /\ not_negative mape
          /\ not_negative mae
          /\ (forall vs,
                Prophet.y df = map Some vs -> Forall (fun v => ~ v == 0) vs ->
                combine vs fc <> [] ->
                xisnan mape = false /\ xisnan mae = false)).
Proof.
  split; [|split].
  - unfold Prophet.generate_model_diagnostics.
    rewrite (proj2 (Nat.leb_gt _ _) Hshort). reflexivity.
  - intros e He. unfold Prophet.generate_model_diagnostics.
    rewrite (proj2 (Nat.leb_gt _ _) Hshort), He. reflexivity.
  - intros fc Hfc.
    assert (Hd : Prophet.generate_model_diagnostics predict_in_sample cv1 df
                 = Prophet.DiagInSample
                     (Prophet.in_sample_mape (map to_float (Prophet.y df))
                        (map (fun r => Fin (Prophet.yhat r)) fc))
                     (Prophet.in_sample_mae (map to_float (Prophet.y df))
                        (map (fun r => Fin (Prophet.yhat r)) fc))).
    { unfold Prophet.generate_model_diagnostics.
      rewrite (proj2 (Nat.leb_gt _ _) Hshort), Hfc. reflexivity. }
    do 2 eexists. split; [exact Hd|]. split; [|split].
    + apply percent_not_negative, series_mean_not_negative, ratios_not_negative.
    + apply series_mean_not_negative, errors_not_negative.
    + intros vs Hy Hnz Hrows.
      destruct (prophet_in_sample_exact predict_in_sample cv1 df vs fc Hshort Hy Hnz Hfc Hrows)
        as (mape & mae & Hex & _).
      rewrite Hd in Hex. injection Hex as -> ->. split; reflexivity.
Qed.

Lemma prophet_in_sample_diagnostics_witness :
  exists mape mae,
    Prophet.prepare_data sample_now zero_start_points None
    = Ok {| Prophet.ds := synthetic_dates sample_now 10; Prophet.y := zero_start_points |}
    /\ Prophet.generate_model_diagnostics flat_predict sample_cross_validation
         {| Prophet.ds := synthetic_dates sample_now 10; Prophet.y := zero_start_points |}
       = Prophet.DiagInSample mape mae
    /\ not_negative mape /\ not_negative mae.
Proof.
  destruct (proj2 (proj2 (prophet_in_sample_diagnostics flat_predict sample_cross_validation
                            sample_cross_validation
                            {| Prophet.ds := synthetic_dates sample_now 10;
                               Prophet.y := zero_start_points |}
                            ltac:(simpl; lia))) _ eq_refl)
    as (mape & mae & Hd & Hm & Ha & _).
  exists mape, mae. split; [reflexivity|]. split; [exact Hd|]. split; assumption.
Defined.

Lemma Forall2_nth_error {A B : Type} (R : A -> B -> Prop) (l : list A) (l' : list B) :
  Forall2 R l l' ->
  forall i a b, nth_error l i = Some a -> nth_error l' i = Some b -> R a b.
Proof.
  induction 1 as [|x y l l' Hxy _ IH]; intros [|i] a b Ha Hb; simpl in *;
    try discriminate.
  - inversion Ha; inversion Hb; subst. exact Hxy.
  - apply (IH i); assumption.
Qed.

Lemma predict_loop_ok (m : XGBoost.regressor) (names : list string) (clock : nat -> Z)
    (l : list nat) (pts : list XGBoost.forecast_point) :
  XGBoost.predict_loop m names clock l = Ok pts ->
  Forall2 (fun step pt => XGBoost.predict_step m names (clock step) step = Ok pt) l pts.
Proof.
  revert pts. induction l as [|step l IH]; intros pts H; simpl in H.
  - inversion H. constructor.
  - destruct (XGBoost.predict_step m names (clock step) step) as [pt|e] eqn:Hs;
      simpl in H; [|discriminate].
    destruct (XGBoost.predict_loop m names clock l) as [rest|e]; simpl in H; [|discriminate].
    inversion H. constructor; [exact Hs | apply IH; reflexivity].
Qed.

Lemma predict_step_inv (m : XGBoost.regressor) (names : list string) (now : Z) (step : nat)
    (pt : XGBoost.forecast_point) :
  XGBoost.predict_step m names now step = Ok pt ->
  exists b p rest,
    m = XGBoost.Fitted b
    /\ XGBoost.xm_predict b
         [XGBoost.base_features names (now + Timedelta_days (Z.of_nat step + 1))%Z]
       = Ok (p :: rest)
    /\ pt = {| XGBoost.fp_step := (step + 1)%nat;
               XGBoost.fp_forecast := p;
               XGBoost.fp_lower_bound := max0 (p - (196 # 100) * (p * (15 # 100)));
               XGBoost.fp_upper_bound := p + (196 # 100) * (p * (15 # 100));
               XGBoost.fp_confidence_level := 95 # 100 |}.
Proof.
  unfold XGBoost.predict_step. intros H. destruct m as [|b]; [discriminate|].
  match type of H with bind ?r _ = _ => destruct r as [out|e] eqn:Hout; simpl in H end;
    [|discriminate].
  destruct out as [|p out]; simpl in H; [discriminate|].
  inversion H. exists b, p, out. auto.
Qed.

Lemma max0_of_nonneg (x : Q) : 0 <= x -> max0 x == x.
Proof.
  intros H. unfold max0. destruct (Qlt_bool 0 x) eqn:E; [reflexivity|].
  apply Qlt_bool_false in E. lra.
Qed.

Lemma max0_of_nonpos (x : Q) : x <= 0 -> max0 x = 0.
Proof.
  intros H. unfold max0. destruct (Qlt_bool 0 x) eqn:E; [|reflexivity].
  apply Qlt_bool_true in E. lra.
Qed.

(** X10.  A successful [predict] of the tree backend returns one point
    per requested step, numbered from 1, at confidence 0.95, with the
    service's feature importances.  The forecast of a point is the
    model's own prediction for the calendar vector of that step, not
    clamped.  The lower bound is never negative; when the prediction is
    not negative the point is in order (lower bound <= forecast <= upper
    bound), and when it is negative the lower bound is 0 and the upper
    bound is not above the forecast. *)
Theorem xgboost_predict_points
    (self : XGBoost.service) (clock : nat -> Z) (forecast_steps : nat)
    (external_features : option XGBoost.external)
    (pts : list XGBoost.forecast_point) (h : nat) (imp : list (string * Q))
    (Hpred : XGBoost.predict self clock forecast_steps external_features
             = Ok (XGBoost.ForecastSuccess pts h imp)) :
  h = forecast_steps
  /\ imp = XGBoost.feature_importance self
  /\ List.length pts = forecast_steps
  /\ forall i pt,
      nth_error pts i = Some pt ->
      XGBoost.fp_step pt = (i + 1)%nat
      /\ XGBoost.fp_confidence_level pt = 95 # 100
      /\ (exists b rest,
            XGBoost.model self = Some (XGBoost.Fitted b)
            /\ XGBoost.xm_predict b
                 [XGBoost.base_features (XGBoost.feature_names self)
                    (clock i + Timedelta_days (Z.of_nat i + 1))%Z]
               = Ok (XGBoost.fp_forecast pt :: rest))
      /\ 0 <= XGBoost.fp_lower_bound pt
      /\ (0 <= XGBoost.fp_forecast pt ->
          XGBoost.fp_lower_bound pt <= XGBoost.fp_forecast pt
          /\ XGBoost.fp_forecast pt <= XGBoost.fp_upper_bound pt)
      /\ (XGBoost.fp_forecast pt < 0 ->
          XGBoost.fp_lower_bound pt = 0
          /\ XGBoost.fp_upper_bound pt <= XGBoost.fp_forecast pt).
Proof.
  unfold XGBoost.predict in Hpred.
  destruct (XGBoost.model self) as [m|]; [|discriminate].
  destruct (XGBoost.predict_loop m (XGBoost.feature_names self) clock (seq 0 forecast_steps))
    as [pts'|e] eqn:Hloop; [|discriminate].
  inversion Hpred; subst pts' h imp; clear Hpred.
  apply predict_loop_ok in Hloop.
  split; [reflexivity|]. split; [reflexivity|]. split.
  - rewrite <- (Forall2_length Hloop). apply length_seq.
  - intros i pt Hpt.
    assert (Hi : (i < forecast_steps)%nat).
    { pose proof (Forall2_length Hloop) as Hl. rewrite length_seq in Hl. rewrite Hl.
      apply nth_error_Some. congruence. }
    assert (Hstep : XGBoost.predict_step m (XGBoost.feature_names self) (clock i) i = Ok pt).
    { exact (Forall2_nth_error _ _ _ Hloop i i pt (nth_error_seq0 _ _ Hi) Hpt). }
    destruct (predict_step_inv _ _ _ _ _ Hstep) as (b & p & rest & -> & Hout & ->). simpl.
    split; [reflexivity|]. split; [reflexivity|].
    split; [exists b, rest; split; [reflexivity | exact Hout]|].
    split; [apply max0_nonneg|]. split.
    + intros Hp. rewrite max0_of_nonneg by lra. split; lra.
    + intros Hp. rewrite max0_of_nonpos by lra. split; [reflexivity | lra].
Qed.

Lemma xgboost_predict_points_witness :
  exists pts,
    XGBoost.predict month_service (fun _ => sample_now) 3 None
    = Ok (XGBoost.ForecastSuccess pts 3 [("month", 1); ("lag_1", 0)])
    /\ List.length pts = 3%nat.
Proof.
  eexists. split; [vm_compute; reflexivity|].
  eapply (xgboost_predict_points month_service (fun _ => sample_now) 3 None).
  vm_compute. reflexivity.
Defined.

Lemma predict_loop_raise (m : XGBoost.regressor) (names : list string) (clock : nat -> Z)
    (before after : list nat) (k : nat) (e : exn) :
  (forall j, In j before -> exists pt, XGBoost.predict_step m names (clock j) j = Ok pt) ->
  XGBoost.predict_step m names (clock k) k = Raise e ->
  XGBoost.predict_loop m names clock (before ++ k :: after) = Raise e.
Proof.
  intros Hbefore Hk. induction before as [|j before IH]; simpl.
  - rewrite Hk. reflexivity.
  - destruct (Hbefore j (or_introl eq_refl)) as [pt ->]. simpl.
    rewrite IH; [reflexivity|]. intros j' Hj'. apply Hbefore. now right.
Qed.

(** X11.  The tree backend's [predict] is all or nothing: when the
    model raises at some step of the horizon (the earlier steps having
    succeeded) no point is returned and the result is the failure
    envelope carrying that exception's message. *)
Theorem xgboost_predict_all_or_nothing
    (self : XGBoost.service) (m : XGBoost.regressor) (clock : nat -> Z)
    (forecast_steps k : nat) (external_features : option XGBoost.external) (e : exn)
    (Hmodel : XGBoost.model self = Some m)
    (Hk : (k < forecast_steps)%nat)
    (Hbefore : forall j, (j < k)%nat ->
               exists pt, XGBoost.predict_step m (XGBoost.feature_names self) (clock j) j = Ok pt)
    (Hraise : XGBoost.predict_step m (XGBoost.feature_names self) (clock k) k = Raise e) :
  XGBoost.predict self clock forecast_steps external_features
  = Ok (XGBoost.ForecastFailure (exn_msg e)).
Proof.
  unfold XGBoost.predict. rewrite Hmodel.
  replace forecast_steps with (k + S (forecast_steps - S k))%nat by lia.
  rewrite seq_app. simpl seq.
  rewrite (predict_loop_raise m _ clock (seq 0 k) _ k e); [reflexivity | | exact Hraise].
  intros j Hj. apply in_seq in Hj. apply Hbefore. lia.
Qed.

Lemma xgboost_predict_all_or_nothing_witness :
  XGBoost.predict brittle_service (fun _ => sample_now) 7 None
  = Ok (XGBoost.ForecastFailure "feature out of range").
Proof.
  apply (xgboost_predict_all_or_nothing brittle_service _ (fun _ => sample_now) 7 3 None
           (Exn "XGBoostError" "feature out of range") eq_refl).
  - lia.
  - intros j Hj. destruct j as [|[|[|j]]]; [eexists; vm_compute; reflexivity ..| lia].
  - vm_compute. reflexivity.
Defined.


(** * Hyperparameter search and fit of the tree backend *)

(** X12.  [optimize_hyperparameters] returns nothing (and the infinite
    score) as soon as one of the three cross-validations raises;
    otherwise it returns a preset of its grid together with its score,
    the first of the grid among those of least cross-validated error. *)
Theorem optimize_hyperparameters_first_minimum
    (cross_val_mae : XGBoost.hyperparameters -> list (list Q) -> list Q -> result Q)
    (X_train : list (list Q)) (y_train : list Q) :
  (forall hp e, In hp XGBoost.param_grid -> cross_val_mae hp X_train y_train = Raise e ->
                XGBoost.optimize_hyperparameters cross_val_mae X_train y_train = (None, None))
  /\ ((forall hp, In hp XGBoost.param_grid ->
                  exists s, cross_val_mae hp X_train y_train = Ok s) ->
      exists i hp s,
        XGBoost.optimize_hyperparameters cross_val_mae X_train y_train = (Some hp, Some s)
        /\ nth_error XGBoost.param_grid i = Some hp
        /\ cross_val_mae hp X_train y_train = Ok s
        /\ forall j hp' s',
            nth_error XGBoost.param_grid j = Some hp' ->
            cross_val_mae hp' X_train y_train = Ok s' ->
            s <= s' /\ ((j < i)%nat -> s < s')).
Proof.
  unfold XGBoost.optimize_hyperparameters, XGBoost.param_grid. simpl fold_left.
  unfold XGBoost.optimize_step. simpl bind at 1.
  set (p1 := XGBoost.HP_Preset (5 # 100) 4 150).
  set (p2 := XGBoost.HP_Preset (10 # 100) 6 100).
  set (p3 := XGBoost.HP_Preset (15 # 100) 8 80).
  split.
  - intros hp e Hin Hraise.
    destruct (cross_val_mae p1 X_train y_train) as [s1|e1] eqn:H1; simpl;
      [|reflexivity].
    destruct (cross_val_mae p2 X_train y_train) as [s2|e2] eqn:H2; simpl;
      [|reflexivity].
    destruct (Qlt_bool s2 s1); simpl;
      (destruct (cross_val_mae p3 X_train y_train) as [s3|e3] eqn:H3; simpl;
       [|reflexivity]);
      exfalso; destruct Hin as [<- | [<- | [<- | []]]]; congruence.
  - intros Hall.
    destruct (Hall p1 (or_introl eq_refl)) as [s1 H1].
    destruct (Hall p2 (or_intror (or_introl eq_refl))) as [s2 H2].
    destruct (Hall p3 (or_intror (or_intror (or_introl eq_refl)))) as [s3 H3].
    rewrite H1. simpl. rewrite H2. simpl.
    assert (Hcases : forall j hp' s',
               nth_error [p1; p2; p3] j = Some hp' ->
               cross_val_mae hp' X_train y_train = Ok s' ->
               (j = 0%nat /\ s' = s1) \/ (j = 1%nat /\ s' = s2) \/ (j = 2%nat /\ s' = s3)).
    { intros [|[|[|j]]] hp' s' Hn Hs; simpl in Hn.
      - injection Hn as <-. left. split; [reflexivity | congruence].
      - injection Hn as <-. right. left. split; [reflexivity | congruence].
      - injection Hn as <-. right. right. split; [reflexivity | congruence].
      - destruct j; discriminate. }
    destruct (Qlt_bool s2 s1) eqn:E21; simpl; rewrite H3; simpl.
    + apply Qlt_bool_true in E21. destruct (Qlt_bool s3 s2) eqn:E32.
      * apply Qlt_bool_true in E32. exists 2%nat, p3, s3.
        repeat split; try reflexivity; try exact H3;
          destruct (Hcases _ _ _ H H0) as [[-> ->] | [[-> ->] | [-> ->]]]; try lra; lia.
      * apply Qlt_bool_false in E32. exists 1%nat, p2, s2.
        repeat split; try reflexivity; try exact H2;
          destruct (Hcases _ _ _ H H0) as [[-> ->] | [[-> ->] | [-> ->]]]; try lra; lia.
    + apply Qlt_bool_false in E21. destruct (Qlt_bool s3 s1) eqn:E31.
      * apply Qlt_bool_true in E31. exists 2%nat, p3, s3.
        repeat split; try reflexivity; try exact H3;
          destruct (Hcases _ _ _ H H0) as [[-> ->] | [[-> ->] | [-> ->]]]; try lra; lia.
      * apply Qlt_bool_false in E31. exists 0%nat, p1, s1.
        repeat split; try reflexivity; try exact H1;
          destruct (Hcases _ _ _ H H0) as [[-> ->] | [[-> ->] | [-> ->]]]; try lra; lia.
Qed.

Lemma optimize_hyperparameters_first_minimum_witness :
  XGBoost.optimize_hyperparameters brittle_cross_val_mae [] [] = (None, None)
  /\ exists i hp s,
      XGBoost.optimize_hyperparameters tied_cross_val_mae [] [] = (Some hp, Some s)
      /\ nth_error XGBoost.param_grid i = Some hp
      /\ tied_cross_val_mae hp [] [] = Ok s
      /\ forall j hp' s',
          nth_error XGBoost.param_grid j = Some hp' ->
          tied_cross_val_mae hp' [] [] = Ok s' ->
          s <= s' /\ ((j < i)%nat -> s < s').
Proof.
  split.
  - apply (proj1 (optimize_hyperparameters_first_minimum brittle_cross_val_mae [] [])
             (XGBoost.HP_Preset (15 # 100) 8 80) (Exn "ValueError" "n_splits too large")).
    + simpl. auto.
    + reflexivity.
  - apply (proj2 (optimize_hyperparameters_first_minimum tied_cross_val_mae [] [])).
    intros hp [<- | [<- | [<- | []]]]; eexists; reflexivity.
Defined.

(** On tied scores the earlier preset is kept. *)
Example optimize_hyperparameters_tie :
  XGBoost.optimize_hyperparameters tied_cross_val_mae [] []
  = (Some (XGBoost.HP_Preset (5 # 100) 4 150), Some 2).
Proof. reflexivity. Qed.

(** X13.  With at most 38 rows the training split has at most 30 rows
    and the hyperparameter search is skipped: the fit is the same with
    and without [optimize_params], whatever the cross-validation would
    return. *)
Theorem fit_skips_optimization_when_small
    (fit_transform : list (list Q) -> result (XGBoost.scaler_state * list (list Q)))
    (xgb_fit : XGBoost.hyperparameters -> list (list Q) -> list Q -> list (list Q) -> list Q
               -> result XGBoost.booster)
    (cv1 cv2 : XGBoost.hyperparameters -> list (list Q) -> list Q -> result Q)
    (round : Q -> xnum)
    (self : XGBoost.service) (df : XGBoost.frame)
    (Hsmall : forall sc Xs, fit_transform (XGBoost.X df) = Ok (sc, Xs) ->
                            (List.length Xs <= 38)%nat) :
  XGBoost.fit_xgboost_model fit_transform xgb_fit cv1 round self df true
  = XGBoost.fit_xgboost_model fit_transform xgb_fit cv2 round self df false.
Proof.
  unfold XGBoost.fit_xgboost_model.
  destruct (fit_transform (XGBoost.X df)) as [[sc Xs]|e] eqn:Hft; [|reflexivity].
  specialize (Hsmall sc Xs eq_refl).
  assert (Hlt : Nat.ltb 30 (List.length (firstn (XGBoost.split_index (List.length Xs)) Xs))
                = false).
  { apply Nat.ltb_ge. rewrite length_firstn. unfold XGBoost.split_index.
    assert (List.length Xs * 4 / 5 < 31)%nat
      by (apply Nat.Div0.div_lt_upper_bound; lia).
    lia. }
  rewrite Hlt. reflexivity.
Qed.

Lemma fit_skips_optimization_when_small_witness :
  XGBoost.fit_xgboost_model centring_scaler constant_fit brittle_cross_val_mae binary64
    XGBoost.init step_frame true
  = XGBoost.fit_xgboost_model centring_scaler constant_fit tied_cross_val_mae binary64
      XGBoost.init step_frame false.
Proof.
  apply (fit_skips_optimization_when_small centring_scaler constant_fit).
  intros sc Xs H. inversion H. simpl. lia.
Defined.

(** X14.  A successful fit of the tree backend splits the scaled rows
    in time order: the model is fitted on the first floor(0.8 n) rows
    and their targets, with the remaining rows as evaluation set, and
    the two reported MAEs are those of its predictions on these two
    parts.  The fit reports the two counts and the number of feature
    columns, training and validation MAPEs that are neither negative nor
    NaN, and leaves the service with the fitted model, the fitted
    scaler, the frame's column names and their importances. *)
Theorem fit_reports_time_ordered_split
    (fit_transform : list (list Q) -> result (XGBoost.scaler_state * list (list Q)))
    (xgb_fit : XGBoost.hyperparameters -> list (list Q) -> list Q -> list (list Q) -> list Q
               -> result XGBoost.booster)
    (cross_val_mae : XGBoost.hyperparameters -> list (list Q) -> list Q -> result Q)
    (round : Q -> xnum)
    (self self' : XGBoost.service) (df : XGBoost.frame) (optimize_params : bool)
    (d : XGBoost.model_diagnostics)
    (Hfit : XGBoost.fit_xgboost_model fit_transform xgb_fit cross_val_mae round self df
              optimize_params
            = (self', XGBoost.FitSuccess d)) :
  exists sc Xs hp m y_train_pred y_val_pred,
    fit_transform (XGBoost.X df) = Ok (sc, Xs)
    /\ xgb_fit hp
         (firstn (List.length Xs * 4 / 5) Xs) (firstn (List.length Xs * 4 / 5) (XGBoost.y df))
         (skipn (List.length Xs * 4 / 5) Xs) (skipn (List.length Xs * 4 / 5) (XGBoost.y df))
       = Ok m
    /\ XGBoost.xm_predict m (firstn (List.length Xs * 4 / 5) Xs) = Ok y_train_pred
    /\ XGBoost.xm_predict m (skipn (List.length Xs * 4 / 5) Xs) = Ok y_val_pred
    /\ XGBoost.mean_absolute_error (firstn (List.length Xs * 4 / 5) (XGBoost.y df))
         y_train_pred
       = Ok (XGBoost.train_mae d)
    /\ XGBoost.mean_absolute_error (skipn (List.length Xs * 4 / 5) (XGBoost.y df))
         y_val_pred
       = Ok (XGBoost.val_mae d)
    /\ XGBoost.training_samples d = (List.length Xs * 4 / 5)%nat
    /\ (XGBoost.training_samples d + XGBoost.validation_samples d)%nat = List.length Xs
    /\ XGBoost.features_count d = List.length (XGBoost.columns df)
    /\ not_negative (XGBoost.train_mape d) /\ xisnan (XGBoost.train_mape d) = false
    /\ not_negative (XGBoost.val_mape d) /\ xisnan (XGBoost.val_mape d) = false
    /\ self' = {| XGBoost.model := Some (XGBoost.Fitted m);
                  XGBoost.scaler := Some sc;
                  XGBoost.feature_names := XGBoost.columns df;
                  XGBoost.feature_importance :=
                    combine (XGBoost.columns df) (XGBoost.xm_feature_importances m) |}.
Proof.
  unfold XGBoost.fit_xgboost_model in Hfit.
  destruct (fit_transform (XGBoost.X df)) as [[sc Xs]|e]; [|discriminate].
  fold (XGBoost.split_index (List.length Xs)).
  set (k := XGBoost.split_index (List.length Xs)) in *.
  match type of Hfit with
    context [xgb_fit ?h _ _ _ _] => set (hp := h) in *; destruct (xgb_fit hp _ _ _ _) as [m|e] eqn:Hm
  end; [|discriminate].
  cbv zeta in Hfit.
  destruct (XGBoost.xm_predict m (firstn k Xs)) as [ytp|e] eqn:Htp; simpl in Hfit;
    [|discriminate].
  destruct (XGBoost.xm_predict m (skipn k Xs)) as [yvp|e] eqn:Hvp; simpl in Hfit;
    [|discriminate].
  destruct (XGBoost.mean_absolute_error (firstn k (XGBoost.y df)) ytp) as [tm|e] eqn:Htmae;
    simpl in Hfit; [|discriminate].
  destruct (XGBoost.mean_absolute_error (skipn k (XGBoost.y df)) yvp) as [vm|e] eqn:Hvmae;
    simpl in Hfit; [|discriminate].
  destruct (XGBoost.calculate_mape (map Fin (firstn k (XGBoost.y df))) (map Fin ytp))
    as [tmape|e] eqn:Htm; simpl in Hfit; [|discriminate].
  destruct (XGBoost.calculate_mape (map Fin (skipn k (XGBoost.y df))) (map Fin yvp))
    as [vmape|e] eqn:Hvm; simpl in Hfit; [|discriminate].
  inversion Hfit; subst self' d; clear Hfit.
  cbn [XGBoost.training_samples XGBoost.validation_samples XGBoost.features_count
       XGBoost.train_mape XGBoost.val_mape XGBoost.train_mae XGBoost.val_mae
       XGBoost.feature_names XGBoost.model XGBoost.scaler XGBoost.feature_importance].
  assert (Hk : (k <= List.length Xs)%nat).
  { unfold k, XGBoost.split_index. apply Nat.Div0.div_le_upper_bound. lia. }
  exists sc, Xs, hp, m, ytp, yvp.
  split; [reflexivity|]. split; [exact Hm|]. split; [exact Htp|]. split; [exact Hvp|].
  split; [exact Htmae|]. split; [exact Hvmae|]. split.
  - rewrite length_firstn, Nat.min_l by exact Hk. reflexivity.
  - split; [rewrite length_firstn, length_skipn; lia|].
    split; [reflexivity|].
    split; [exact (xgboost_mape_not_negative _ _ _ Htm)|].
    split; [destruct (xgboost_mape_guarded _ _ _ Htm) as [q ->]; reflexivity|].
    split; [exact (xgboost_mape_not_negative _ _ _ Hvm)|].
    split; [destruct (xgboost_mape_guarded _ _ _ Hvm) as [q ->]; reflexivity|].
    reflexivity.
Qed.

Lemma fit_reports_time_ordered_split_witness :
  exists self' d,
    XGBoost.fit_xgboost_model centring_scaler constant_fit sample_cross_val_mae binary64
      XGBoost.init step_frame true = (self', XGBoost.FitSuccess d)
    /\ XGBoost.training_samples d = 12%nat
    /\ XGBoost.validation_samples d = 3%nat
    /\ not_negative (XGBoost.train_mape d)
    /\ not_negative (XGBoost.val_mape d).
Proof.
  eexists. eexists. split; [reflexivity|]. split; [reflexivity|]. split; [reflexivity|].
  destruct (fit_reports_time_ordered_split centring_scaler constant_fit sample_cross_val_mae
              binary64 XGBoost.init _ step_frame true _ eq_refl)
    as (sc & Xs & hp & m & ytp & yvp & _ & _ & _ & _ & _ & _ & _ & _ & _ & Ht & _ & Hv & _).
  split; [exact Ht | exact Hv].
Defined.

Lemma insert_desc_perm (x : string * Q) (l : list (string * Q)) :
  Permutation (Analysis.insert_desc x l) (x :: l).
Proof.
  induction l as [|h t IH]; simpl.
  - apply Permutation_refl.
  - destruct (Qlt_bool (snd x) (snd h)).
    + eapply Permutation_trans; [apply perm_skip, IH | apply perm_swap].
    + apply Permutation_refl.
Qed.

Lemma sort_desc_perm (l : list (string * Q)) : Permutation (Analysis.sort_desc l) l.
Proof.
  induction l as [|x l IH]; simpl.
  - apply Permutation_refl.
  - eapply Permutation_trans; [apply insert_desc_perm | apply perm_skip, IH].
Qed.

Lemma insert_desc_sorted (x : string * Q) (l : list (string * Q)) :
  StronglySorted importance_ge l -> StronglySorted importance_ge (Analysis.insert_desc x l).
Proof.
  induction 1 as [|h t Hs IH Hall]; simpl.
  - repeat constructor.
  - destruct (Qlt_bool (snd x) (snd h)) eqn:E.
    + apply Qlt_bool_true in E. constructor; [exact IH|].
      eapply Permutation_Forall; [apply Permutation_sym, insert_desc_perm|].
      constructor; [unfold importance_ge; lra | exact Hall].
    + apply Qlt_bool_false in E. constructor.
      * constructor; assumption.
      * constructor; [exact E|].
        eapply Forall_impl; [|exact Hall]. unfold importance_ge. intros a Ha. lra.
Qed.

Lemma sort_desc_sorted (l : list (string * Q)) :
  StronglySorted importance_ge (Analysis.sort_desc l).
Proof.
  induction l as [|x l IH]; simpl; [constructor | apply insert_desc_sorted, IH].
Qed.

Lemma category_eqb_eq (a b : Analysis.category) : Analysis.category_eqb a b = true <-> a = b.
Proof.
  destruct a, b; simpl; split; intros H; try reflexivity; discriminate.
Qed.

Lemma perm_insert_at {A : Type} (pre rest l : list A) (x : A) :
  Permutation (pre ++ rest) l -> Permutation (pre ++ x :: rest) (x :: l).
Proof.
  intros H. eapply Permutation_trans; [apply Permutation_sym, Permutation_middle|].
  apply perm_skip, H.
Qed.

(** Filtering by the six categories splits a list. *)
Lemma categories_split (l : list (string * Q)) :
  Permutation
    (filter (fun fi => Analysis.category_eqb (Analysis.categorize (fst fi)) Analysis.Temporal) l
     ++ filter (fun fi => Analysis.category_eqb (Analysis.categorize (fst fi))
                                                Analysis.Statistical) l
     ++ filter (fun fi => Analysis.category_eqb (Analysis.categorize (fst fi))
                                                Analysis.Seasonal) l
     ++ filter (fun fi => Analysis.category_eqb (Analysis.categorize (fst fi)) Analysis.Trend) l
     ++ filter (fun fi => Analysis.category_eqb (Analysis.categorize (fst fi))
                                                Analysis.External) l
     ++ filter (fun fi => Analysis.category_eqb (Analysis.categorize (fst fi)) Analysis.Other) l)
    l.
Proof.
  induction l as [|x l IH]; simpl; [constructor|].
  destruct (Analysis.categorize (fst x)); simpl;
    [apply perm_skip, IH | ..];
    rewrite !app_assoc; apply perm_insert_at; rewrite <- !app_assoc; exact IH.
Qed.

Lemma category_items_spec (c : Analysis.category) (importance : list (string * Q))
    (fi : string * Q) :
  In fi (Analysis.category_items c importance)
  <-> In fi importance /\ Analysis.categorize (fst fi) = c.
Proof.
  unfold Analysis.category_items. split.
  - intros H. apply (Permutation_in _ (sort_desc_perm _)) in H.
    apply filter_In in H. destruct H as [Hin Hc]. split; [exact Hin|].
    apply category_eqb_eq, Hc.
  - intros [Hin Hc]. apply (Permutation_in _ (Permutation_sym (sort_desc_perm _))).
    apply filter_In. split; [exact Hin | apply category_eqb_eq, Hc].
Qed.

(** X15.  [get_feature_analysis] reports an error when there are no
    importances; otherwise it counts the features and files every
    (feature, importance) pair under exactly one of the six categories,
    the one its name selects: the six lists together are the
    importances in another order. *)
Theorem feature_analysis_partition (importance : list (string * Q)) :
  Analysis.get_feature_analysis []
  = inl "No feature importance available - model not fitted"
  /\ (importance <> [] ->
      exists a,
        Analysis.get_feature_analysis importance = inr a
        /\ Analysis.total_features a = List.length importance
        /\ Permutation
             (Analysis.temporal a ++ Analysis.statistical a ++ Analysis.seasonal a
              ++ Analysis.trend a ++ Analysis.external a ++ Analysis.other a)
             importance
        /\ (List.length (Analysis.temporal a) + List.length (Analysis.statistical a)
            + List.length (Analysis.seasonal a) + List.length (Analysis.trend a)
            + List.length (Analysis.external a) + List.length (Analysis.other a))%nat
           = Analysis.total_features a
        /\ forall fi,
            (In fi (Analysis.temporal a)
             <-> In fi importance /\ Analysis.categorize (fst fi) = Analysis.Temporal)
            /\ (In fi (Analysis.statistical a)
                <-> In fi importance /\ Analysis.categorize (fst fi) = Analysis.Statistical)
            /\ (In fi (Analysis.seasonal a)
                <-> In fi importance /\ Analysis.categorize (fst fi) = Analysis.Seasonal)
            /\ (In fi (Analysis.trend a)
                <-> In fi importance /\ Analysis.categorize (fst fi) = Analysis.Trend)
            /\ (In fi (Analysis.external a)
                <-> In fi importance /\ Analysis.categorize (fst fi) = Analysis.External)
            /\ (In fi (Analysis.other a)
                <-> In fi importance /\ Analysis.categorize (fst fi) = Analysis.Other)).
Proof.
  split; [reflexivity|]. intros Hne.
  destruct importance as [|x l]; [congruence|].
  set (imp := x :: l) in *.
  eexists. split; [reflexivity|]. cbn [Analysis.total_features Analysis.temporal
    Analysis.statistical Analysis.seasonal Analysis.trend Analysis.external Analysis.other].
  assert (Hperm : Permutation
                    (Analysis.category_items Analysis.Temporal imp
                     ++ Analysis.category_items Analysis.Statistical imp
                     ++ Analysis.category_items Analysis.Seasonal imp
                     ++ Analysis.category_items Analysis.Trend imp
                     ++ Analysis.category_items Analysis.External imp
                     ++ Analysis.category_items Analysis.Other imp) imp).
  { eapply Permutation_trans; [|apply categories_split].
    unfold Analysis.category_items.
    repeat (apply Permutation_app; [apply sort_desc_perm|]). apply sort_desc_perm. }
  split; [reflexivity|]. split; [exact Hperm|]. split.
  - rewrite <- (Permutation_length Hperm), !length_app. lia.
  - intros fi. repeat (split; [apply category_items_spec|]). apply category_items_spec.
Qed.

Lemma feature_analysis_partition_witness :
  exists a,
    Analysis.get_feature_analysis sample_importance = inr a
    /\ Analysis.total_features a = 7%nat
    /\ map fst (Analysis.temporal a) = ["sin_weekly"; "month"; "is_holiday_season"]%string
    /\ Analysis.seasonal a = [].
Proof.
  destruct (proj2 (feature_analysis_partition sample_importance) ltac:(discriminate))
    as (a & Ha & Htotal & _).
  exists a. split; [exact Ha|]. split; [exact Htotal|].
  vm_compute in Ha. inversion Ha. split; reflexivity.
Defined.

Lemma sorted_app_split {A : Type} (R : A -> A -> Prop) (l1 l2 : list A) :
  StronglySorted R (l1 ++ l2) ->
  StronglySorted R l1 /\ forall x y, In x l1 -> In y l2 -> R x y.
Proof.
  induction l1 as [|a l1 IH]; simpl; intros H.
  - split; [constructor | intros x y []].
  - inversion H as [|? ? Hs Hall]; subst. destruct (IH Hs) as [Hs1 Hcross].
    rewrite Forall_app in Hall. destruct Hall as [Hall1 Hall2]. split.
    + constructor; assumption.
    + intros x y [<- | Hx] Hy.
      * rewrite Forall_forall in Hall2. apply Hall2, Hy.
      * apply Hcross; assumption.
Qed.

(** X16.  Every list [get_feature_analysis] returns is in descending
    order of importance, and [top_features] holds at most fifteen pairs
    that are the most important ones: the importances are
    [top_features] followed by pairs none of which is more important
    than any of them. *)
Theorem feature_analysis_ordering (importance : list (string * Q)) (a : Analysis.analysis)
    (Ha : Analysis.get_feature_analysis importance = inr a) :
  StronglySorted importance_ge (Analysis.temporal a)
  /\ StronglySorted importance_ge (Analysis.statistical a)
  /\ StronglySorted importance_ge (Analysis.seasonal a)
  /\ StronglySorted importance_ge (Analysis.trend a)
  /\ StronglySorted importance_ge (Analysis.external a)
  /\ StronglySorted importance_ge (Analysis.other a)
  /\ StronglySorted importance_ge (Analysis.top_features a)
  /\ List.length (Analysis.top_features a) = Nat.min 15 (List.length importance)
  /\ exists rest,
      Permutation (Analysis.top_features a ++ rest) importance
      /\ forall x y, In x (Analysis.top_features a) -> In y rest -> snd y <= snd x.
Proof.
  destruct importance as [|x l]; [discriminate|].
  cbv beta iota delta [Analysis.get_feature_analysis] in Ha.
  set (imp := x :: l) in *.
  remember (firstn 15 (Analysis.sort_desc imp)) as top eqn:Htop.
  injection Ha as <-.
  cbn [Analysis.temporal Analysis.statistical Analysis.seasonal Analysis.trend
       Analysis.external Analysis.other Analysis.top_features].
  repeat (split; [apply sort_desc_sorted|]). subst top.
  pose proof (sort_desc_sorted imp) as Hs.
  rewrite <- (firstn_skipn 15 (Analysis.sort_desc imp)) in Hs.
  destruct (sorted_app_split _ _ _ Hs) as [Hs1 Hcross].
  split; [exact Hs1|]. split.
  - rewrite length_firstn, (Permutation_length (sort_desc_perm imp)). reflexivity.
  - exists (skipn 15 (Analysis.sort_desc imp)). split.
    + rewrite firstn_skipn. apply sort_desc_perm.
    + intros u v Hu Hv. apply (Hcross u v Hu Hv).
Qed.

Lemma feature_analysis_ordering_witness :
  exists a,
    Analysis.get_feature_analysis sample_importance = inr a
    /\ map fst (Analysis.top_features a)
       = ["lag_1"; "ext_price"; "trend"; "sin_weekly"; "month"; "is_holiday_season";
          "ramadan_proximity"]%string
    /\ StronglySorted importance_ge (Analysis.top_features a).
Proof.
  eexists. split; [reflexivity|]. split; [reflexivity|].
  eapply (feature_analysis_ordering sample_importance). reflexivity.
Defined.

Lemma contains_cons (sub : string) (c : Ascii.ascii) (s : string) :
  Analysis.contains sub (String c s)
  = String.prefix sub (String c s) || Analysis.contains sub s.
Proof.
  unfold Analysis.contains.
  change (index 0 sub (String c s))
    with (if String.prefix sub (String c s) then Some 0%nat
          else match index 0 sub s with
               | Some n => Some (S n)
               | None => None
               end).
  destruct (String.prefix sub (String c s)); [reflexivity|].
  destruct (index 0 sub s); reflexivity.
Qed.

Lemma contains_later (sub : string) (c : Ascii.ascii) (s : string) :
  Analysis.contains sub s = true -> Analysis.contains sub (String c s) = true.
Proof.
  intros H. rewrite contains_cons, H. apply orb_true_r.
Qed.

Lemma prefix_holiday (s : string) :
  String.prefix "holiday" s = true -> exists rest, s = ("holi" ++ "day" ++ rest)%string.
Proof.
  intros H. apply prefix_correct in H. simpl String.length in H.
  destruct s as [|c1 [|c2 [|c3 [|c4 [|c5 [|c6 [|c7 rest]]]]]]]; simpl in H;
    try congruence.
  injection H as -> -> -> -> -> -> -> _. exists rest. reflexivity.
Qed.

Lemma contains_holiday_day (feature : string) :
  Analysis.contains "holiday" feature = true -> Analysis.contains "day" feature = true.
Proof.
  induction feature as [|c s IH]; [discriminate|].
  rewrite contains_cons. intros H. apply orb_true_iff in H. destruct H as [H | H].
  - destruct (prefix_holiday _ H) as [rest Hs]. rewrite Hs. cbn [append].
    do 4 apply contains_later.
    cbn [append]. rewrite contains_cons. apply orb_true_iff. left.
    apply prefix_correct. simpl. destruct rest; reflexivity.
  - apply contains_later, IH, H.
Qed.

(** X17.  A feature whose name contains "holiday" is filed under
    temporal, never under seasonal, because the temporal test for "day"
    comes first; so are the Fourier columns the feature engineering
    names after week, month and year.  Of the engineered columns only
    names without any calendar word reach the later tests. *)
Theorem holiday_features_are_temporal (feature : string) :
  (Analysis.contains "holiday" feature = true ->
   Analysis.categorize feature = Analysis.Temporal)
  /\ (Analysis.categorize feature = Analysis.Seasonal ->
      Analysis.contains "holiday" feature = false
      /\ (Analysis.contains "sin_" feature = true
          \/ Analysis.contains "cos_" feature = true
          \/ Analysis.contains "seasonal" feature = true))
  /\ Forall (fun name => Analysis.categorize name = Analysis.Temporal)
            ["is_holiday_season"; "sin_weekly"; "cos_weekly"; "sin_monthly"; "cos_monthly";
             "sin_yearly"; "cos_yearly"; "is_weekend"; "is_payday_week"; "dayofweek"]%string
  /\ Analysis.categorize "ramadan_proximity" = Analysis.Other
  /\ Analysis.categorize "sin_lunar" = Analysis.Seasonal.
Proof.
  assert (Hhol : Analysis.contains "holiday" feature = true ->
                 Analysis.categorize feature = Analysis.Temporal).
  { intros H. apply contains_holiday_day in H. unfold Analysis.categorize.
    cbn [existsb]. rewrite H. rewrite !orb_true_r. reflexivity. }
  split; [exact Hhol|]. split.
  - intros Hc.
    assert (Hh : Analysis.contains "holiday" feature = false).
    { destruct (Analysis.contains "holiday" feature) eqn:E; [|reflexivity].
      rewrite (Hhol eq_refl) in Hc. discriminate. }
    split; [exact Hh|].
    unfold Analysis.categorize in Hc. cbn [existsb] in Hc. rewrite Hh in Hc.
    destruct (Analysis.contains "month" feature || _); [discriminate|].
    destruct (Analysis.contains "lag_" feature || _); [discriminate|].
    destruct (Analysis.contains "sin_" feature); [auto|].
    destruct (Analysis.contains "cos_" feature); [auto|].
    destruct (Analysis.contains "seasonal" feature); [auto|].
    simpl in Hc.
    destruct (Analysis.contains "trend" feature || _); [discriminate|].
    destruct (String.prefix "ext_" feature); discriminate.
  - split; [repeat constructor|]. split; reflexivity.
Qed.

(** * The engineered columns of the tree backend *)

(** X18.  The calendar flags of a row are tied to one another: a
    quarter end is a month end, month start and month end both fall in
    the payday week and exclude each other, the payday week is off
    exactly on days 6 to 21, a year end is a December holiday-season
    day, and a year end from the 25th on is a quarter end. *)
Theorem calendar_flag_relations (month day dayofweek : Z) :
  (Features.is_quarter_end (Features.flags month day dayofweek) = true ->
   Features.is_month_end (Features.flags month day dayofweek) = true)
  /\ (Features.is_month_end (Features.flags month day dayofweek) = true ->
      Features.is_payday_week (Features.flags month day dayofweek) = true)
  /\ (Features.is_month_start (Features.flags month day dayofweek) = true ->
      Features.is_payday_week (Features.flags month day dayofweek) = true
      /\ Features.is_month_end (Features.flags month day dayofweek) = false)
  /\ (Features.is_payday_week (Features.flags month day dayofweek) = false
      <-> (6 <= day <= 21)%Z)
  /\ (Features.is_year_end (Features.flags month day dayofweek) = true ->
      Features.is_holiday_season (Features.flags month day dayofweek) = true
      /\ month = 12%Z)
  /\ (Features.is_year_end (Features.flags month day dayofweek) = true ->
      (25 <= day)%Z ->
      Features.is_quarter_end (Features.flags month day dayofweek) = true)
  /\ (Features.is_weekend (Features.flags month day dayofweek) = true
      <-> (5 <= dayofweek)%Z).
Proof.
  unfold Features.flags. cbn [Features.is_quarter_end Features.is_month_end
    Features.is_payday_week Features.is_month_start Features.is_year_end
    Features.is_holiday_season Features.is_weekend].
  split; [|split; [|split; [|split; [|split; [|split]]]]].
  - intros H. apply andb_true_iff in H. apply H.
  - intros H. rewrite orb_true_iff, !Z.leb_le in *. lia.
  - intros H. apply Z.leb_le in H. split.
    + apply orb_true_iff. right. apply Z.leb_le, H.
    + apply Z.leb_gt. lia.
  - rewrite orb_false_iff, !Z.leb_gt. lia.
  - intros H. apply andb_true_iff in H. destruct H as [Hm Hd]. split.
    + rewrite Hm, Hd. rewrite !orb_true_r. reflexivity.
    + apply Z.eqb_eq, Hm.
  - intros H Hd. apply andb_true_iff in H. destruct H as [Hm _].
    apply Z.eqb_eq in Hm. subst month. apply andb_true_iff. split; [reflexivity|].
    apply Z.leb_le, Hd.
  - apply Z.leb_le.
Qed.

Lemma ffill_leading (k : nat) (vs : list Q) :
  ffill (repeat None k ++ map Some vs) = repeat None k ++ map Some vs.
Proof.
  unfold ffill. induction k as [|k IH]; simpl.
  - destruct vs as [|v vs]; simpl; [reflexivity|]. f_equal.
    revert v. induction vs as [|w vs IHv]; intros v; simpl; [reflexivity|].
    f_equal. apply IHv.
  - f_equal. exact IH.
Qed.

Lemma shift_present (k : nat) (ys : list Q) :
  (k <= List.length ys)%nat ->
  Features.shift k (map Some ys)
  = repeat None k ++ map Some (firstn (List.length ys - k) ys).
Proof.
  intros Hk. unfold Features.shift. rewrite length_map.
  rewrite firstn_app, repeat_length.
  rewrite firstn_all2 by (rewrite repeat_length; lia).
  f_equal. rewrite firstn_map. reflexivity.
Qed.

(** X19.  The column [lag_k] exists only for series longer than [k].
    For a series without missing values it has the length of the
    series; from row [k] on it holds the value [k] rows earlier, and its
    first [k] rows hold the first value of the series (the closing
    backward fill), not zero. *)
Theorem lag_column_values (k : nat) (ys : list Q) :
  ((List.length ys <= k)%nat -> Features.lag_column k (map Some ys) = None)
  /\ ((k < List.length ys)%nat ->
      exists col,
        Features.lag_column k (map Some ys) = Some col
        /\ List.length col = List.length ys
        /\ (forall i, (i < k)%nat -> nth_error col i = nth_error ys 0)
        /\ (forall i, (k <= i < List.length ys)%nat ->
                      nth_error col i = nth_error ys (i - k))).
Proof.
  unfold Features.lag_column. rewrite length_map. split.
  - intros H. rewrite (proj2 (Nat.ltb_ge _ _) H). reflexivity.
  - intros H. rewrite (proj2 (Nat.ltb_lt _ _) H).
    eexists. split; [reflexivity|].
    unfold Features.final_fill. rewrite shift_present by lia.
    rewrite ffill_leading.
    destruct (firstn (List.length ys - k) ys) as [|v vs] eqn:Hf.
    { apply (f_equal (@List.length _)) in Hf. rewrite length_firstn in Hf. simpl in Hf. lia. }
    rewrite bfill_leading, map_map. simpl XGBoost.fillna0.
    rewrite map_id.
    assert (Hv : nth_error ys 0 = Some v).
    { destruct ys as [|y ys]; [simpl in H; lia|].
      destruct (List.length (y :: ys) - k)%nat eqn:E; [lia|].
      simpl in Hf. inversion Hf. reflexivity. }
    assert (Hlen : List.length (v :: vs) = (List.length ys - k)%nat)
      by (rewrite <- Hf, length_firstn; lia).
    split; [|split].
    + rewrite length_app, repeat_length, Hlen. lia.
    + intros i Hi. rewrite nth_error_app1 by (rewrite repeat_length; exact Hi).
      rewrite Hv. apply nth_error_repeat, Hi.
    + intros i Hi. rewrite nth_error_app2 by (rewrite repeat_length; lia).
      rewrite repeat_length, <- Hf, nth_error_firstn.
      rewrite (proj2 (Nat.ltb_lt (i - k) (List.length ys - k))) by lia. reflexivity.
Qed.

Lemma lag_column_values_witness :
  Features.lag_column 30 (map Some [10; 12; 11]) = None
  /\ exists col,
      Features.lag_column 3 (map Some [10; 12; 11; 13; 12; 14]) = Some col
      /\ col = [10; 10; 10; 10; 12; 11].
Proof.
  split.
  - apply (proj1 (lag_column_values 30 [10; 12; 11])). simpl. lia.
  - eexists. split; reflexivity.
Defined.














Lemma nth_error_combine {A B : Type} (l : list A) (l' : list B) (i : nat) :
  nth_error (combine l l') i
  = match nth_error l i, nth_error l' i with
    | Some a, Some b => Some (a, b)
    | _, _ => None
    end.
Proof.
  revert l' i. induction l as [|a l IH]; intros [|b l'] [|i]; simpl; try reflexivity.
  - destruct (nth_error l i); reflexivity.
  - apply IH.
Qed.

Lemma shift_nth (k : nat) (ys : list Q) (i : nat) :
  (i < List.length ys)%nat ->
  nth_error (Features.shift k (map Some ys)) i
  = if Nat.ltb i k then Some None else option_map Some (nth_error ys (i - k)).
Proof.
  intros Hi. unfold Features.shift. rewrite length_map, nth_error_firstn.
  rewrite (proj2 (Nat.ltb_lt _ _) Hi).
  destruct (Nat.ltb i k) eqn:E.
  - apply Nat.ltb_lt in E. rewrite nth_error_app1 by (rewrite repeat_length; exact E).
    apply nth_error_repeat, E.
  - apply Nat.ltb_ge in E. rewrite nth_error_app2 by (rewrite repeat_length; exact E).
    rewrite repeat_length, nth_error_map. reflexivity.
Qed.

(** X21.  The column [pct_change_k] has the length of the series; its
    first [k] rows are 0, a row whose value [k] rows earlier is not zero
    holds the relative change, and a row whose earlier value is zero
    holds an infinity when its own value is not zero (positive or
    negative by its sign): only 0/0 is filled with 0. *)
Theorem pct_change_values (k : nat) (ys : list Q) :
  List.length (Features.pct_change k (map Some ys)) = List.length ys
  /\ (forall i, (i < k)%nat -> (i < List.length ys)%nat ->
                nth_error (Features.pct_change k (map Some ys)) i = Some (Fin 0))
  /\ (forall i cur prev,
        (k <= i)%nat -> nth_error ys i = Some cur -> nth_error ys (i - k) = Some prev ->
        nth_error (Features.pct_change k (map Some ys)) i
        = Some (if Qeq_bool prev 0
                then if Qlt_bool 0 cur then PInf
                     else if Qlt_bool cur 0 then NInf else Fin 0
                else Fin (cur / prev + - (1)))).
Proof.
  unfold Features.pct_change. split; [|split].
  - rewrite length_map, length_combine. unfold Features.shift.
    rewrite length_firstn, length_app, repeat_length, !length_map. lia.
  - intros i Hk Hi. rewrite nth_error_map, nth_error_combine, nth_error_map.
    rewrite (shift_nth k ys i Hi), (proj2 (Nat.ltb_lt _ _) Hk).
    destruct (nth_error ys i) as [y|] eqn:Hy; [reflexivity|].
    apply nth_error_None in Hy. lia.
  - intros i cur prev Hk Hcur Hprev.
    assert (Hi : (i < List.length ys)%nat) by (apply nth_error_Some; congruence).
    rewrite nth_error_map, nth_error_combine, nth_error_map, Hcur.
    rewrite (shift_nth k ys i Hi), (proj2 (Nat.ltb_ge _ _) Hk), Hprev. simpl.
    unfold Qsign_pos, Qsign_neg.
    destruct (Qeq_bool prev 0); [|reflexivity].
    destruct (Qlt_bool 0 cur); [reflexivity|].
    destruct (Qlt_bool cur 0); reflexivity.
Qed.

(** A day without sales followed by a sale gives an infinite change. *)
Example pct_change_after_zero :
  Features.pct_change 1 (map Some [5; 0; 0; 4; 2])
  = [Fin 0; Fin (0 / 5 + - (1)); Fin 0; PInf; Fin (2 / 4 + - (1))].
Proof. reflexivity. Qed.











(** * More on the autoregressive backend and on the tree preparation *)

(** X23.  The MAPE of the autoregressive backend is never negative,
    whatever floats it is given: it is a number at least 0, +inf or NaN.
    It is 100 when no actual value is non-zero, and also when the two
    arrays differ in length (the exception of the masked indexing is
    swallowed).  On arrays of numbers it is not NaN. *)
Theorem arima_mape_never_negative (actual predicted : list xnum) :
  not_negative (Arima.calculate_mape actual predicted)
  /\ ((forall a, In a actual -> xnonzero a = false) ->
      Arima.calculate_mape actual predicted = Fin 100)
  /\ (List.length predicted <> List.length actual ->
      Arima.calculate_mape actual predicted = Fin 100)
  /\ (forall a p : list Q,
        actual = map Fin a -> predicted = map Fin p ->
        xisnan (Arima.calculate_mape actual predicted) = false).
Proof.
  split; [apply arima_mape_not_negative|]. split; [|split].
  - intros Hzero. unfold Arima.calculate_mape.
    assert (Hcount : filter (fun b : bool => b) (map xnonzero actual) = []).
    { clear -Hzero. induction actual as [|x l IH]; simpl; [reflexivity|].
      rewrite (Hzero x) by (now left). apply IH. intros y Hy. apply Hzero. now right. }
    rewrite Hcount. reflexivity.
  - intros Hlen. unfold Arima.calculate_mape, Arima.mask_select.
    destruct (Nat.eqb (List.length (filter (fun b => b) _)) 0); [reflexivity|].
    rewrite !length_map, Nat.eqb_refl.
    rewrite (proj2 (Nat.eqb_neq (List.length actual) (List.length predicted)))
      by congruence.
    reflexivity.
  - intros a p -> ->. destruct (proj1 (arima_mape_guarded a p)) as [q ->]. reflexivity.
Qed.

(** Ten sales figures against a prediction one short: the MAPE is 100. *)
Example arima_mape_length_mismatch :
  Arima.calculate_mape (map to_float sample_points) (repeat (Fin 12) 9) = Fin 100.
Proof. reflexivity. Qed.

Lemma squares_not_negative (l : list xnum) (mu : xnum) :
  Forall not_negative (map (fun x => xmul (xsub x mu) (xsub x mu)) l).
Proof.
  apply Forall_forall. intros r Hr. apply in_map_iff in Hr.
  destruct Hr as (x & <- & _).
  destruct (xsub x mu) as [q| | |]; simpl; try exact I.
  destruct (Qlt_le_dec q 0) as [Hneg|Hpos].
  - setoid_replace (q * q) with ((- q) * (- q)) by ring.
    apply Qmult_le_0_compat; lra.
  - apply Qmult_le_0_compat; assumption.
Qed.

Lemma np_var_not_negative (l : list xnum) : not_negative (Arima.np_var l).
Proof.
  unfold Arima.np_var. apply np_mean_not_negative, squares_not_negative.
Qed.

(** X24.  Whatever the decomposition holds, the seasonal strength is
    never negative and never above 1: it is a number between 0 and 1, or
    NaN (the clamp [min(s, 1.0)] lets a NaN through). *)
Theorem seasonal_strength_unit_interval (d : Arima.decomposition) :
  Arima.calculate_seasonal_strength d = NaN
  \/ exists q, Arima.calculate_seasonal_strength d = Fin q /\ 0 <= q <= 1.
Proof.
  unfold Arima.calculate_seasonal_strength.
  pose proof (np_var_not_negative (Arima.dropna (Arima.dc_seasonal d))) as Hs.
  pose proof (np_var_not_negative (Arima.dropna (Arima.dc_resid d))) as Hr.
  destruct (Arima.np_var (Arima.dropna (Arima.dc_resid d))) as [rv| | |];
    [ | | contradiction | ].
  - (* a finite residual variance *)
    cbn [xeq0 not_negative] in *. destruct (Qeq_bool rv 0) eqn:E0.
    { right. exists 1. split; [reflexivity | lra]. }
    apply Qeq_bool_neq in E0.
    destruct (Arima.np_var (Arima.dropna (Arima.dc_seasonal d))) as [sv| | |];
      [ | left; reflexivity | contradiction | left; reflexivity ].
    cbn [not_negative] in Hs.
    assert (Hpos : 0 < sv + rv).
    { destruct (Qle_lt_or_eq _ _ Hr) as [H|H]; [lra | symmetry in H; contradiction]. }
    cbn [xadd xdiv]. destruct (Qeq_bool (sv + rv) 0) eqn:E1.
    { apply Qeq_bool_iff in E1. lra. }
    assert (Hlo : 0 <= sv / (sv + rv)).
    { apply Qle_shift_div_l; [exact Hpos | lra]. }
    cbn [xlt]. destruct (Qlt_bool 1 (sv / (sv + rv))) eqn:E2.
    + right. exists 1. split; [reflexivity | lra].
    + right. exists (sv / (sv + rv)). split; [reflexivity|]. split; [exact Hlo|].
      apply Qle_shift_div_r; [exact Hpos | lra].
  - (* an infinite residual variance *)
    destruct (Arima.np_var (Arima.dropna (Arima.dc_seasonal d))) as [sv| | |];
      [ | left; reflexivity | contradiction | left; reflexivity ].
    right. exists 0. split; [reflexivity | lra].
  - (* no residual variance *)
    destruct (Arima.np_var (Arima.dropna (Arima.dc_seasonal d))) as [sv| | |];
      left; reflexivity.
Qed.

(** The sample decomposition has seasonal variance 4 and residual
    variance 1: its strength is 4/5. *)
Example seasonal_strength_sample :
  exists q, Arima.calculate_seasonal_strength sample_decomposition = Fin q /\ q == 4 # 5.
Proof.
  eexists. split; [vm_compute; reflexivity | reflexivity].
Qed.

(** A residual that is all gaps has no variance: the strength is not a
    number. *)
Example seasonal_strength_without_residual :
  Arima.calculate_seasonal_strength
    {| Arima.dc_trend := [];
       Arima.dc_seasonal := map Fin [2; -2];
       Arima.dc_resid := [NaN; NaN] |} = NaN.
Proof. reflexivity. Qed.

(** X25.  The tree-backend preparation, whatever the feature derivation
    does: a failure always surfaces as an [Exception] whose message
    starts with "Feature preparation failed: "; dates that are given and
    not as many as the points make it fail; an empty list of dates is
    treated as no dates; and a prepared frame has one timestamp and one
    value per input point. *)
Theorem xgboost_prepare_outcome
    (derive_features : list XGBoost.row -> option XGBoost.external
                       -> result (list string * list (list Q)))
    (now : Z) (data_points : list (option Q)) (dates : option (list Z))
    (external_features : option XGBoost.external) :
  (forall e,
      XGBoost.prepare_features derive_features now data_points dates external_features
      = Raise e ->
      exn_type e = "Exception"
      /\ exists inner, exn_msg e = ("Feature preparation failed: " ++ inner)%string)
  /\ (forall stamps, dates = Some stamps -> stamps <> [] ->
      List.length stamps <> List.length data_points ->
      XGBoost.prepare_features derive_features now data_points dates external_features
      = Raise (Exn "Exception"
                   "Feature preparation failed: All arrays must be of the same length"))
  /\ XGBoost.prepare_features derive_features now data_points (Some []) external_features
     = XGBoost.prepare_features derive_features now data_points None external_features
  /\ (forall df,
      XGBoost.prepare_features derive_features now data_points dates external_features
      = Ok df ->
      List.length (XGBoost.ds df) = List.length data_points
      /\ List.length (XGBoost.y df) = List.length data_points).
Proof.
  split; [|split; [|split]].
  - intros e. unfold XGBoost.prepare_features.
    destruct (XGBoost.base_rows now data_points dates) as [rows|e0]; simpl.
    + destruct (derive_features rows external_features) as [feats|e1]; simpl;
        [discriminate|].
      intros H. injection H as <-. split; [reflexivity | eexists; reflexivity].
    + intros H. injection H as <-. split; [reflexivity | eexists; reflexivity].
  - intros stamps -> Hne Hlen. unfold XGBoost.prepare_features, XGBoost.base_rows.
    destruct stamps as [|t stamps]; [congruence|]. cbn [truthy].
    rewrite (proj2 (Nat.eqb_neq _ _) Hlen). reflexivity.
  - reflexivity.
  - intros df H. apply prepare_features_inv in H.
    destruct H as (rows & Hrows & _ & Hds & Hy). rewrite Hds, Hy, !length_map.
    assert (Hn : List.length rows = List.length data_points); [|split; exact Hn].
    unfold XGBoost.base_rows in Hrows.
    assert (Hsorted : forall stamps, List.length stamps = List.length data_points ->
              List.length (XGBoost.sort_values (combine stamps (bfill (ffill data_points))))
              = List.length data_points).
    { intros stamps Hs.
      transitivity (List.length (combine stamps (bfill (ffill data_points)))).
      - apply Permutation_length, sort_values_perm.
      - rewrite length_combine, fill_length, Hs. apply Nat.min_id. }
    destruct (truthy dates) eqn:Et.
    + destruct dates as [stamps|]; [|discriminate].
      destruct (Nat.eqb (List.length stamps) (List.length data_points)) eqn:Eq;
        simpl in Hrows; [|discriminate].
      apply Nat.eqb_eq in Eq. injection Hrows as <-. apply Hsorted, Eq.
    + simpl in Hrows. injection Hrows as <-. apply Hsorted, synthetic_dates_length.
Qed.

(** X26.  Input validation of the autoregressive entry point: with fewer
    than ten points (or none) it answers with the insufficient-data
    message before anything is prepared; with ten or more points and
    dates that are not as many as the points it answers with the error
    envelope, whose message carries the two lengths, the error type
    being [Exception]. *)
Theorem arima_main_validation
    (ARIMA_fit : Arima.series -> Arima.order -> option Arima.seasonal_order
                 -> result Arima.fitted)
    (PMDARIMA_AVAILABLE : bool)
    (auto_arima : Arima.series -> bool -> nat -> result Arima.auto_model)
    (adfuller : list (option Q) -> result (Q * Q))
    (seasonal_decompose : Arima.series -> string -> nat -> result Arima.decomposition)
    (input_data : Arima.request) :
  ((List.length (Arima.get_default (Arima.r_data_points input_data) []) < 10)%nat ->
   Arima.main ARIMA_fit PMDARIMA_AVAILABLE auto_arima adfuller seasonal_decompose input_data
   = Arima.OutInsufficient)
  /\ (forall stamps,
      (10 <= List.length (Arima.get_default (Arima.r_data_points input_data) []))%nat ->
      Arima.r_dates input_data = Some stamps -> stamps <> [] ->
      List.length stamps
      <> List.length (Arima.get_default (Arima.r_data_points input_data) []) ->
      Arima.main ARIMA_fit PMDARIMA_AVAILABLE auto_arima adfuller seasonal_decompose
        input_data
      = Arima.OutError
          ("Data preparation failed: Length of values ("
           ++ str_nat (List.length (Arima.get_default (Arima.r_data_points input_data) []))
           ++ ") does not match length of index (" ++ str_nat (List.length stamps) ++ ")")
          "Exception").
Proof.
  unfold Arima.main, Arima.main_body. split.
  - intros Hlt. rewrite (proj2 (Nat.ltb_lt _ _) Hlt). reflexivity.
  - intros stamps Hge Hdates Hne Hlen.
    rewrite (proj2 (Nat.ltb_ge _ _) Hge).
    destruct init_shadows_seasonal_decomposition as (_ & _ & Hp & _).
    rewrite Hp. simpl bind. rewrite Hdates. unfold Arima.prepare_data.
    destruct stamps as [|t stamps]; [congruence|]. cbn [truthy].
    rewrite (proj2 (Nat.eqb_neq _ _) Hlen). reflexivity.
Qed.

(** Ten points with nine dates. *)
Example arima_main_short_dates :
  Arima.main sample_fit false failing_auto_arima sample_adfuller sample_seasonal_decompose
    short_dates_request
  = Arima.OutError
      "Data preparation failed: Length of values (10) does not match length of index (9)"
      "Exception".
Proof. reflexivity. Qed.
